(** * BookScape and DataDrivenStockAnalysis: a shallow embedding

    The repository holds two Streamlit scripts.  [BookScape.py] fetches book
    records from a REST endpoint, flattens them into a pandas frame, stores
    the frame in the SQLite table [books] and runs canned SQL analyses.
    [DataDrivenStockAnalysis.py] loads an uploaded CSV of stock prices,
    removes duplicated (Date, Symbol) rows and renders charts and tables.

    Python values are modelled by the inductive type [json]; a raised
    exception by the [Raise] case of [result]; the SQLite file by a finite map
    from table names to frames; Streamlit calls by the list of widgets a run
    has rendered.  Library routines whose code is not part of the repository
    (the HTTP client, the SQL engine, the date parser, [st.image]) are section
    variables.
    Characters of a Python [str] are the characters of a Rocq [string]. *)

From Stdlib Require Import ZArith QArith Bool List String Ascii Lia.
From Stdlib Require Import Permutation Sorted Floats.
From stdpp Require Import base strings gmap pretty.

Import ListNotations.
Local Open Scope string_scope.
Local Open Scope list_scope.
Local Open Scope Z_scope.

(** ** Python values, exceptions and results *)

(** A value decoded from JSON, which is also what a frame cell holds:
    [JNull] is Python's [None] (pandas reads it as a missing value). *)
#[local] Set Warnings "-register-all".
Inductive json : Type :=
| JNull
| JBool (b : bool)
| JNum (q : Q)
| JStr (s : string)
| JArr (items : list json)
| JObj (fields : list (string * json)).

(** An exception: its class and the text [str(e)] gives. *)
Record exn : Type := Exn { exn_class : string; exn_str : string }.

Inductive result (A : Type) : Type :=
| Ok (a : A)
| Raise (e : exn).

Arguments Ok {A} a.
Arguments Raise {A} e.

Definition rbind {A B : Type} (r : result A) (k : A -> result B) : result B :=
  match r with
  | Ok a => k a
  | Raise e => Raise e
  end.

Notation "x <-! r ; k" := (rbind r (fun x => k))
  (at level 100, r at next level, right associativity).

(** [for x in xs: ys.append(f x)], stopping at the first exception. *)
Fixpoint rmap {A B : Type} (f : A -> result B) (xs : list A) : result (list B) :=
  match xs with
  | [] => Ok []
  | x :: rest =>
      y <-! f x;
      ys <-! rmap f rest;
      Ok (y :: ys)
  end.

Definition AttributeError (what : string) : exn :=
  Exn "AttributeError" ("object has no attribute " +:+ what).
Definition TypeError (what : string) : exn := Exn "TypeError" what.
Definition KeyError (what : string) : exn := Exn "KeyError" what.
Definition ValueError (what : string) : exn := Exn "ValueError" what.

(** The items of a dict, kept as the list of its (key, value) pairs. *)
Fixpoint assoc (key : string) (fields : list (string * json)) : option json :=
  match fields with
  | [] => None
  | (k, v) :: rest => if String.eqb k key then Some v else assoc key rest
  end.

(** [d.get(key, default)], defined on dicts only; [d.get(key)] is
    [py_get d key JNull]. *)
Definition py_get (d : json) (key : string) (default : json) : result json :=
  match d with
  | JObj fields =>
      Ok (match assoc key fields with Some v => v | None => default end)
  | _ => Raise (AttributeError "'get'")
  end.

(** [sep.join(parts)] on strings. *)
Fixpoint join (sep : string) (parts : list string) : string :=
  match parts with
  | [] => ""
  | p :: rest =>
      match rest with
      | [] => p
      | _ :: _ => p +:+ sep +:+ join sep rest
      end
  end.

Fixpoint chars (s : string) : list string :=
  match s with
  | EmptyString => []
  | String c s' => String c EmptyString :: chars s'
  end.

Definition as_str (j : json) : result string :=
  match j with
  | JStr s => Ok s
  | _ => Raise (TypeError "sequence item: expected str instance")
  end.

(** [sep.join(x)] for a decoded value [x]: a list must hold strings only, a
    string is joined character by character, a dict by its keys. *)
Definition py_join (sep : string) (x : json) : result string :=
  match x with
  | JArr items => parts <-! rmap as_str items; Ok (join sep parts)
  | JStr s => Ok (join sep (chars s))
  | JObj fields => Ok (join sep (map fst fields))
  | _ => Raise (TypeError "can only join an iterable")
  end.

(** [x[:4]]: strings and lists can be sliced. *)
Definition py_slice4 (x : json) : result json :=
  match x with
  | JStr s => Ok (JStr (substring 0 4 s))
  | JArr items => Ok (JArr (firstn 4 items))
  | _ => Raise (TypeError "object is not subscriptable")
  end.

(** [for x in xs]: the elements of a list, the characters of a string, the
    keys of a dict. *)
Definition py_iter (xs : json) : result (list json) :=
  match xs with
  | JArr items => Ok items
  | JStr s => Ok (map JStr (chars s))
  | JObj fields => Ok (map (fun kv => JStr (fst kv)) fields)
  | _ => Raise (TypeError "object is not iterable")
  end.

(** The truth value [if x:] tests. *)
Definition truthy (x : json) : bool :=
  match x with
  | JNull => false
  | JBool b => b
  | JNum q => negb (Qeq_bool q 0)
  | JStr s => negb (String.eqb s "")
  | JArr items => negb (Nat.eqb (length items) 0)
  | JObj fields => negb (Nat.eqb (length fields) 0)
  end.

(** ** Frames *)

(** A pandas frame: the column labels and the rows, each row holding one
    cell per column. *)
Record DataFrame : Type := Frame { columns : list string; rows : list (list json) }.

(** [pd.DataFrame(data)] for a list of dicts that share their keys: the
    labels are the keys in insertion order, the rows are the values. *)
Definition pd_DataFrame (data : list (list (string * json))) : DataFrame :=
  {| columns := match data with [] => [] | record :: _ => map fst record end;
     rows := map (map snd) data |}.

Definition isna (cell : json) : bool :=
  match cell with
  | JNull => true
  | _ => false
  end.

Definition complete (row : list json) : bool := forallb (fun cell => negb (isna cell)) row.

(** [df.dropna()]: the rows without any missing cell. *)
Definition dropna (df : DataFrame) : DataFrame :=
  {| columns := columns df; rows := List.filter complete (rows df) |}.

(** [df.set_index(label)]: a [KeyError] unless the label is a column. *)
Definition set_index (label : string) (df : DataFrame) : result DataFrame :=
  if existsb (String.eqb label) (columns df) then Ok df
  else Raise (KeyError label).

(** ** BookScape.py: flattening the fetched records *)

(** The 21 column labels of a flattened book, in the order of the dict
    literal of [transform_data]. *)
Definition book_columns : list string :=
  [ "book_id"; "title"; "subtitle"; "authors"; "description"; "categories";
    "page_count"; "language"; "image_link"; "average_rating"; "ratings_count";
    "publisher"; "published_year"; "is_ebook"; "saleability";
    "amount_list_price"; "currency_code_list_price"; "amount_retail_price";
    "currency_code_retail_price"; "buy_link"; "country" ].

(** The body of the loop of [transform_data]: the dict appended for one
    book.  The lookups run in the order Python evaluates them, so the first
    one that fails decides the exception. *)
Definition book_record (book : json) : result (list (string * json)) :=
  volume_info <-! py_get book "volumeInfo" (JObj []);
  sale_info <-! py_get book "saleInfo" (JObj []);
  list_price <-! py_get sale_info "listPrice" (JObj []);
  retail_price <-! py_get sale_info "retailPrice" (JObj []);
  book_id <-! py_get book "id" JNull;
  title <-! py_get volume_info "title" JNull;
  subtitle <-! py_get volume_info "subtitle" JNull;
  authors_list <-! py_get volume_info "authors" (JArr []);
  authors <-! py_join ", " authors_list;
  description <-! py_get volume_info "description" JNull;
  categories_list <-! py_get volume_info "categories" (JArr []);
  categories <-! py_join ", " categories_list;
  page_count <-! py_get volume_info "pageCount" JNull;
  language <-! py_get volume_info "language" JNull;
  image_links <-! py_get volume_info "imageLinks" (JObj []);
  image_link <-! py_get image_links "thumbnail" JNull;
  average_rating <-! py_get volume_info "averageRating" JNull;
  ratings_count <-! py_get volume_info "ratingsCount" JNull;
  publisher <-! py_get volume_info "publisher" JNull;
  published_date <-! py_get volume_info "publishedDate" (JStr "");
  published_year <-! py_slice4 published_date;
  is_ebook <-! py_get sale_info "isEbook" JNull;
  saleability <-! py_get sale_info "saleability" JNull;
  amount_list_price <-! py_get list_price "amount" JNull;
  currency_code_list_price <-! py_get list_price "currencyCode" JNull;
  amount_retail_price <-! py_get retail_price "amount" JNull;
  currency_code_retail_price <-! py_get retail_price "currencyCode" JNull;
  buy_link <-! py_get sale_info "buyLink" JNull;
  country <-! py_get sale_info "country" JNull;
  Ok [ ("book_id", book_id);
       ("title", title);
       ("subtitle", subtitle);
       ("authors", JStr authors);
       ("description", description);
       ("categories", JStr categories);
       ("page_count", page_count);
       ("language", language);
       ("image_link", image_link);
       ("average_rating", average_rating);
       ("ratings_count", ratings_count);
       ("publisher", publisher);
       ("published_year", published_year);
       ("is_ebook", is_ebook);
       ("saleability", saleability);
       ("amount_list_price", amount_list_price);
       ("currency_code_list_price", currency_code_list_price);
       ("amount_retail_price", amount_retail_price);
       ("currency_code_retail_price", currency_code_retail_price);
       ("buy_link", buy_link);
       ("country", country) ].

(** [transform_data(books)]: one record per book, the frame built from the
    records, and the rows with a missing cell dropped. *)
Definition transform_data (books : json) : result DataFrame :=
  items <-! py_iter books;
  data <-! rmap book_record items;
  Ok (dropna (pd_DataFrame data)).

(** ** BookScape.py: the database and the page *)

(** What the script does to the SQLite file, in order. *)
Inductive db_event : Type :=
| DbConnect
| DbToSql (table : string)
| DbExecute (sql : string)
| DbClose.

(** A widget rendered by a Streamlit call that shows a result or a message;
    labels are kept without their emoji. *)
Inductive st_call : Type :=
| St_success (msg : string)
| St_error (msg : string)
| St_header (label : string)
| St_dataframe (df : DataFrame)
| St_table (df : DataFrame)
| St_bar_chart (index : string) (df : DataFrame).

(** The state a run of the script acts on: the tables of [books.db], the
    database calls made so far and the widgets rendered so far. *)
Record World : Type := mkWorld {
  db : gmap string DataFrame;
  trace : list db_event;
  screen : list st_call
}.

(** A statement of the script: it may change the world, and it returns a
    value or raises. *)
Definition M (A : Type) : Type := World -> result A * World.

Definition ret {A : Type} (a : A) : M A := fun w => (Ok a, w).

Definition bind {A B : Type} (m : M A) (k : A -> M B) : M B :=
  fun w =>
    match m w with
    | (Ok a, w') => k a w'
    | (Raise e, w') => (Raise e, w')
    end.

Notation "x <- m ;; k" := (bind m (fun x => k))
  (at level 100, m at next level, right associativity).
Notation "m ;;; k" := (bind m (fun _ => k))
  (at level 100, right associativity).

(** A pure computation that may raise. *)
Definition lift {A : Type} (r : result A) : M A := fun w => (r, w).

(** [try: body  except Exception as e: handler e]. *)
Definition try_except {A : Type} (body : M A) (handler : exn -> M A) : M A :=
  fun w =>
    match body w with
    | (Ok a, w') => (Ok a, w')
    | (Raise e, w') => handler e w'
    end.

Definition st (call : st_call) : M unit :=
  fun w => (Ok tt, mkWorld (db w) (trace w) (screen w ++ [call])).

Definition log (ev : db_event) : M unit :=
  fun w => (Ok tt, mkWorld (db w) (trace w ++ [ev]) (screen w)).

(** [sqlite3.connect(DB_FILE)] and [conn.close()]. *)
Definition sqlite3_connect : M unit := log DbConnect.
Definition conn_close : M unit := log DbClose.

(** *** What SQLite stores

    [DataFrame.to_sql] on a [sqlite3] connection checks the column labels,
    drops and creates the table as [if_exists] says, and inserts the rows
    with one [executemany].  Each of the three steps can raise. *)

Definition OperationalError (what : string) : exn := Exn "OperationalError" what.
Definition ProgrammingError (what : string) : exn := Exn "ProgrammingError" what.
Definition OverflowError (what : string) : exn := Exn "OverflowError" what.

Fixpoint has_nul (s : string) : bool :=
  match s with
  | EmptyString => false
  | String c s' => (Ascii.eqb c "000" || has_nul s')%bool
  end.

(** A label pandas accepts as an SQLite identifier. *)
Definition valid_name (name : string) : bool :=
  (negb (String.eqb name "") && negb (has_nul name))%bool.

(** The check pandas makes on every column label before it touches the
    file. *)
Definition valid_sqlite_name (name : string) : result unit :=
  if String.eqb name "" then Raise (ValueError "Empty table or column name specified")
  else if has_nul name then Raise (ValueError "SQLite identifier cannot contain NULs")
  else Ok tt.

(** SQLite compares column names without regard to the case of the letters
    A to Z. *)
Definition lower (c : ascii) : ascii :=
  let n := nat_of_ascii c in
  if ((65 <=? n) && (n <=? 90))%nat then ascii_of_nat (n + 32) else c.

Fixpoint lowercase (s : string) : string :=
  match s with
  | EmptyString => EmptyString
  | String c s' => String (lower c) (lowercase s')
  end.

(** The first column whose name repeats one of the columns before it. *)
Fixpoint duplicate_column (seen columns : list string) : option string :=
  match columns with
  | [] => None
  | c :: rest =>
      if existsb (String.eqb (lowercase c)) seen then Some c
      else duplicate_column (lowercase c :: seen) rest
  end.

Definition dquote : string := String "034"%char EmptyString.

(** SQLite's default limit on the columns of a table. *)
Definition max_columns : nat := 2000.

(** [CREATE TABLE name (columns)]: SQLite refuses an empty column list, a
    repeated column name and a column beyond its limit, whichever it meets
    first. *)
Definition create_statement (name : string) (columns : list string) : result unit :=
  match columns with
  | [] => Raise (OperationalError ("near " +:+ dquote +:+ ")" +:+ dquote +:+ ": syntax error"))
  | _ :: _ =>
      match duplicate_column [] (firstn max_columns columns) with
      | Some c => Raise (OperationalError ("duplicate column name: " +:+ c))
      | None =>
          if (max_columns <? length columns)%nat
          then Raise (OperationalError ("too many columns on " +:+ name))
          else Ok tt
      end
  end.

(** Whether [sqlite3] binds a number.  The model keeps a number as a rational
    and does not record whether Python holds it as an [int] or as a [float]:
    a whole number outside 64 bits is counted as an [int], which [sqlite3]
    refuses.  The statements below keep to frames without such numbers. *)
Definition fits_sqlite (q : Q) : bool :=
  let r := Qred q in
  (negb (Pos.eqb (Qden r) 1) || ((- 2 ^ 63 <=? Qnum r) && (Qnum r <? 2 ^ 63)))%bool.

(** A cell [sqlite3] binds as a parameter: [None], a boolean, a text or a
    number that fits; a list or a dict is none. *)
Definition bindable (cell : json) : bool :=
  match cell with
  | JNull | JBool _ | JStr _ => true
  | JNum q => fits_sqlite q
  | JArr _ | JObj _ => false
  end.

(** Binding one cell as the parameter at [position] (counted from 1), with
    the exceptions of [sqlite3]. *)
Definition bind_parameter (position : nat) (cell : json) : result unit :=
  match cell with
  | JNull | JBool _ | JStr _ => Ok tt
  | JNum q =>
      if fits_sqlite q then Ok tt
      else Raise (OverflowError "Python int too large to convert to SQLite INTEGER")
  | JArr _ =>
      Raise (ProgrammingError ("Error binding parameter " +:+ pretty position
                                 +:+ ": type 'list' is not supported"))
  | JObj _ =>
      Raise (ProgrammingError ("Error binding parameter " +:+ pretty position
                                 +:+ ": type 'dict' is not supported"))
  end.

Fixpoint bind_row (position : nat) (row : list json) : result unit :=
  match row with
  | [] => Ok tt
  | cell :: rest =>
      _ <-! bind_parameter position cell;
      bind_row (S position) rest
  end.

(** [executemany(INSERT ..., rows)] inside the transaction pandas opens for
    it: the first row that cannot be bound raises, and the rollback takes
    the rows inserted before it out again. *)
Definition executemany (rows : list (list json)) : result unit :=
  _ <-! rmap (bind_row 1) rows;
  Ok tt.

(** A frame [to_sql] can store in a new table: at least one column and no
    more than SQLite allows, labels that are valid and differ from each
    other, and bindable cells. *)
Definition storable (df : DataFrame) : bool :=
  (negb (Nat.eqb (length (columns df)) 0)
   && (length (columns df) <=? max_columns)%nat
   && forallb valid_name (columns df)
   && match duplicate_column [] (columns df) with None => true | Some _ => false end
   && forallb (forallb bindable) (rows df))%bool.

Definition table (name : string) : M (option DataFrame) :=
  fun w => (Ok (db w !! name), w).

Definition set_table (name : string) (df : DataFrame) : M unit :=
  fun w => (Ok tt, mkWorld (<[name := df]> (db w)) (trace w) (screen w)).

(** [DROP TABLE] and [CREATE TABLE] take effect at once: [sqlite3] opens no
    transaction for them. *)
Definition drop_table (name : string) : M unit :=
  fun w => (Ok tt, mkWorld (delete name (db w)) (trace w) (screen w)).

Definition create_table (name : string) (columns : list string) : M DataFrame :=
  lift (create_statement name columns) ;;;
  set_table name (Frame columns []) ;;;
  ret (Frame columns []).

(** The [if_exists] argument of [DataFrame.to_sql]. *)
Inductive if_exists : Type := IfFail | IfReplace | IfAppend.

(** [df.to_sql(name, conn, if_exists=mode, index=False)]: the labels are
    checked; a missing table is created; an existing one makes the call
    fail, is dropped and created again, or is kept to get the rows added
    (the frame is then taken to have the columns of the table); at last the
    rows are inserted.  A step that raises leaves what the steps before it
    did.  The table is kept as the frame that was written; how a SELECT hands
    its cells back (a boolean as 1 or 0, say) is left to [read_sql_query]. *)
Definition to_sql (name : string) (df : DataFrame) (mode : if_exists) : M unit :=
  log (DbToSql name) ;;;
  lift (rmap valid_sqlite_name (columns df)) ;;;
  existing <- table name ;;
  target <- match existing, mode with
            | None, _ => create_table name (columns df)
            | Some _, IfFail =>
                lift (Raise (ValueError ("Table '" +:+ name +:+ "' already exists.")))
            | Some _, IfReplace => drop_table name ;;; create_table name (columns df)
            | Some old, IfAppend => ret old
            end ;;
  lift (executemany (rows df)) ;;;
  set_table name (Frame (columns target) (rows target ++ rows df)).

(** The table of [books.db] the script writes and reads. *)
Definition books_table : string := "books".

(** [save_to_database(df)]. *)
Definition save_to_database (df : DataFrame) : M unit :=
  sqlite3_connect ;;;
  to_sql books_table df IfReplace ;;;
  conn_close.

(** A response of the HTTP client: the status and what [response.json()]
    gives. *)
Record Response : Type := mkResponse { status_code : Z; response_json : result json }.

(** The text of a statement after its leading blanks, and whether it starts
    with the keyword SELECT. *)
Definition is_blank (c : ascii) : bool :=
  (Ascii.eqb c " " || Ascii.eqb c "010" || Ascii.eqb c "009" || Ascii.eqb c "013")%bool.

Fixpoint lstrip (s : string) : string :=
  match s with
  | EmptyString => EmptyString
  | String c s' => if is_blank c then lstrip s' else s
  end.

Definition is_select (sql : string) : bool := String.prefix "SELECT" (lstrip sql).

(** ** BookScape.py: the analyses *)

(** The options of the "Choose Analysis" select box. *)
Definition analysis_options : list string :=
  [ "Availability of eBooks vs Physical Books";
    "Top 5 Most Expensive Books";
    "Books with High Ratings";
    "Books by Year and Publisher";
    "Find the Publisher with the Most Books Published";
    "Identify the Publisher with the Highest Average Rating";
    "Find Books Published After 2010 with at Least 500 Pages";
    "List Books with Discounts Greater than 20%";
    "Find the Average Page Count for eBooks vs Physical Books";
    "Find the Top 3 Authors with the Most Books";
    "List Publishers with More than 10 Books";
    "Find the Average Page Count for Each Category";
    "Retrieve Books with More than 3 Authors";
    "Books with Ratings Count Greater Than the Average";
    "Books with the Same Author Published in the Same Year";
    "Books with a Specific Keyword in the Title";
    "Year with the Highest Average Book Price";
    "Count Authors Who Published 3 Consecutive Years";
    "Authors Published in Same Year but Different Publishers" ].

(** The statement texts of the branches, character for character. *)
Definition sql_ebook_availability : string :=
  "
                SELECT is_ebook, COUNT(*) as count
                FROM books
                GROUP BY is_ebook
            ".

Definition sql_top5_expensive : string :=
  "
                SELECT title, amount_retail_price, currency_code_retail_price
                FROM books
                ORDER BY amount_retail_price DESC
                LIMIT 5
            ".

Definition sql_high_ratings : string :=
  "
                SELECT title, average_rating, ratings_count
                FROM books
                WHERE average_rating > 4.5
                ORDER BY average_rating DESC
            ".

Definition sql_year_publisher : string :=
  "
                SELECT published_year, publisher, COUNT(*) as book_count
                FROM books
                GROUP BY published_year, publisher
                ORDER BY published_year DESC
            ".

Definition sql_top_publisher : string :=
  "
                SELECT publisher, COUNT(*) as book_count
                FROM books
                GROUP BY publisher
                ORDER BY book_count DESC
                LIMIT 1
            ".

Definition sql_best_rated_publisher : string :=
  "
                SELECT publisher, AVG(average_rating) as avg_rating, COUNT(*) as book_count
                FROM books
                GROUP BY publisher
                HAVING COUNT(*) > 10
                ORDER BY avg_rating DESC
                LIMIT 1
            ".

Definition sql_after_2010_500_pages : string :=
  "
                SELECT title, authors, page_count, published_year
                FROM books
                WHERE published_year > '2010' AND page_count >= 500
            ".

Definition sql_discounts : string :=
  "
                SELECT title, amount_list_price, amount_retail_price, 
                       ((amount_list_price - amount_retail_price) / amount_list_price) * 100 AS discount_percentage
                FROM books
                WHERE amount_list_price > 0 AND 
                      (amount_list_price - amount_retail_price) / amount_list_price >= 0.2
            ".

Definition sql_avg_pages_ebook : string :=
  "
                SELECT is_ebook, AVG(page_count) as avg_page_count
                FROM books
                GROUP BY is_ebook
            ".

Definition sql_top3_authors : string :=
  "
                SELECT authors, COUNT(*) as book_count
                FROM books
                GROUP BY authors
                ORDER BY book_count DESC
                LIMIT 3
            ".

Definition sql_publishers_over_10 : string :=
  "
                SELECT publisher, COUNT(*) as book_count
                FROM books
                GROUP BY publisher
                HAVING COUNT(*) > 10
                ORDER BY book_count DESC
            ".

Definition sql_avg_pages_category : string :=
  "
                SELECT categories, AVG(page_count) as avg_page_count
                FROM books
                GROUP BY categories
                ORDER BY avg_page_count DESC
            ".

Definition sql_more_than_3_authors : string :=
  "
                SELECT title, authors
                FROM books
                WHERE LENGTH(authors) - LENGTH(REPLACE(authors, ',', '')) + 1 > 3
            ".

Definition sql_ratings_above_average : string :=
  "
                SELECT title, average_rating, ratings_count
                FROM books
                WHERE ratings_count > (SELECT AVG(ratings_count) FROM books)
                ORDER BY ratings_count DESC
            ".

Definition sql_same_author_year : string :=
  "
                SELECT authors, published_year, COUNT(*) as book_count
                FROM books
                GROUP BY authors, published_year
                HAVING COUNT(*) > 1
            ".

Definition sql_keyword_prefix : string :=
  "
                SELECT title, authors, published_year
                FROM books
                WHERE title LIKE '%".

Definition sql_keyword_suffix : string :=
  "%'
            ".

Definition sql_best_price_year : string :=
  "
                SELECT published_year, AVG(amount_retail_price) as avg_price
                FROM books
                GROUP BY published_year
                ORDER BY avg_price DESC
                LIMIT 1
            ".

Definition sql_consecutive_years : string :=
  "
                SELECT authors, COUNT(DISTINCT published_year) as consecutive_years
                FROM books
                GROUP BY authors
                HAVING consecutive_years >= 3
            ".

Definition sql_same_year_diff_publishers : string :=
  "
                SELECT authors, published_year, COUNT(DISTINCT publisher) as publisher_count
                FROM books
                GROUP BY authors, published_year
                HAVING publisher_count > 1
            ".

(** The f-string of the keyword branch: the text box value is spliced between
    the two fixed parts. *)
Definition sql_keyword (keyword : string) : string :=
  sql_keyword_prefix +:+ keyword +:+ sql_keyword_suffix.

(** How a branch renders its result. *)
Inductive render : Type :=
| Table
| BarChart (index : string).

(** The [if]/[elif] chain of the "Run Analysis" handler: the statement the
    chosen branch passes to [query_database] and the widget it renders.
    [keyword] is what the "Enter keyword" text box returns; only the keyword
    branch reads it.  No branch matches a string that is not an option. *)
Definition analysis_branch (analysis_choice keyword : string) : option (string * render) :=
  if String.eqb analysis_choice "Availability of eBooks vs Physical Books" then
    Some (sql_ebook_availability, BarChart "is_ebook")
  else if String.eqb analysis_choice "Top 5 Most Expensive Books" then
    Some (sql_top5_expensive, Table)
  else if String.eqb analysis_choice "Books with High Ratings" then
    Some (sql_high_ratings, Table)
  else if String.eqb analysis_choice "Books by Year and Publisher" then
    Some (sql_year_publisher, Table)
  else if String.eqb analysis_choice "Find the Publisher with the Most Books Published" then
    Some (sql_top_publisher, Table)
  else if String.eqb analysis_choice "Identify the Publisher with the Highest Average Rating" then
    Some (sql_best_rated_publisher, Table)
  else if String.eqb analysis_choice "Find Books Published After 2010 with at Least 500 Pages" then
    Some (sql_after_2010_500_pages, Table)
  else if String.eqb analysis_choice "List Books with Discounts Greater than 20%" then
    Some (sql_discounts, Table)
  else if String.eqb analysis_choice "Find the Average Page Count for eBooks vs Physical Books" then
    Some (sql_avg_pages_ebook, BarChart "is_ebook")
  else if String.eqb analysis_choice "Find the Top 3 Authors with the Most Books" then
    Some (sql_top3_authors, Table)
  else if String.eqb analysis_choice "List Publishers with More than 10 Books" then
    Some (sql_publishers_over_10, Table)
  else if String.eqb analysis_choice "Find the Average Page Count for Each Category" then
    Some (sql_avg_pages_category, Table)
  else if String.eqb analysis_choice "Retrieve Books with More than 3 Authors" then
    Some (sql_more_than_3_authors, Table)
  else if String.eqb analysis_choice "Books with Ratings Count Greater Than the Average" then
    Some (sql_ratings_above_average, Table)
  else if String.eqb analysis_choice "Books with the Same Author Published in the Same Year" then
    Some (sql_same_author_year, Table)
  else if String.eqb analysis_choice "Books with a Specific Keyword in the Title" then
    Some (sql_keyword keyword, Table)
  else if String.eqb analysis_choice "Year with the Highest Average Book Price" then
    Some (sql_best_price_year, Table)
  else if String.eqb analysis_choice "Count Authors Who Published 3 Consecutive Years" then
    Some (sql_consecutive_years, Table)
  else if String.eqb analysis_choice "Authors Published in Same Year but Different Publishers" then
    Some (sql_same_year_diff_publishers, Table)
  else None.

(** The statement a run of the dispatch executes, if any. *)
Definition analysis_sql (analysis_choice keyword : string) : option string :=
  option_map fst (analysis_branch analysis_choice keyword).

(** What the user has entered and clicked when the script runs. *)
Record Inputs : Type := mkInputs {
  query : string;
  search_clicked : bool;
  sql_query : string;
  run_query_clicked : bool;
  analysis_choice : string;
  run_analysis_clicked : bool;
  keyword : string
}.

Section Page.

(** [requests.get(API_URL, params)]: the response for a search term and a
    result limit, or the exception the client raises. *)
Variable requests_get : string -> Z -> result Response.

(** [pd.read_sql_query(sql, conn)] on the tables of the file: the frame read
    or the exception raised, and the tables afterwards. *)
Variable read_sql_query : string -> gmap string DataFrame -> result DataFrame * gmap string DataFrame.

(** [fetch_books(query, max_results)]. *)
Definition fetch_books (query : string) (max_results : Z) : result json :=
  response <-! requests_get query max_results;
  if status_code response =? 200 then
    body <-! response_json response;
    py_get body "items" (JArr [])
  else Ok (JArr []).

Definition execute (sql : string) : M DataFrame :=
  fun w =>
    let (r, tables) := read_sql_query sql (db w) in
    (r, mkWorld tables (trace w ++ [DbExecute sql]) (screen w)).

(** [query_database(query)]: [conn.close()] is the statement after the read,
    so a read that raises leaves it out. *)
Definition query_database (query : string) : M DataFrame :=
  sqlite3_connect ;;;
  result <- execute query ;;
  conn_close ;;;
  ret result.

(** The "Search" button. *)
Definition search_section (i : Inputs) : M unit :=
  if search_clicked i then
    books <- lift (fetch_books (query i) 40) ;;
    if truthy books then
      df <- lift (transform_data books) ;;
      save_to_database df ;;;
      st (St_success ("Fetched and saved " +:+ pretty (length (rows df))
                        +:+ " books to the database."))
    else st (St_error "No books found.")
  else ret tt.

(** "Stored Book Data": the whole table, read outside any [try]. *)
Definition stored_data_section : M DataFrame :=
  st (St_header "Stored Book Data") ;;;
  data <- query_database "SELECT * FROM books" ;;
  st (St_dataframe data) ;;;
  ret data.

(** The "Run Query" button. *)
Definition run_query_section (i : Inputs) : M unit :=
  if run_query_clicked i then
    try_except
      (query_result <- query_database (sql_query i) ;;
       st (St_header "Query Results") ;;;
       st (St_dataframe query_result))
      (fun e => st (St_error ("Error running query: " +:+ exn_str e)))
  else ret tt.

Definition render_result (r : render) (result : DataFrame) : M unit :=
  match r with
  | Table => st (St_table result)
  | BarChart index =>
      indexed <- lift (set_index index result) ;;
      st (St_bar_chart index indexed)
  end.

(** The body of the [try] of the "Run Analysis" button. *)
Definition run_analysis (analysis_choice keyword : string) : M unit :=
  match analysis_branch analysis_choice keyword with
  | Some (sql, r) =>
      result <- query_database sql ;;
      render_result r result
  | None => ret tt
  end.

(** The "Run Analysis" button. *)
Definition analysis_section (i : Inputs) : M unit :=
  if run_analysis_clicked i then
    try_except
      (run_analysis (analysis_choice i) (keyword i))
      (fun e => st (St_error ("Error running analysis: " +:+ exn_str e)))
  else ret tt.

(** One run of the script, up to the analyses.  (The "Book Details" loop
    that follows only renders the rows of the frame read for "Stored Book
    Data".) *)
Definition run_script (i : Inputs) : M unit :=
  search_section i ;;;
  _data <- stored_data_section ;;
  run_query_section i ;;;
  analysis_section i.

End Page.

(** ** DataDrivenStockAnalysis.py: values *)

(** A pandas timestamp in nanoseconds since the epoch; [NaT] is the missing
    one. *)
Inductive Timestamp : Type :=
| NaT
| Ts (ns : Z).

#[global] Instance Timestamp_eq_dec : EqDecision Timestamp.
Proof. solve_decision. Defined.

(** Comparisons of timestamps as pandas evaluates them: any comparison with
    [NaT] is false. *)
Definition ts_leb (a b : Timestamp) : bool :=
  match a, b with
  | Ts x, Ts y => x <=? y
  | _, _ => false
  end.

Definition ts_eqb (a b : Timestamp) : bool :=
  match a, b with
  | Ts x, Ts y => x =? y
  | _, _ => false
  end.

(** [Series.max()] and [Series.min()] skip missing values; they are missing
    themselves when nothing else is left. *)
Definition ts_max2 (a b : Timestamp) : Timestamp :=
  match a, b with
  | NaT, _ => b
  | _, NaT => a
  | Ts x, Ts y => Ts (Z.max x y)
  end.

Definition ts_min2 (a b : Timestamp) : Timestamp :=
  match a, b with
  | NaT, _ => b
  | _, NaT => a
  | Ts x, Ts y => Ts (Z.min x y)
  end.

Definition ts_max (dates : list Timestamp) : Timestamp := fold_right ts_max2 NaT dates.
Definition ts_min (dates : list Timestamp) : Timestamp := fold_right ts_min2 NaT dates.

(** A calendar day as [st.date_input] returns it, counted in days since the
    epoch; [pd.to_datetime] turns it into the timestamp of its midnight. *)
Definition to_datetime_date (day : Z) : Timestamp := Ts (day * 86400000000000).

(** The arithmetic of a numeric column.  pandas computes on binary64 floats,
    where [nan] marks a missing value; the interface lets the same
    definitions run on those floats and on exact numbers. *)
Class Numeric (V : Type) : Type := {
  nan : V;
  one : V;
  is_nan : V -> bool;
  fadd : V -> V -> V;
  fsub : V -> V -> V;
  fmul : V -> V -> V;
  fdiv : V -> V -> V;
  (** [a <= b]; false when either side is [nan]. *)
  fle : V -> V -> bool
}.

(** The floats of the machine. *)
#[global] Instance binary64 : Numeric float := {|
  nan := PrimFloat.nan;
  one := 1%float;
  is_nan := PrimFloat.is_nan;
  fadd := PrimFloat.add;
  fsub := PrimFloat.sub;
  fmul := PrimFloat.mul;
  fdiv := PrimFloat.div;
  fle := PrimFloat.leb
|}.

(** The same operations without rounding, on rationals: [None] is [nan].
    Infinities are not represented: a division by zero gives [nan]. *)
Definition exact_op (op : Q -> Q -> Q) (a b : option Q) : option Q :=
  match a, b with
  | Some x, Some y => Some (op x y)
  | _, _ => None
  end.

Definition exact_div (a b : option Q) : option Q :=
  match a, b with
  | Some x, Some y => if Qeq_bool y 0 then None else Some (x / y)%Q
  | _, _ => None
  end.

Definition exact_le (a b : option Q) : bool :=
  match a, b with
  | Some x, Some y => Qle_bool x y
  | _, _ => false
  end.

#[global] Instance exact : Numeric (option Q) := {|
  nan := None;
  one := Some 1%Q;
  is_nan := fun a => match a with None => true | Some _ => false end;
  fadd := exact_op Qplus;
  fsub := exact_op Qminus;
  fmul := exact_op Qmult;
  fdiv := exact_div;
  fle := exact_le
|}.

(** ** DataDrivenStockAnalysis.py: frames *)

(** A row of the uploaded CSV as [pd.read_csv] returns it: the text of the
    Date cell and the Symbol cell ([None] when the cell is empty), the Close
    price and the remaining cells. *)
Record RawRow (V : Type) : Type := mkRawRow {
  raw_Date : option string;
  raw_Symbol : option string;
  raw_Close : V;
  raw_others : list string
}.

Arguments mkRawRow {V}.
Arguments raw_Date {V}.
Arguments raw_Symbol {V}.
Arguments raw_Close {V}.
Arguments raw_others {V}.

(** A row once the Date column holds timestamps. *)
Record Row (V : Type) : Type := mkRow {
  Date : Timestamp;
  Symbol : option string;
  Close : V;
  others : list string
}.

Arguments mkRow {V}.
Arguments Date {V}.
Arguments Symbol {V}.
Arguments Close {V}.
Arguments others {V}.

(** [series == value] on the Symbol column: a missing symbol equals
    nothing. *)
Definition sym_eqb (a b : option string) : bool :=
  match a, b with
  | Some x, Some y => String.eqb x y
  | _, _ => false
  end.

(** The cells [subset=["Date", "Symbol"]] selects; two missing cells count
    as the same value there. *)
Definition subset_key {V : Type} (r : Row V) : Timestamp * option string :=
  (Date r, Symbol r).

(** [frame[mask]]. *)
Fixpoint mask_select {A : Type} (mask : list bool) (xs : list A) : list A :=
  match mask, xs with
  | b :: mask', x :: xs' => if b then x :: mask_select mask' xs' else mask_select mask' xs'
  | _, _ => []
  end.

Inductive keep : Type := KeepFirst | KeepLast.

Section Duplicates.

Context {K : Type} `{EqDecision K}.

Definition occurs (k : K) (ks : list K) : bool := existsb (fun k' => bool_decide (k' = k)) ks.

(** With [keep="first"] a row is a duplicate when its key occurred above
    it. *)
Fixpoint duplicated_first (seen : list K) (keys : list K) : list bool :=
  match keys with
  | [] => []
  | k :: rest => occurs k seen :: duplicated_first (k :: seen) rest
  end.

(** With [keep="last"] a row is a duplicate when its key occurs below it. *)
Fixpoint duplicated_last (keys : list K) : list bool :=
  match keys with
  | [] => []
  | k :: rest => occurs k rest :: duplicated_last rest
  end.

(** [frame.duplicated(subset, keep)], on the column of keys. *)
Definition duplicated (how : keep) (keys : list K) : list bool :=
  match how with
  | KeepFirst => duplicated_first [] keys
  | KeepLast => duplicated_last keys
  end.

End Duplicates.

(** [frame.drop_duplicates(subset=["Date", "Symbol"], keep=how)]: the rows
    that are not marked as duplicates. *)
Definition drop_duplicates {V : Type} (how : keep) (frame : list (Row V)) : list (Row V) :=
  mask_select (map negb (duplicated how (map subset_key frame))) frame.

(** [series.any()]. *)
Definition any (mask : list bool) : bool := existsb (fun b => b) mask.

(** A widget rendered by the stock dashboard.  The payloads of the
    sector-wise bar chart, of the correlation matrix and of the CSV download
    are not represented. *)
Record StockFrame (V : Type) : Type := mkStockFrame {
  frame_rows : list (Row V);
  Daily_Return : option (list V);
  Cumulative_Return : option (list V)
}.

Arguments mkStockFrame {V}.
Arguments frame_rows {V}.
Arguments Daily_Return {V}.
Arguments Cumulative_Return {V}.

Inductive widget (V : Type) : Type :=
| W_title (label : string)
| W_warning (msg : string)
| W_write (text : string)
| W_line_chart (frame : StockFrame V) (x y title : string)
| W_bar_chart (title : string)
| W_dataframe (frame : list (Row V))
| W_correlation
| W_download (file_name : string).

Arguments W_title {V}.
Arguments W_warning {V}.
Arguments W_write {V}.
Arguments W_line_chart {V}.
Arguments W_bar_chart {V}.
Arguments W_dataframe {V}.
Arguments W_correlation {V}.
Arguments W_download {V}.

(** ** DataDrivenStockAnalysis.py: loading *)

Section Load.

Context {V : Type}.

(** [pd.to_datetime] on the text of one cell: the timestamp, or the
    exception raised for a text that is no date. *)
Variable to_datetime : string -> result Timestamp.

Definition parse_row (raw : RawRow V) : result (Row V) :=
  date <-! match raw_Date raw with
           | Some text => to_datetime text
           | None => Ok NaT
           end;
  Ok (mkRow date (raw_Symbol raw) (raw_Close raw) (raw_others raw)).

(** [df["Date"] = pd.to_datetime(df["Date"])]. *)
Definition parse_dates (csv : list (RawRow V)) : result (list (Row V)) :=
  rmap parse_row csv.

Definition upload_warning : string := "Please upload a CSV file to proceed.".

(** [load_data()]: the widgets it renders and the frame it returns. *)
Definition load_data (uploaded_file : option (list (RawRow V)))
  : list (widget V) * result (list (Row V)) :=
  match uploaded_file with
  | Some csv =>
      ([], df <-! parse_dates csv; Ok (drop_duplicates KeepLast df))
  | None => ([W_warning upload_warning], Ok [])
  end.

End Load.

(** ** DataDrivenStockAnalysis.py: the analysis page *)

Section Sorting.

Context {A : Type}.

(** [before x y]: [x] may stand before [y]. *)
Variable before : A -> A -> bool.

(** A stable insertion sort: an element is put in front of the first one it
    may stand before. *)
Fixpoint insert_sorted (x : A) (sorted : list A) : list A :=
  match sorted with
  | [] => [x]
  | y :: rest => if before x y then x :: sorted else y :: insert_sorted x rest
  end.

Definition stable_sort (xs : list A) : list A := fold_right insert_sorted [] xs.

End Sorting.

Section Analysis.

Context {V : Type} `{Numeric V}.

(** Orders of [sort_values] on a numeric column, missing values last:
    descending and ascending. *)
Definition desc_nan_last (a b : V) : bool :=
  if is_nan b then true else if is_nan a then false else fle b a.

Definition asc_nan_last (a b : V) : bool :=
  if is_nan b then true else if is_nan a then false else fle a b.

(** [frame.nlargest(n, "Close")] and [frame.nsmallest(n, "Close")] as pandas
    documents them: the first [n] rows of the frame sorted by Close,
    descending or ascending, rows with equal prices in their order. *)
Definition nlargest (n : nat) (frame : list (Row V)) : list (Row V) :=
  firstn n (stable_sort (fun r1 r2 => desc_nan_last (Close r1) (Close r2)) frame).

Definition nsmallest (n : nat) (frame : list (Row V)) : list (Row V) :=
  firstn n (stable_sort (fun r1 r2 => asc_nan_last (Close r1) (Close r2)) frame).

(** [series.shift(1)]: every value moves one row down, the first row gets
    [nan], the last value is dropped. *)
Definition shift1 (series : list V) : list V := firstn (length series) (nan :: series).

(** [series.pct_change()]: [series / series.shift(1) - 1].  (Older pandas
    first fills missing values forward, which changes nothing on a series
    without them.) *)
Definition pct_change (series : list V) : list V :=
  map (fun p : V * V => fsub (fdiv (fst p) (snd p)) one) (combine series (shift1 series)).

(** [np.cumprod] after the first value. *)
Fixpoint running_product (acc : V) (values : list V) : list V :=
  match values with
  | [] => []
  | x :: rest => fmul acc x :: running_product (fmul acc x) rest
  end.

Definition np_cumprod (values : list V) : list V :=
  match values with
  | [] => []
  | x :: rest => x :: running_product x rest
  end.

(** [series.cumprod()] with pandas' default [skipna=True]: missing values
    count as 1 in the product and stay missing in the result. *)
Definition cumprod (series : list V) : list V :=
  let mask := map is_nan series in
  let values := map (fun x => if is_nan x then one else x) series in
  map (fun p : bool * V => if fst p then nan else snd p) (combine mask (np_cumprod values)).

Definition daily_return (closes : list V) : list V := pct_change closes.

Definition cumulative_return (closes : list V) : list V :=
  cumprod (map (fadd one) (daily_return closes)).

(** The rows [data[(data["Symbol"] == selected_stock) &
    (data["Date"] >= start) & (data["Date"] <= end)]] selects. *)
Definition in_selection (selected_stock : option string) (start_date end_date : Z)
    (r : Row V) : bool :=
  sym_eqb (Symbol r) selected_stock
  && ts_leb (to_datetime_date start_date) (Date r)
  && ts_leb (Date r) (to_datetime_date end_date).

Definition filtered_data (data : list (Row V)) (selected_stock : option string)
    (start_date end_date : Z) : list (Row V) :=
  List.filter (in_selection selected_stock start_date end_date) data.

(** [data[data["Date"] == data["Date"].max()]]. *)
Definition latest_data (data : list (Row V)) : list (Row V) :=
  List.filter (fun r => ts_eqb (Date r) (ts_max (map Date data))) data.

Definition top_gainers (data : list (Row V)) : list (Row V) := nlargest 5 (latest_data data).
Definition top_losers (data : list (Row V)) : list (Row V) := nsmallest 5 (latest_data data).

Definition duplicate_warning : string :=
  "Warning: Dataset contains duplicate (Date, Symbol) entries. They have been handled automatically.".

Definition no_data_warning : string :=
  "No data available. Please upload the required CSV file.".

(** [str(selected_stock)] inside the f-strings. *)
Definition show_symbol (selected_stock : option string) : string :=
  match selected_stock with
  | Some s => s
  | None => "nan"
  end.

(** The "Data Analysis & Visualization" page for the loaded frame, the stock
    picked in the select box and the two days of the date input. *)
Definition analysis_page (data : list (Row V)) (selected_stock : option string)
    (start_date end_date : Z) : list (widget V) :=
  W_title "Stock Market Data Analysis" ::
  match data with
  | [] => [W_warning no_data_warning]
  | _ :: _ =>
      let filtered := filtered_data data selected_stock start_date end_date in
      let daily := daily_return (map Close filtered) in
      let cumulative := cumulative_return (map Close filtered) in
      [ W_line_chart (mkStockFrame filtered None None) "Date" "Close"
          ("Stock Price of " +:+ show_symbol selected_stock);
        W_line_chart (mkStockFrame filtered (Some daily) None) "Date" "Daily Return"
          ("Volatility of " +:+ show_symbol selected_stock);
        W_line_chart (mkStockFrame filtered (Some daily) (Some cumulative)) "Date"
          "Cumulative Return" ("Cumulative Return of " +:+ show_symbol selected_stock);
        W_bar_chart "Sector-Wise Stock Performance";
        W_write "### Top 5 Gainers";
        W_dataframe (top_gainers data);
        W_write "### Top 5 Losers";
        W_dataframe (top_losers data) ]
      ++ (if any (duplicated KeepFirst (map subset_key data))
          then [W_warning duplicate_warning] else [])
      ++ [ W_write "### Stock Price Correlation Matrix";
           W_correlation;
           W_download (show_symbol selected_stock +:+ "_data.csv") ]
  end.

End Analysis.

(** * Notions used in the statements *)

(** The option whose branch reads the keyword box. *)
Definition keyword_choice : string := "Books with a Specific Keyword in the Title".

(** The number of connections a trace leaves open. *)
Fixpoint open_connections (events : list db_event) : Z :=
  match events with
  | [] => 0
  | DbConnect :: rest => 1 + open_connections rest
  | DbClose :: rest => open_connections rest - 1
  | _ :: rest => open_connections rest
  end.

(** The error box of the [except] clause of "Run Analysis". *)
Definition analysis_error (e : exn) : st_call :=
  St_error ("Error running analysis: " +:+ exn_str e).

(** What the "Run Analysis" button adds to the page, as a function of the
    option, the text box and the tables: the widget of the branch, or the
    error box. *)
Definition analysis_widgets
    (read_sql_query : string -> gmap string DataFrame -> result DataFrame * gmap string DataFrame)
    (analysis_choice keyword : string) (tables : gmap string DataFrame) : list st_call :=
  match analysis_branch analysis_choice keyword with
  | None => []
  | Some (sql, r) =>
      match fst (read_sql_query sql tables) with
      | Raise e => [analysis_error e]
      | Ok df =>
          match r with
          | Table => [St_table df]
          | BarChart index =>
              match set_index index df with
              | Ok indexed => [St_bar_chart index indexed]
              | Raise e => [analysis_error e]
              end
          end
      end
  end.

(** A session: the "Run Analysis" button clicked once for every entry, in
    order. *)
Fixpoint run_analyses
    (read_sql_query : string -> gmap string DataFrame -> result DataFrame * gmap string DataFrame)
    (history : list Inputs) : M unit :=
  match history with
  | [] => ret tt
  | i :: rest =>
      analysis_section read_sql_query i ;;;
      run_analyses read_sql_query rest
  end.

(** The database calls one [query_database] adds to the trace. *)
Definition query_events {A : Type} (sql : string) (outcome : result A) : list db_event :=
  match outcome with
  | Ok _ => [DbConnect; DbExecute sql; DbClose]
  | Raise _ => [DbConnect; DbExecute sql]
  end.

(** A list in which every element may stand before all later ones. *)
Definition ordered_by {A : Type} (before : A -> A -> bool) : list A -> Prop :=
  StronglySorted (fun x y => before x y = true).

(** A top-k selection: [selected] holds [k] elements of [pool] (all of them
    when [pool] has fewer), in order, and each of them may stand before every
    element left out. *)
Definition is_top_k {A : Type} (before : A -> A -> bool) (k : nat)
    (pool selected : list A) : Prop :=
  length selected = Nat.min k (length pool)
  /\ ordered_by before selected
  /\ exists rest : list A,
       Permutation pool (selected ++ rest)
       /\ forall g r : A, In g selected -> In r rest -> before g r = true.

(** [drop_duplicates] with [keep="last"], for any key. *)
Definition keep_last {A K : Type} `{EqDecision K} (key : A -> K) (xs : list A) : list A :=
  mask_select (map negb (duplicated_last (map key xs))) xs.

(** The rows of [pct_change] after the first: every close is divided by the
    one above it. *)
Definition later_returns {V : Type} `{Numeric V} (previous : V) (closes : list V) : list V :=
  map (fun p : V * V => fsub (fdiv (fst p) (snd p)) one)
      (combine closes (firstn (length closes) (previous :: closes))).

(** The rows of [cumprod] after the first, for the product so far. *)
Definition masked_products {V : Type} `{Numeric V} (acc : V) (factors : list V) : list V :=
  map (fun p : bool * V => if fst p then nan else snd p)
      (combine (map is_nan factors)
               (running_product acc (map (fun x => if is_nan x then one else x) factors))).

(** The place of a float that is a number on the line: the class (negative
    infinity, negative, zero, positive, positive infinity), then exponent
    and mantissa, compared in this order. *)
Definition sf_rank (f : spec_float) : Z * Z * Z :=
  match f with
  | S754_zero _ => (0, 0, 0)
  | S754_infinity s => (if s then -2 else 2, 0, 0)
  | S754_nan => (0, 0, 0)
  | S754_finite s m e => if s then (-1, - e, - Zpos m) else (1, e, Zpos m)
  end.

Definition lex_le (a b : Z * Z * Z) : Prop :=
  let '(a1, a2, a3) := a in
  let '(b1, b2, b3) := b in
  a1 < b1 \/ (a1 = b1 /\ (a2 < b2 \/ (a2 = b2 /\ a3 <= b3))).

(** * Sample data *)

(** A record with every field the flattening reads, and one with a title
    only. *)
Definition sample_book_full : json :=
  JObj [ ("id", JStr "b1");
         ("volumeInfo",
           JObj [ ("title", JStr "Data Science");
                  ("subtitle", JStr "A primer");
                  ("authors", JArr [JStr "A. Author"; JStr "B. Writer"]);
                  ("description", JStr "An introduction.");
                  ("categories", JArr [JStr "Computers"]);
                  ("pageCount", JNum 320%Q);
                  ("language", JStr "en");
                  ("imageLinks", JObj [("thumbnail", JStr "http://books.example/b1.png")]);
                  ("averageRating", JNum (9 # 2)%Q);
                  ("ratingsCount", JNum 12%Q);
                  ("publisher", JStr "Press");
                  ("publishedDate", JStr "2019-05-01") ]);
         ("saleInfo",
           JObj [ ("isEbook", JBool true);
                  ("saleability", JStr "FOR_SALE");
                  ("listPrice", JObj [("amount", JNum 30%Q); ("currencyCode", JStr "USD")]);
                  ("retailPrice", JObj [("amount", JNum 24%Q); ("currencyCode", JStr "USD")]);
                  ("buyLink", JStr "http://books.example/buy/b1");
                  ("country", JStr "US") ]) ].

Definition sample_book_title_only : json :=
  JObj [ ("id", JStr "b2"); ("volumeInfo", JObj [("title", JStr "Untitled notes")]) ].

(** A record that lacks its authors, categories and date of publication and
    is complete otherwise. *)
Definition sample_book_anonymous : json :=
  JObj [ ("id", JStr "b3");
         ("volumeInfo",
           JObj [ ("title", JStr "Anonymous");
                  ("subtitle", JStr "No names");
                  ("description", JStr "Unsigned.");
                  ("pageCount", JNum 10%Q);
                  ("language", JStr "en");
                  ("imageLinks", JObj [("thumbnail", JStr "http://books.example/b3.png")]);
                  ("averageRating", JNum 3%Q);
                  ("ratingsCount", JNum 1%Q);
                  ("publisher", JStr "Press") ]);
         ("saleInfo",
           JObj [ ("isEbook", JBool false);
                  ("saleability", JStr "FOR_SALE");
                  ("listPrice", JObj [("amount", JNum 5%Q); ("currencyCode", JStr "USD")]);
                  ("retailPrice", JObj [("amount", JNum 5%Q); ("currencyCode", JStr "USD")]);
                  ("buyLink", JStr "http://books.example/buy/b3");
                  ("country", JStr "US") ]) ].

(** A record that is complete and holds its title as a list of two texts. *)
Definition sample_book_two_titles : json :=
  JObj [ ("id", JStr "b4");
         ("volumeInfo",
           JObj [ ("title", JArr [JStr "Data"; JStr "Science"]);
                  ("subtitle", JStr "Two titles");
                  ("authors", JArr [JStr "C. Scribe"]);
                  ("description", JStr "A record of another shape.");
                  ("categories", JArr [JStr "Computers"]);
                  ("pageCount", JNum 100%Q);
                  ("language", JStr "en");
                  ("imageLinks", JObj [("thumbnail", JStr "http://books.example/b4.png")]);
                  ("averageRating", JNum 4%Q);
                  ("ratingsCount", JNum 2%Q);
                  ("publisher", JStr "Press");
                  ("publishedDate", JStr "2021-01-01") ]);
         ("saleInfo",
           JObj [ ("isEbook", JBool false);
                  ("saleability", JStr "FOR_SALE");
                  ("listPrice", JObj [("amount", JNum 10%Q); ("currencyCode", JStr "USD")]);
                  ("retailPrice", JObj [("amount", JNum 8%Q); ("currencyCode", JStr "USD")]);
                  ("buyLink", JStr "http://books.example/buy/b4");
                  ("country", JStr "US") ]) ].

Definition sample_frame_two_titles : DataFrame :=
  Frame book_columns
    [ [ JStr "b4"; JArr [JStr "Data"; JStr "Science"]; JStr "Two titles"; JStr "C. Scribe";
        JStr "A record of another shape."; JStr "Computers"; JNum 100%Q; JStr "en";
        JStr "http://books.example/b4.png"; JNum 4%Q; JNum 2%Q; JStr "Press";
        JStr "2021"; JBool false; JStr "FOR_SALE"; JNum 10%Q; JStr "USD"; JNum 8%Q;
        JStr "USD"; JStr "http://books.example/buy/b4"; JStr "US" ] ].

Definition sample_books : list json := [sample_book_title_only; sample_book_full].

Definition sample_frame : DataFrame :=
  Frame book_columns
    [ [ JStr "b1"; JStr "Data Science"; JStr "A primer"; JStr "A. Author, B. Writer";
        JStr "An introduction."; JStr "Computers"; JNum 320%Q; JStr "en";
        JStr "http://books.example/b1.png"; JNum (9 # 2)%Q; JNum 12%Q; JStr "Press";
        JStr "2019"; JBool true; JStr "FOR_SALE"; JNum 30%Q; JStr "USD"; JNum 24%Q;
        JStr "USD"; JStr "http://books.example/buy/b1"; JStr "US" ] ].

(** A stand-in for the SQL engine: a statement with an unterminated string
    literal is refused, any other one reads the whole [books] table, and no
    statement changes a table. *)
Fixpoint count_quotes (s : string) : nat :=
  match s with
  | EmptyString => 0%nat
  | String c s' => ((if Ascii.eqb c "'" then 1 else 0) + count_quotes s')%nat
  end.

Definition sample_engine (sql : string) (tables : gmap string DataFrame)
  : result DataFrame * gmap string DataFrame :=
  if Nat.even (count_quotes sql) then
    match tables !! books_table with
    | Some df => (Ok df, tables)
    | None => (Raise (Exn "DatabaseError" "no such table: books"), tables)
    end
  else (Raise (Exn "DatabaseError" "unrecognized token"), tables).

Definition sample_world : World := mkWorld {[ books_table := sample_frame ]} [] [].

(** HTTP clients: one that answers with the two sample books, one that
    answers 500, one whose connection fails. *)
Definition http_ok (_ : string) (_ : Z) : result Response :=
  Ok (mkResponse 200 (Ok (JObj [("kind", JStr "books#volumes"); ("items", JArr sample_books)]))).

Definition http_500 (_ : string) (_ : Z) : result Response :=
  Ok (mkResponse 500 (Ok (JObj [("error", JStr "backend")]))).

Definition http_down (_ : string) (_ : Z) : result Response :=
  Raise (Exn "ConnectionError" "connection refused").

(** Runs of the page with the "Run Analysis" button clicked on the keyword
    option: they differ in the text box only. *)
Definition inputs_keyword (keyword : string) : Inputs :=
  mkInputs "Data Science" false "SELECT * FROM books LIMIT 10" false keyword_choice true keyword.

Definition inputs_python : Inputs := inputs_keyword "Python".
Definition inputs_rust : Inputs := inputs_keyword "Rust".
Definition inputs_quote : Inputs := inputs_keyword "'".

(** A run with the "Search" button clicked, and one with "Run Query". *)
Definition inputs_search : Inputs :=
  mkInputs "Data Science" true "SELECT * FROM books LIMIT 10" false
    "Top 5 Most Expensive Books" false "Python".

Definition inputs_run_query : Inputs :=
  mkInputs "Data Science" false "SELECT * FROM books LIMIT 10" true
    "Top 5 Most Expensive Books" false "Python".

(** Two runs of "Run Analysis" on the same fixed option that differ in
    every text input, and a run with every button clicked and a malformed
    statement in the query box. *)
Definition inputs_top5_a : Inputs :=
  mkInputs "Data Science" false "SELECT * FROM books LIMIT 10" false
    "Top 5 Most Expensive Books" true "Python".

Definition inputs_top5_b : Inputs :=
  mkInputs "Cooking" false "SELECT title FROM books" false
    "Top 5 Most Expensive Books" true "Rust".

Definition inputs_all_clicked : Inputs :=
  mkInputs "Data Science" true "SELECT title FROM books WHERE title = 'x" true
    keyword_choice true "Python".

(** A stand-in for the date parser: it knows two days, the second one in
    two spellings, and refuses any other text. *)
Definition sample_to_datetime (text : string) : result Timestamp :=
  if String.eqb text "2024-01-01" then Ok (to_datetime_date 19723)
  else if String.eqb text "2024-01-02" then Ok (to_datetime_date 19724)
  else if String.eqb text "01/02/2024" then Ok (to_datetime_date 19724)
  else Raise (ValueError ("Unknown datetime string format, unable to parse: " +:+ text)).

(** An upload with exact prices: the rows 2 and 4 share their day and their
    symbol. *)
Definition sample_csv : list (RawRow (option Q)) :=
  [ mkRawRow (Some "2024-01-01") (Some "TCS") (Some 100%Q) ["first"];
    mkRawRow (Some "2024-01-02") (Some "TCS") (Some 110%Q) ["stale"];
    mkRawRow (Some "2024-01-02") (Some "INFY") (Some 50%Q) ["third"];
    mkRawRow (Some "01/02/2024") (Some "TCS") (Some 120%Q) ["fresh"] ].

Definition sample_data : list (Row (option Q)) :=
  [ mkRow (to_datetime_date 19723) (Some "TCS") (Some 100%Q) ["first"];
    mkRow (to_datetime_date 19724) (Some "INFY") (Some 50%Q) ["third"];
    mkRow (to_datetime_date 19724) (Some "TCS") (Some 120%Q) ["fresh"] ].

(** A market day with six symbols after a day with one, and a price series
    of three days. *)
Definition sample_market : list (Row (option Q)) :=
  [ mkRow (to_datetime_date 19723) (Some "TCS") (Some 100%Q) [];
    mkRow (to_datetime_date 19724) (Some "TCS") (Some 120%Q) [];
    mkRow (to_datetime_date 19724) (Some "INFY") (Some 50%Q) [];
    mkRow (to_datetime_date 19724) (Some "HDFC") (Some (3 # 2)%Q) [];
    mkRow (to_datetime_date 19724) (Some "ITC") (Some 400%Q) [];
    mkRow (to_datetime_date 19724) (Some "SBIN") (Some 75%Q) [];
    mkRow (to_datetime_date 19724) (Some "WIPRO") (Some 90%Q) [] ].

(** The same market day with the prices as floats. *)
Definition sample_market_float : list (Row float) :=
  [ mkRow (to_datetime_date 19723) (Some "TCS") 100%float [];
    mkRow (to_datetime_date 19724) (Some "TCS") 120%float [];
    mkRow (to_datetime_date 19724) (Some "INFY") 50%float [];
    mkRow (to_datetime_date 19724) (Some "HDFC") 1.5%float [];
    mkRow (to_datetime_date 19724) (Some "ITC") 400%float [];
    mkRow (to_datetime_date 19724) (Some "SBIN") 75%float [];
    mkRow (to_datetime_date 19724) (Some "WIPRO") 90%float [] ].

Definition sample_closes : list Q := [100%Q; 110%Q; 121%Q].

(** * BookScape.py: proofs *)

Lemma rmap_Forall2 {A B : Type} (f : A -> result B) (xs : list A) (ys : list B) :
  rmap f xs = Ok ys -> Forall2 (fun x y => f x = Ok y) xs ys.
Proof.
  revert ys; induction xs as [|x xs IH]; intros ys Hmap; simpl in Hmap.
  - injection Hmap as <-. constructor.
  - destruct (f x) as [y|e] eqn:Hx; simpl in Hmap; [|discriminate].
    destruct (rmap f xs) as [ys'|e] eqn:Hxs; simpl in Hmap; [|discriminate].
    injection Hmap as <-. constructor; [exact Hx | apply IH; reflexivity].
Qed.

Lemma rbind_Ok {A B : Type} (r : result A) (k : A -> result B) (b : B) :
  rbind r k = Ok b -> exists a, r = Ok a /\ k a = Ok b.
Proof.
  destruct r as [a|e]; simpl; intros Hk; [|discriminate].
  exists a; split; [reflexivity | exact Hk].
Qed.

(** Every record the loop appends carries the 21 labels, in order. *)
Lemma book_record_columns (book : json) (record : list (string * json)) :
  book_record book = Ok record -> map fst record = book_columns.
Proof.
  unfold book_record. intros Hrec.
  repeat (apply rbind_Ok in Hrec; destruct Hrec as [? [_ Hrec]]).
  injection Hrec as <-. reflexivity.
Qed.

Lemma complete_no_null (row : list json) :
  complete row = true -> Forall (fun cell => cell <> JNull) row.
Proof.
  unfold complete. rewrite forallb_forall, List.Forall_forall.
  intros Hrow cell Hin ->. specialize (Hrow JNull Hin). discriminate.
Qed.

(** The three steps of [to_sql] return on a storable frame. *)
Lemma valid_names_ok (names : list string) :
  forallb valid_name names = true ->
  exists checked : list unit, rmap valid_sqlite_name names = Ok checked.
Proof.
  induction names as [|name names IH]; simpl; intros Hvalid; [exists []; reflexivity|].
  apply andb_prop in Hvalid. destruct Hvalid as [Hname Hnames].
  destruct (IH Hnames) as [checked ->].
  unfold valid_name in Hname. apply andb_prop in Hname. destruct Hname as [Hne Hnul].
  unfold valid_sqlite_name.
  destruct (String.eqb name ""); [discriminate Hne|].
  destruct (has_nul name); [discriminate Hnul|].
  simpl. exists (tt :: checked). reflexivity.
Qed.

Lemma create_statement_ok (name : string) (columns : list string) :
  Nat.eqb (length columns) 0 = false ->
  (length columns <=? max_columns)%nat = true ->
  duplicate_column [] columns = None ->
  create_statement name columns = Ok tt.
Proof.
  intros Hlen Hmax Hdup. unfold create_statement.
  destruct columns as [|c rest]; [discriminate Hlen|].
  apply Nat.leb_le in Hmax.
  rewrite (firstn_all2 (c :: rest) Hmax), Hdup.
  destruct (Nat.ltb_spec max_columns (length (c :: rest))) as [Hlt|_]; [lia | reflexivity].
Qed.

Lemma bind_row_ok (position : nat) (row : list json) :
  forallb bindable row = true -> bind_row position row = Ok tt.
Proof.
  revert position; induction row as [|cell row IH]; intros position Hrow; [reflexivity|].
  simpl in Hrow. apply andb_prop in Hrow. destruct Hrow as [Hcell Hrow].
  simpl. rewrite (IH (S position) Hrow).
  destruct cell; simpl in *; try reflexivity; try discriminate Hcell.
  rewrite Hcell. reflexivity.
Qed.

Lemma executemany_ok (table_rows : list (list json)) :
  forallb (forallb bindable) table_rows = true -> executemany table_rows = Ok tt.
Proof.
  intros Hrows. unfold executemany.
  assert (H : exists bound, rmap (bind_row 1) table_rows = Ok bound).
  { induction table_rows as [|row rest IH]; [exists []; reflexivity|].
    simpl in Hrows. apply andb_prop in Hrows. destruct Hrows as [Hrow Hrest].
    destruct (IH Hrest) as [bound Hbound]. simpl.
    rewrite (bind_row_ok 1 row Hrow), Hbound. exists (tt :: bound). reflexivity. }
  destruct H as [bound ->]. reflexivity.
Qed.

Lemma storable_steps (name : string) (df : DataFrame) :
  storable df = true ->
  (exists checked : list unit, rmap valid_sqlite_name (columns df) = Ok checked)
  /\ create_statement name (columns df) = Ok tt
  /\ executemany (rows df) = Ok tt.
Proof.
  unfold storable. intros H.
  apply andb_prop in H. destruct H as [H Hrows].
  apply andb_prop in H. destruct H as [H Hdup].
  apply andb_prop in H. destruct H as [H Hnames].
  apply andb_prop in H. destruct H as [Hlen Hmax].
  split; [exact (valid_names_ok _ Hnames)|]. split.
  - apply create_statement_ok.
    + destruct (Nat.eqb (length (columns df)) 0); [discriminate Hlen | reflexivity].
    + exact Hmax.
    + destruct (duplicate_column [] (columns df)); [discriminate Hdup | reflexivity].
  - exact (executemany_ok _ Hrows).
Qed.

(** What [to_sql] with [if_exists="replace"] does, by the first step that
    raises: a refused label leaves the file as it was, a refused CREATE
    leaves it without the table, a refused INSERT leaves the new table
    empty. *)
Lemma to_sql_replace (name : string) (df : DataFrame) (w : World) :
  to_sql name df IfReplace w =
    match rmap valid_sqlite_name (columns df) with
    | Raise e => (Raise e, mkWorld (db w) (trace w ++ [DbToSql name]) (screen w))
    | Ok _ =>
        match create_statement name (columns df) with
        | Raise e =>
            (Raise e, mkWorld (delete name (db w)) (trace w ++ [DbToSql name]) (screen w))
        | Ok _ =>
            match executemany (rows df) with
            | Raise e =>
                (Raise e,
                 mkWorld (<[name := Frame (columns df) []]> (db w))
                         (trace w ++ [DbToSql name]) (screen w))
            | Ok _ =>
                (Ok tt, mkWorld (<[name := df]> (db w)) (trace w ++ [DbToSql name]) (screen w))
            end
        end
    end.
Proof.
  unfold to_sql, bind, log, lift, table, create_table, drop_table, set_table, ret, bind, lift.
  simpl.
  destruct (rmap valid_sqlite_name (columns df)) as [checked|e]; [|reflexivity].
  destruct (db w !! name) as [old|] eqn:Hold; simpl;
    destruct (create_statement name (columns df)) as [[]|e]; simpl;
    try (rewrite (delete_id (db w) name Hold)); try reflexivity;
    destruct (executemany (rows df)) as [[]|e]; simpl;
    rewrite ?insert_insert_eq, ?insert_delete_eq; destruct df; reflexivity.
Qed.

(** [save_to_database] by the first step of [to_sql] that raises:
    [conn.close()] is reached only when none does. *)
Lemma save_to_database_steps (df : DataFrame) (w : World) :
  save_to_database df w =
    match rmap valid_sqlite_name (columns df) with
    | Raise e =>
        (Raise e, mkWorld (db w) (trace w ++ [DbConnect; DbToSql books_table]) (screen w))
    | Ok _ =>
        match create_statement books_table (columns df) with
        | Raise e =>
            (Raise e,
             mkWorld (delete books_table (db w))
                     (trace w ++ [DbConnect; DbToSql books_table]) (screen w))
        | Ok _ =>
            match executemany (rows df) with
            | Raise e =>
                (Raise e,
                 mkWorld (<[books_table := Frame (columns df) []]> (db w))
                         (trace w ++ [DbConnect; DbToSql books_table]) (screen w))
            | Ok _ =>
                (Ok tt,
                 mkWorld (<[books_table := df]> (db w))
                         (trace w ++ [DbConnect; DbToSql books_table; DbClose]) (screen w))
            end
        end
    end.
Proof.
  unfold save_to_database, bind, sqlite3_connect, log. rewrite to_sql_replace. simpl.
  destruct (rmap valid_sqlite_name (columns df)) as [checked|e];
    [|rewrite <- app_assoc; reflexivity].
  destruct (create_statement books_table (columns df)) as [[]|e]; [|rewrite <- app_assoc; reflexivity].
  destruct (executemany (rows df)) as [[]|e]; [|rewrite <- app_assoc; reflexivity].
  unfold conn_close, log. simpl. repeat rewrite <- app_assoc. reflexivity.
Qed.

(** [save_to_database] on a storable frame returns and leaves [df] as the
    table; the connection is closed. *)
Lemma save_to_database_spec (df : DataFrame) (w : World) :
  storable df = true ->
  save_to_database df w =
    (Ok tt, mkWorld (<[books_table := df]> (db w))
                    (trace w ++ [DbConnect; DbToSql books_table; DbClose]) (screen w)).
Proof.
  intros Hdf. destruct (storable_steps books_table df Hdf) as [[checked Hnames] [Hcreate Hinsert]].
  rewrite save_to_database_steps, Hnames, Hcreate, Hinsert. reflexivity.
Qed.

(** When [save_to_database] raises, [conn.close()] was not reached. *)
Lemma save_to_database_raises (df : DataFrame) (w : World) (e : exn) :
  fst (save_to_database df w) = Raise e ->
  trace (snd (save_to_database df w)) = trace w ++ [DbConnect; DbToSql books_table]
  /\ screen (snd (save_to_database df w)) = screen w.
Proof.
  rewrite save_to_database_steps.
  destruct (rmap valid_sqlite_name (columns df)) as [checked|e1]; [|split; reflexivity].
  destruct (create_statement books_table (columns df)) as [[]|e1]; [|split; reflexivity].
  destruct (executemany (rows df)) as [[]|e1]; [|split; reflexivity].
  discriminate.
Qed.

(** When [save_to_database] returns, the table is [df]. *)
Lemma save_to_database_returns (df : DataFrame) (w : World) :
  fst (save_to_database df w) = Ok tt ->
  db (snd (save_to_database df w)) = <[books_table := df]> (db w).
Proof.
  rewrite save_to_database_steps.
  destruct (rmap valid_sqlite_name (columns df)) as [checked|e1]; [|discriminate].
  destruct (create_statement books_table (columns df)) as [[]|e1]; [|discriminate].
  destruct (executemany (rows df)) as [[]|e1]; [|discriminate].
  reflexivity.
Qed.

(** The frame of at least one fetched book has the 21 columns. *)
Lemma transform_data_columns (books : list json) (df : DataFrame) :
  books <> [] -> transform_data (JArr books) = Ok df -> columns df = book_columns.
Proof.
  intros Hbooks Hdf. unfold transform_data in Hdf; simpl in Hdf.
  apply rbind_Ok in Hdf. destruct Hdf as [data [Hdata Hdf]]. injection Hdf as <-.
  destruct books as [|book books']; [congruence|].
  simpl in Hdata. apply rbind_Ok in Hdata. destruct Hdata as [record [Hrecord Hdata]].
  apply rbind_Ok in Hdata. destruct Hdata as [data' [_ Hdata]]. injection Hdata as <-.
  simpl. exact (book_record_columns book record Hrecord).
Qed.

(** The 21 labels are no obstacle to storing: a frame with these columns is
    storable as soon as its cells can be bound. *)
Lemma book_frame_storable (df : DataFrame) :
  columns df = book_columns ->
  forallb (forallb bindable) (rows df) = true ->
  storable df = true.
Proof. intros Hcols Hrows. unfold storable. rewrite Hcols, Hrows. reflexivity. Qed.

(** C2. Whenever [transform_data] returns a frame for a list of fetched book
    records, the frame holds the flattened records (21 named fields each, in
    the order of the dict literal) that have no missing cell, in their
    order: every row of the frame has 21 cells and none of them is missing.
    Whenever [save_to_database] returns for that frame, the [books] table it
    leaves is that frame, and it does return when at least one book was
    fetched and the cells of the frame are values SQLite can bind. *)
Theorem transform_data_drops_incomplete (books : list json) (df : DataFrame) :
  transform_data (JArr books) = Ok df ->
  (exists data : list (list (string * json)),
      rmap book_record books = Ok data
      /\ List.Forall (fun record => map fst record = book_columns) data
      /\ rows df = List.filter complete (map (map snd) data))
  /\ List.Forall (fun row => length row = 21%nat
                             /\ List.Forall (fun cell => isna cell = false) row) (rows df)
  /\ (forall w : World,
        fst (save_to_database df w) = Ok tt ->
        db (snd (save_to_database df w)) !! books_table = Some df)
  /\ (forall w : World,
        books <> [] ->
        forallb (forallb bindable) (rows df) = true ->
        fst (save_to_database df w) = Ok tt).
Proof.
  unfold transform_data; simpl. intros Hdf.
  pose proof Hdf as Htransform.
  apply rbind_Ok in Hdf. destruct Hdf as [data [Hdata Hdf]].
  injection Hdf as <-.
  assert (Hcols : List.Forall (fun record => map fst record = book_columns) data).
  { clear Htransform. apply rmap_Forall2 in Hdata.
    induction Hdata as [|book record books' data' Hrec _ IH]; constructor.
    - exact (book_record_columns book record Hrec).
    - exact IH. }
  split; [|split; [|split]].
  - exists data. split; [exact Hdata | split; [exact Hcols | reflexivity]].
  - simpl. rewrite List.Forall_forall. intros row Hrow.
    apply filter_In in Hrow. destruct Hrow as [Hrow Hcomplete].
    apply in_map_iff in Hrow. destruct Hrow as [record [<- Hrecord]].
    rewrite List.Forall_forall in Hcols. specialize (Hcols record Hrecord).
    split.
    + rewrite length_map, <- (length_map fst), Hcols. reflexivity.
    + unfold complete in Hcomplete. rewrite forallb_forall in Hcomplete.
      rewrite List.Forall_forall. intros cell Hcell.
      specialize (Hcomplete cell Hcell). destruct (isna cell); [discriminate | reflexivity].
  - intros w Hsaved. rewrite (save_to_database_returns _ w Hsaved). apply lookup_insert_eq.
  - intros w Hbooks Hcells.
    rewrite (save_to_database_spec _ w
               (book_frame_storable _ (transform_data_columns books _ Hbooks Htransform) Hcells)).
    reflexivity.
Qed.

(** Two fetched books, one with a title only: the frame keeps the full
    one, and saving it to a file without tables returns and leaves it as the
    table. *)
Lemma transform_data_drops_incomplete_witness :
  transform_data (JArr sample_books) = Ok sample_frame
  /\ List.Forall (fun row => length row = 21%nat
                             /\ List.Forall (fun cell => isna cell = false) row)
                 (rows sample_frame)
  /\ fst (save_to_database sample_frame (mkWorld ∅ [] [])) = Ok tt
  /\ db (snd (save_to_database sample_frame (mkWorld ∅ [] []))) !! books_table
     = Some sample_frame.
Proof.
  destruct (transform_data_drops_incomplete sample_books sample_frame eq_refl)
    as [_ [Hrows [Hsaved Hreturns]]].
  split; [reflexivity|]. split; [exact Hrows|].
  assert (Hok : fst (save_to_database sample_frame (mkWorld ∅ [] [])) = Ok tt).
  { apply Hreturns; [discriminate | reflexivity]. }
  split; [exact Hok | exact (Hsaved (mkWorld ∅ [] []) Hok)].
Defined.

(** A record without authors, categories and date is not incomplete: the
    three cells hold the empty string, which is no missing value, and the row
    stays. *)
Example transform_data_keeps_anonymous :
  transform_data (JArr [sample_book_anonymous])
  = Ok (Frame book_columns
          [ [ JStr "b3"; JStr "Anonymous"; JStr "No names"; JStr ""; JStr "Unsigned.";
              JStr ""; JNum 10%Q; JStr "en"; JStr "http://books.example/b3.png"; JNum 3%Q;
              JNum 1%Q; JStr "Press"; JStr ""; JBool false; JStr "FOR_SALE"; JNum 5%Q;
              JStr "USD"; JNum 5%Q; JStr "USD"; JStr "http://books.example/buy/b3";
              JStr "US" ] ]).
Proof. reflexivity. Qed.




Section PageProofs.

Variable requests_get : string -> Z -> result Response.
Variable read_sql_query : string -> gmap string DataFrame -> result DataFrame * gmap string DataFrame.

(** What one call of [query_database] does: the connection is opened, the
    statement is executed, and the connection is closed when the read
    returns. *)
Lemma query_database_spec (sql : string) (w : World) :
  query_database read_sql_query sql w =
    match read_sql_query sql (db w) with
    | (Ok df, tables) =>
        (Ok df, mkWorld tables (trace w ++ [DbConnect; DbExecute sql; DbClose]) (screen w))
    | (Raise e, tables) =>
        (Raise e, mkWorld tables (trace w ++ [DbConnect; DbExecute sql]) (screen w))
    end.
Proof.
  unfold query_database, bind, sqlite3_connect, conn_close, log, execute, ret; simpl.
  destruct (read_sql_query sql (db w)) as [[df|e] tables]; simpl;
    repeat rewrite <- app_assoc; reflexivity.
Qed.

(** Every option of the select box has a branch. *)
Lemma analysis_branch_defined (choice kw : string) :
  In choice analysis_options -> exists sql r, analysis_branch choice kw = Some (sql, r).
Proof.
  unfold analysis_options. simpl.
  intros Hin. repeat (destruct Hin as [<- | Hin]; [eexists; eexists; reflexivity|]).
  contradiction.
Qed.

(** Only the keyword branch reads the text box. *)
Lemma analysis_branch_fixed (choice kw1 kw2 : string) :
  choice <> keyword_choice -> analysis_branch choice kw1 = analysis_branch choice kw2.
Proof.
  intros Hne. unfold analysis_branch.
  repeat match goal with
         | |- context [String.eqb choice ?s] =>
             destruct (String.eqb_spec choice s) as [Heq|_]; [try reflexivity|]
         end.
  - exfalso. apply Hne. exact Heq.
  - reflexivity.
Qed.

Lemma analysis_branch_keyword (kw : string) :
  analysis_branch keyword_choice kw = Some (sql_keyword kw, Table).
Proof. reflexivity. Qed.

(** Every statement of the dispatch starts with SELECT, whatever the text
    box holds. *)
Lemma analysis_branch_select (choice kw sql : string) (r : render) :
  analysis_branch choice kw = Some (sql, r) -> is_select sql = true.
Proof.
  unfold analysis_branch.
  repeat match goal with
         | |- context [String.eqb choice ?s] =>
             destruct (String.eqb choice s);
             [intros Hsome; injection Hsome as <- <-; reflexivity|]
         end.
  discriminate.
Qed.

(** The "Run Analysis" button never raises: it makes one call of
    [query_database] and adds the widgets of [analysis_widgets]. *)
Lemma analysis_section_spec (i : Inputs) (w : World) (sql : string) (r : render) :
  run_analysis_clicked i = true ->
  analysis_branch (analysis_choice i) (keyword i) = Some (sql, r) ->
  analysis_section read_sql_query i w =
    (Ok tt,
     mkWorld (snd (read_sql_query sql (db w)))
             (trace w ++ query_events sql (fst (read_sql_query sql (db w))))
             (screen w ++ analysis_widgets read_sql_query (analysis_choice i) (keyword i) (db w))).
Proof.
  intros Hclick Hbranch.
  unfold analysis_section, try_except, run_analysis, analysis_widgets.
  rewrite Hclick, Hbranch. unfold bind. rewrite query_database_spec.
  destruct (read_sql_query sql (db w)) as [[df|e] tables]; simpl.
  - destruct r as [|index]; simpl; [reflexivity|].
    unfold bind, lift. destruct (set_index index df) as [indexed|e]; reflexivity.
  - reflexivity.
Qed.

(** The "Run Query" button never raises either. *)
Lemma run_query_section_spec (i : Inputs) (w : World) :
  run_query_clicked i = true ->
  run_query_section read_sql_query i w =
    (Ok tt,
     mkWorld (snd (read_sql_query (sql_query i) (db w)))
             (trace w ++ query_events (sql_query i) (fst (read_sql_query (sql_query i) (db w))))
             (screen w ++
                match fst (read_sql_query (sql_query i) (db w)) with
                | Ok df => [St_header "Query Results"; St_dataframe df]
                | Raise e => [St_error ("Error running query: " +:+ exn_str e)]
                end)).
Proof.
  intros Hclick. unfold run_query_section, try_except. rewrite Hclick.
  unfold bind. rewrite query_database_spec.
  destruct (read_sql_query (sql_query i) (db w)) as [[df|e] tables]; simpl.
  - rewrite <- app_assoc. reflexivity.
  - reflexivity.
Qed.

Lemma analysis_section_no_branch (i : Inputs) (w : World) :
  run_analysis_clicked i = true ->
  analysis_branch (analysis_choice i) (keyword i) = None ->
  analysis_section read_sql_query i w = (Ok tt, w).
Proof.
  intros Hclick Hbranch. unfold analysis_section, try_except, run_analysis.
  rewrite Hclick, Hbranch. reflexivity.
Qed.

(** A failed fetch reaches the "Search" handler as an exception that nothing
    catches. *)
Lemma search_section_raises (i : Inputs) (w : World) (e : exn) :
  search_clicked i = true ->
  fetch_books requests_get (query i) 40 = Raise e ->
  search_section requests_get i w = (Raise e, w).
Proof.
  intros Hclick Hfetch. unfold search_section, bind, lift.
  rewrite Hclick, Hfetch. reflexivity.
Qed.

Lemma fetch_books_not_200 (q : string) (n : Z) (response : Response) :
  requests_get q n = Ok response ->
  status_code response <> 200 ->
  fetch_books requests_get q n = Ok (JArr []).
Proof.
  intros Hget Hstatus. unfold fetch_books. rewrite Hget; simpl.
  destruct (Z.eqb_spec (status_code response) 200) as [Heq|_]; [contradiction | reflexivity].
Qed.

(** C1, as the code has it.  Take two runs of the "Run Analysis" button on
    the same option of the select box, with any other inputs and any state;
    if the option is "Books with a Specific Keyword in the Title", let the
    keyword box hold the same text in both.  Then both runs execute the same
    statement, and it is the only statement they execute.  For the 18 other
    options the statement is a fixed text that no content of the keyword box
    changes; for the keyword option it is the fixed text with the keyword
    spliced in. *)
Theorem analysis_sql_determined (i1 i2 : Inputs) (w1 w2 : World) :
  In (analysis_choice i1) analysis_options ->
  analysis_choice i2 = analysis_choice i1 ->
  (analysis_choice i1 = keyword_choice -> keyword i2 = keyword i1) ->
  run_analysis_clicked i1 = true ->
  run_analysis_clicked i2 = true ->
  exists sql : string,
    analysis_sql (analysis_choice i1) (keyword i1) = Some sql
    /\ analysis_sql (analysis_choice i2) (keyword i2) = Some sql
    /\ (analysis_choice i1 <> keyword_choice ->
        forall kw : string, analysis_sql (analysis_choice i1) kw = Some sql)
    /\ (analysis_choice i1 = keyword_choice -> sql = sql_keyword (keyword i1))
    /\ trace (snd (analysis_section read_sql_query i1 w1))
       = trace w1 ++ query_events sql (fst (read_sql_query sql (db w1)))
    /\ trace (snd (analysis_section read_sql_query i2 w2))
       = trace w2 ++ query_events sql (fst (read_sql_query sql (db w2))).
Proof.
  intros Hin Hsame Hkw Hclick1 Hclick2.
  destruct (analysis_branch_defined (analysis_choice i1) (keyword i1) Hin) as [sql [r Hbranch1]].
  assert (Hbranch2 : analysis_branch (analysis_choice i2) (keyword i2) = Some (sql, r)).
  { rewrite Hsame. destruct (string_dec (analysis_choice i1) keyword_choice) as [Heq|Hne].
    - rewrite (Hkw Heq). exact Hbranch1.
    - rewrite (analysis_branch_fixed _ (keyword i2) (keyword i1) Hne). exact Hbranch1. }
  exists sql. unfold analysis_sql.
  rewrite Hbranch1, Hbranch2.
  rewrite (analysis_section_spec i1 w1 sql r Hclick1 Hbranch1).
  rewrite (analysis_section_spec i2 w2 sql r Hclick2 Hbranch2). simpl.
  repeat split.
  - intros Hne kw. rewrite (analysis_branch_fixed _ kw (keyword i1) Hne), Hbranch1. reflexivity.
  - intros Heq. rewrite Heq, analysis_branch_keyword in Hbranch1. congruence.
Qed.

(** C4, as the code has it.  The "Run Query" and "Run Analysis" buttons
    never raise: whatever their body raises (the read, or the rendering of
    the result) ends in the [except] clause, which shows one error box with
    the message and nothing else.  Fetching is handled differently: a
    response whose status is not 200 is turned into the empty list, which the
    "Search" button reports as "No books found.", and an exception raised
    while fetching leaves the "Search" button as it is, with nothing
    rendered. *)
Theorem error_handling (i : Inputs) (w : World) :
  (run_query_clicked i = true ->
     fst (run_query_section read_sql_query i w) = Ok tt
     /\ screen (snd (run_query_section read_sql_query i w))
        = screen w ++
            match fst (read_sql_query (sql_query i) (db w)) with
            | Ok df => [St_header "Query Results"; St_dataframe df]
            | Raise e => [St_error ("Error running query: " +:+ exn_str e)]
            end)
  /\ (run_analysis_clicked i = true ->
        fst (analysis_section read_sql_query i w) = Ok tt
        /\ screen (snd (analysis_section read_sql_query i w))
           = screen w ++ analysis_widgets read_sql_query (analysis_choice i) (keyword i) (db w))
  /\ (forall response : Response,
        search_clicked i = true ->
        requests_get (query i) 40 = Ok response ->
        status_code response <> 200 ->
        fetch_books requests_get (query i) 40 = Ok (JArr [])
        /\ search_section requests_get i w
           = (Ok tt, mkWorld (db w) (trace w) (screen w ++ [St_error "No books found."])))
  /\ (forall e : exn,
        search_clicked i = true ->
        fetch_books requests_get (query i) 40 = Raise e ->
        search_section requests_get i w = (Raise e, w)).
Proof.
  split; [|split; [|split]].
  - intros Hclick. rewrite (run_query_section_spec i w Hclick). split; reflexivity.
  - intros Hclick.
    destruct (analysis_branch (analysis_choice i) (keyword i)) as [[sql r]|] eqn:Hbranch.
    + rewrite (analysis_section_spec i w sql r Hclick Hbranch). split; reflexivity.
    + rewrite (analysis_section_no_branch i w Hclick Hbranch).
      unfold analysis_widgets. rewrite Hbranch, app_nil_r. split; reflexivity.
  - intros response Hclick Hget Hstatus.
    pose proof (fetch_books_not_200 _ _ response Hget Hstatus) as Hfetch.
    split; [exact Hfetch|].
    unfold search_section, bind, lift. rewrite Hclick, Hfetch. reflexivity.
  - intros e Hclick Hfetch. exact (search_section_raises i w e Hclick Hfetch).
Qed.

(** The SQL engine keeps its promise on queries: a statement that starts
    with SELECT changes no table, whether it returns or raises. *)
Hypothesis select_reads_only :
  forall (sql : string) (tables : gmap string DataFrame),
    is_select sql = true -> snd (read_sql_query sql tables) = tables.

(** An analysis returns and leaves the tables as they are; so does a whole
    session of analyses. *)
Lemma analysis_section_db (i : Inputs) (w : World) :
  In (analysis_choice i) analysis_options ->
  run_analysis_clicked i = true ->
  fst (analysis_section read_sql_query i w) = Ok tt
  /\ db (snd (analysis_section read_sql_query i w)) = db w.
Proof using select_reads_only.
  intros Hin Hclick.
  destruct (analysis_branch_defined (analysis_choice i) (keyword i) Hin) as [sql [r Hbranch]].
  rewrite (analysis_section_spec i w sql r Hclick Hbranch). simpl.
  split; [reflexivity|].
  apply select_reads_only. exact (analysis_branch_select _ _ _ _ Hbranch).
Qed.

Lemma run_analyses_db (history : list Inputs) (w : World) :
  List.Forall (fun i0 => In (analysis_choice i0) analysis_options
                         /\ run_analysis_clicked i0 = true) history ->
  db (snd (run_analyses read_sql_query history w)) = db w.
Proof using select_reads_only.
  intros Hhistory. revert w.
  induction Hhistory as [|i0 history [Hin Hclick] _ IH]; intros w; [reflexivity|].
  simpl. unfold bind.
  destruct (analysis_section_db i0 w Hin Hclick) as [Hok Hdb].
  destruct (analysis_section read_sql_query i0 w) as [outcome w1]. simpl in Hok, Hdb.
  subst outcome. rewrite IH. exact Hdb.
Qed.

(** C5, as the code has it.  A run of the "Run Analysis" button on any of
    the 19 options makes one call of [query_database]: a connection is
    opened, one statement is executed, which starts with SELECT, and the
    connection is closed when the statement returns (when it raises,
    [conn.close()] is skipped).  The button never raises, the tables are the
    same afterwards, and what it renders depends on the option, the keyword
    box and the tables only: not on the rest of the state, and not on the
    analyses run before it, however many. *)
Theorem analyses_are_stateless (i : Inputs) (w : World) :
  In (analysis_choice i) analysis_options ->
  run_analysis_clicked i = true ->
  exists sql : string,
    analysis_sql (analysis_choice i) (keyword i) = Some sql
    /\ is_select sql = true
    /\ fst (analysis_section read_sql_query i w) = Ok tt
    /\ db (snd (analysis_section read_sql_query i w)) = db w
    /\ trace (snd (analysis_section read_sql_query i w))
       = trace w ++ query_events sql (fst (read_sql_query sql (db w)))
    /\ (forall w2 : World,
          db w2 = db w ->
          screen (snd (analysis_section read_sql_query i w2))
          = screen w2 ++ analysis_widgets read_sql_query (analysis_choice i) (keyword i) (db w))
    /\ (forall history : list Inputs,
          List.Forall (fun i0 => In (analysis_choice i0) analysis_options
                                 /\ run_analysis_clicked i0 = true) history ->
          screen (snd (analysis_section read_sql_query i
                         (snd (run_analyses read_sql_query history w))))
          = screen (snd (run_analyses read_sql_query history w))
            ++ analysis_widgets read_sql_query (analysis_choice i) (keyword i) (db w)).
Proof using select_reads_only.
  intros Hin Hclick.
  destruct (analysis_branch_defined (analysis_choice i) (keyword i) Hin) as [sql [r Hbranch]].
  pose proof (analysis_branch_select _ _ _ _ Hbranch) as Hselect.
  exists sql. unfold analysis_sql. rewrite Hbranch.
  assert (Hscreen : forall w2 : World,
             db w2 = db w ->
             screen (snd (analysis_section read_sql_query i w2))
             = screen w2 ++ analysis_widgets read_sql_query (analysis_choice i) (keyword i) (db w)).
  { intros w2 Hdb. rewrite (analysis_section_spec i w2 sql r Hclick Hbranch). simpl.
    rewrite Hdb. reflexivity. }
  rewrite (analysis_section_spec i w sql r Hclick Hbranch). simpl.
  repeat split.
  - exact Hselect.
  - apply select_reads_only. exact Hselect.
  - exact Hscreen.
  - intros history Hhistory. apply Hscreen. apply run_analyses_db. exact Hhistory.
Qed.

End PageProofs.

Lemma sample_engine_reads_only (sql : string) (tables : gmap string DataFrame) :
  is_select sql = true -> snd (sample_engine sql tables) = tables.
Proof.
  intros _. unfold sample_engine.
  destruct (Nat.even (count_quotes sql)); [|reflexivity].
  destruct (tables !! books_table); reflexivity.
Qed.

(** Two runs on "Top 5 Most Expensive Books" with different search terms,
    query texts and keywords. *)
Lemma analysis_sql_determined_witness :
  exists sql : string,
    analysis_sql (analysis_choice inputs_top5_a) (keyword inputs_top5_a) = Some sql
    /\ analysis_sql (analysis_choice inputs_top5_b) (keyword inputs_top5_b) = Some sql.
Proof.
  destruct (analysis_sql_determined sample_engine inputs_top5_a inputs_top5_b
              sample_world sample_world) as [sql [H1 [H2 _]]].
  - simpl. right. left. reflexivity.
  - reflexivity.
  - intros Heq. discriminate Heq.
  - reflexivity.
  - reflexivity.
  - exists sql. split; [exact H1 | exact H2].
Defined.

(** C1 as stated fails on the keyword option: the two runs select the same
    option and differ in the keyword box only, and they execute different
    statements. *)
Lemma keyword_changes_sql :
  In (analysis_choice inputs_python) analysis_options
  /\ analysis_choice inputs_rust = analysis_choice inputs_python
  /\ analysis_sql (analysis_choice inputs_python) (keyword inputs_python)
     = Some (sql_keyword "Python")
  /\ analysis_sql (analysis_choice inputs_rust) (keyword inputs_rust)
     = Some (sql_keyword "Rust")
  /\ String.eqb (sql_keyword "Python") (sql_keyword "Rust") = false
  /\ trace (snd (analysis_section sample_engine inputs_python sample_world))
     = [DbConnect; DbExecute (sql_keyword "Python"); DbClose]
  /\ trace (snd (analysis_section sample_engine inputs_rust sample_world))
     = [DbConnect; DbExecute (sql_keyword "Rust"); DbClose].
Proof.
  split; [simpl; do 15 right; left; reflexivity|].
  repeat split; vm_compute; reflexivity.
Qed.

(** A run with every button clicked: the malformed query ends in the error
    box of "Run Query", the analysis renders its table, a 500 response is
    reported as "No books found.", and a refused connection leaves the
    "Search" button as an exception. *)
Lemma error_handling_witness :
  (fst (run_query_section sample_engine inputs_all_clicked sample_world) = Ok tt
   /\ screen (snd (run_query_section sample_engine inputs_all_clicked sample_world))
      = [St_error "Error running query: unrecognized token"])
  /\ (fst (analysis_section sample_engine inputs_all_clicked sample_world) = Ok tt
      /\ screen (snd (analysis_section sample_engine inputs_all_clicked sample_world))
         = [St_table sample_frame])
  /\ search_section http_500 inputs_all_clicked sample_world
     = (Ok tt, mkWorld (db sample_world) (trace sample_world) [St_error "No books found."])
  /\ search_section http_down inputs_all_clicked sample_world
     = (Raise (Exn "ConnectionError" "connection refused"), sample_world).
Proof.
  destruct (error_handling http_500 sample_engine inputs_all_clicked sample_world)
    as [Hquery [Hanalysis [Hfetch _]]].
  destruct (error_handling http_down sample_engine inputs_all_clicked sample_world)
    as [_ [_ [_ Hraise]]].
  split; [exact (Hquery eq_refl)|].
  split; [exact (Hanalysis eq_refl)|].
  split.
  - refine (proj2 (Hfetch (mkResponse 500 (Ok (JObj [("error", JStr "backend")])))
                     eq_refl eq_refl _)).
    intros Heq. discriminate Heq.
  - exact (Hraise (Exn "ConnectionError" "connection refused") eq_refl eq_refl).
Defined.

(** C4 as stated fails for fetching: the 500 response raises nothing and is
    replaced by the empty list, which the page reports as "No books found.";
    the refused connection is caught by no handler, so the "Search" button
    raises, renders nothing, and ends the run of the script. *)
Lemma fetch_failure_not_caught :
  fetch_books http_500 "Data Science" 40 = Ok (JArr [])
  /\ search_section http_500 inputs_search sample_world
     = (Ok tt, mkWorld (db sample_world) (trace sample_world) [St_error "No books found."])
  /\ search_section http_down inputs_search sample_world
     = (Raise (Exn "ConnectionError" "connection refused"), sample_world)
  /\ run_script http_down sample_engine inputs_search sample_world
     = (Raise (Exn "ConnectionError" "connection refused"), sample_world)
  /\ screen (snd (run_script http_500 sample_engine inputs_search sample_world))
     = [St_error "No books found."; St_header "Stored Book Data"; St_dataframe sample_frame].
Proof. repeat split; vm_compute; reflexivity. Qed.

(** The keyword analysis on the sample table with the sample engine. *)
Lemma analyses_are_stateless_witness :
  exists sql : string,
    analysis_sql (analysis_choice inputs_python) (keyword inputs_python) = Some sql
    /\ is_select sql = true
    /\ fst (analysis_section sample_engine inputs_python sample_world) = Ok tt
    /\ db (snd (analysis_section sample_engine inputs_python sample_world)) = db sample_world.
Proof.
  destruct (analyses_are_stateless sample_engine sample_engine_reads_only
              inputs_python sample_world) as [sql [H1 [H2 [H3 [H4 _]]]]].
  - simpl. do 15 right. left. reflexivity.
  - reflexivity.
  - exists sql. repeat split; assumption.
Defined.

(** C5 as stated fails where it says that every call closes the
    connection: with a quote in the keyword box the statement is refused, the
    error is shown, and the trace ends with the connection still open, for
    the button alone and for the whole script. *)
Lemma failed_analysis_leaves_connection_open :
  In (analysis_choice inputs_quote) analysis_options
  /\ analysis_sql (analysis_choice inputs_quote) (keyword inputs_quote) = Some (sql_keyword "'")
  /\ fst (analysis_section sample_engine inputs_quote sample_world) = Ok tt
  /\ trace (snd (analysis_section sample_engine inputs_quote sample_world))
     = [DbConnect; DbExecute (sql_keyword "'")]
  /\ open_connections (trace (snd (analysis_section sample_engine inputs_quote sample_world))) = 1
  /\ screen (snd (analysis_section sample_engine inputs_quote sample_world))
     = [St_error "Error running analysis: unrecognized token"]
  /\ fst (run_script http_ok sample_engine inputs_quote sample_world) = Ok tt
  /\ trace (snd (run_script http_ok sample_engine inputs_quote sample_world))
     = [DbConnect; DbExecute "SELECT * FROM books"; DbClose;
        DbConnect; DbExecute (sql_keyword "'")].
Proof.
  split; [simpl; do 15 right; left; reflexivity|].
  repeat split; vm_compute; reflexivity.
Qed.

(** * DataDrivenStockAnalysis.py: proofs *)

Section DuplicateProofs.

Context {A K : Type} `{EqDecision K}.
Variable key : A -> K.

Lemma occurs_In (k : K) (ks : list K) : occurs k ks = true <-> In k ks.
Proof.
  unfold occurs. rewrite existsb_exists. split.
  - intros [k' [Hin Heq]]. apply bool_decide_eq_true in Heq. subst k'. exact Hin.
  - intros Hin. exists k. split; [exact Hin | apply bool_decide_eq_true; reflexivity].
Qed.

Lemma occurs_not_In (k : K) (ks : list K) : occurs k ks = false <-> ~ In k ks.
Proof.
  rewrite <- occurs_In. destruct (occurs k ks); split; intros Hk;
    try reflexivity; try discriminate; try (intros Hn; discriminate).
  exfalso. apply Hk. reflexivity.
Qed.

Lemma keep_last_cons (x : A) (xs : list A) :
  keep_last key (x :: xs) =
    if occurs (key x) (map key xs) then keep_last key xs else x :: keep_last key xs.
Proof. unfold keep_last. simpl. destruct (occurs (key x) (map key xs)); reflexivity. Qed.

Lemma keep_last_sublist (xs : list A) : sublist (keep_last key xs) xs.
Proof.
  induction xs as [|x xs IH]; [constructor|].
  rewrite keep_last_cons. destruct (occurs (key x) (map key xs)).
  - apply sublist_cons. exact IH.
  - apply sublist_skip. exact IH.
Qed.

Lemma keep_last_In (x : A) (xs : list A) : In x (keep_last key xs) -> In x xs.
Proof.
  induction xs as [|y xs IH]; [intros []|].
  rewrite keep_last_cons. destruct (occurs (key y) (map key xs)).
  - intros Hin. right. exact (IH Hin).
  - intros [<- | Hin]; [left; reflexivity | right; exact (IH Hin)].
Qed.

(** The row kept for a key is its last row. *)
Lemma keep_last_is_last (x : A) (xs : list A) :
  In x (keep_last key xs) ->
  exists above below, xs = above ++ x :: below /\ ~ In (key x) (map key below).
Proof.
  induction xs as [|y xs IH]; [intros []|].
  rewrite keep_last_cons. destruct (occurs (key y) (map key xs)) eqn:Hocc.
  - intros Hin. destruct (IH Hin) as [above [below [-> Hlast]]].
    exists (y :: above), below. split; [reflexivity | exact Hlast].
  - intros [<- | Hin].
    + exists [], xs. split; [reflexivity | apply occurs_not_In; exact Hocc].
    + destruct (IH Hin) as [above [below [-> Hlast]]].
      exists (y :: above), below. split; [reflexivity | exact Hlast].
Qed.

(** The last row of every key is kept. *)
Lemma keep_last_keeps_last (above below : list A) (x : A) :
  ~ In (key x) (map key below) -> In x (keep_last key (above ++ x :: below)).
Proof.
  intros Hlast. induction above as [|y above IH]; simpl.
  - rewrite keep_last_cons. apply occurs_not_In in Hlast. rewrite Hlast. left. reflexivity.
  - rewrite keep_last_cons. destruct (occurs (key y) (map key (above ++ x :: below)));
      [exact IH | right; exact IH].
Qed.

Lemma keep_last_NoDup (xs : list A) : List.NoDup (map key (keep_last key xs)).
Proof.
  induction xs as [|x xs IH]; [constructor|].
  rewrite keep_last_cons. destruct (occurs (key x) (map key xs)) eqn:Hocc; [exact IH|].
  simpl. constructor; [|exact IH].
  apply occurs_not_In in Hocc. intros Hin. apply Hocc.
  apply in_map_iff in Hin. destruct Hin as [x' [Hkey Hin']].
  apply in_map_iff. exists x'. split; [exact Hkey | exact (keep_last_In _ _ Hin')].
Qed.

(** Without a repeated key, [keep="first"] marks nothing. *)
Lemma duplicated_first_NoDup (seen keys : list K) :
  List.NoDup keys ->
  (forall k, In k keys -> ~ In k seen) ->
  any (duplicated_first seen keys) = false.
Proof.
  intros Hnodup. revert seen.
  induction Hnodup as [|k keys Hk _ IH]; intros seen Hfresh; simpl; [reflexivity|].
  assert (Hocc : occurs k seen = false).
  { apply occurs_not_In. apply Hfresh. left. reflexivity. }
  rewrite Hocc. simpl. apply IH.
  intros k' Hin' [<- | Hseen]; [exact (Hk Hin')|].
  exact (Hfresh k' (or_intror Hin') Hseen).
Qed.

End DuplicateProofs.

Section LoadProofs.

Context {V : Type}.
Variable to_datetime : string -> result Timestamp.

(** What parsing keeps of a raw row. *)
Lemma parse_row_fields (raw : RawRow V) (r : Row V) :
  parse_row to_datetime raw = Ok r ->
  Symbol r = raw_Symbol raw /\ Close r = raw_Close raw /\ others r = raw_others raw
  /\ match raw_Date raw with
     | Some text => to_datetime text = Ok (Date r)
     | None => Date r = NaT
     end.
Proof.
  unfold parse_row. intros Hrow. apply rbind_Ok in Hrow.
  destruct Hrow as [date [Hdate Hrow]]. injection Hrow as <-. simpl.
  repeat split. destruct (raw_Date raw); [exact Hdate | congruence].
Qed.

(** Whatever was uploaded, the frame returned has no repeated pair. *)
Lemma load_data_NoDup (uploaded_file : option (list (RawRow V))) (df : list (Row V)) :
  snd (load_data to_datetime uploaded_file) = Ok df -> List.NoDup (map subset_key df).
Proof.
  destruct uploaded_file as [csv|]; simpl; intros Hload.
  - apply rbind_Ok in Hload. destruct Hload as [parsed [_ Hdf]]. injection Hdf as <-.
    exact (keep_last_NoDup subset_key parsed).
  - injection Hload as <-. constructor.
Qed.

(** C3. Whenever [load_data] returns a frame for an uploaded CSV, every text
    of the Date column has been turned into its timestamp (an empty cell
    into NaT, the other cells are untouched), and the frame returned is that
    table without its duplicates on (Date, Symbol): no two of its rows share
    the pair, its rows are rows of the table in their order, each of them is
    the last row of the table with its pair, and the last row of every pair
    (so every row whose pair occurs once) is in it. *)
Theorem load_data_deduplicates (csv : list (RawRow V)) (df : list (Row V)) :
  snd (load_data to_datetime (Some csv)) = Ok df ->
  exists parsed : list (Row V),
    parse_dates to_datetime csv = Ok parsed
    /\ List.Forall2
         (fun raw r =>
            Symbol r = raw_Symbol raw /\ Close r = raw_Close raw /\ others r = raw_others raw
            /\ match raw_Date raw with
               | Some text => to_datetime text = Ok (Date r)
               | None => Date r = NaT
               end) csv parsed
    /\ df = drop_duplicates KeepLast parsed
    /\ List.NoDup (map subset_key df)
    /\ sublist df parsed
    /\ (forall r : Row V,
          In r df ->
          exists above below : list (Row V),
            parsed = above ++ r :: below /\ ~ In (subset_key r) (map subset_key below))
    /\ (forall (above below : list (Row V)) (r : Row V),
          parsed = above ++ r :: below ->
          ~ In (subset_key r) (map subset_key below) ->
          In r df).
Proof.
  simpl. intros Hload. apply rbind_Ok in Hload.
  destruct Hload as [parsed [Hparsed Hdf]]. injection Hdf as <-.
  exists parsed. split; [exact Hparsed|]. split.
  - unfold parse_dates in Hparsed. apply rmap_Forall2 in Hparsed.
    induction Hparsed as [|raw r csv' parsed' Hrow _ IH]; constructor.
    + exact (parse_row_fields raw r Hrow).
    + exact IH.
  - split; [reflexivity|].
    change (drop_duplicates KeepLast parsed) with (keep_last subset_key parsed).
    split; [apply keep_last_NoDup|]. split; [apply keep_last_sublist|]. split.
    + intros r. apply keep_last_is_last.
    + intros above below r -> Hlast. apply keep_last_keeps_last. exact Hlast.
Qed.

End LoadProofs.

(** The sample upload: the second row gives way to the fourth. *)
Lemma load_data_deduplicates_witness :
  snd (load_data sample_to_datetime (Some sample_csv)) = Ok sample_data
  /\ List.NoDup (map subset_key sample_data).
Proof.
  split; [reflexivity|].
  destruct (load_data_deduplicates sample_to_datetime sample_csv sample_data eq_refl)
    as [parsed [_ [_ [_ [Hnodup _]]]]].
  exact Hnodup.
Defined.

Section WarningProofs.

Context {V : Type} `{Numeric V}.
Variable to_datetime : string -> result Timestamp.

(** C9. For whatever was uploaded, the frame [load_data] returns has no
    duplicate on (Date, Symbol), so the test of the warning is false and the
    analysis page never shows the duplicate warning. *)
Theorem duplicate_warning_unreachable (uploaded_file : option (list (RawRow V)))
    (df : list (Row V)) (selected_stock : option string) (start_date end_date : Z) :
  snd (load_data to_datetime uploaded_file) = Ok df ->
  any (duplicated KeepFirst (map subset_key df)) = false
  /\ ~ In (W_warning duplicate_warning) (analysis_page df selected_stock start_date end_date).
Proof.
  intros Hload.
  pose proof (load_data_NoDup to_datetime uploaded_file df Hload) as Hnodup.
  assert (Hany : any (duplicated KeepFirst (map subset_key df)) = false).
  { simpl. apply duplicated_first_NoDup; [exact Hnodup|]. intros k _ []. }
  split; [exact Hany|].
  unfold analysis_page. destruct df as [|r df'].
  - intros [Hin | [Hin | []]]; [discriminate Hin|].
    injection Hin as Hin. cbv in Hin. discriminate Hin.
  - rewrite Hany. simpl.
    intros Hin. repeat (destruct Hin as [Hin | Hin]; [discriminate Hin|]). exact Hin.
Qed.

End WarningProofs.

(** The sample upload leads to a page without the duplicate warning. *)
Lemma duplicate_warning_unreachable_witness :
  any (duplicated KeepFirst (map subset_key sample_data)) = false
  /\ ~ In (W_warning duplicate_warning)
          (analysis_page sample_data (Some "TCS") 19723 19724).
Proof.
  exact (duplicate_warning_unreachable sample_to_datetime (Some sample_csv) sample_data
           (Some "TCS") 19723 19724 eq_refl).
Defined.

Section SortProofs.

Context {A : Type}.
Variable before : A -> A -> bool.
Hypothesis before_total : forall x y, before x y = true \/ before y x = true.
Hypothesis before_trans :
  forall x y z, before x y = true -> before y z = true -> before x z = true.

Lemma in_firstn (n : nat) (xs : list A) (z : A) : In z (firstn n xs) -> In z xs.
Proof. intros Hz. rewrite <- (firstn_skipn n xs). apply in_or_app. left. exact Hz. Qed.

Lemma in_skipn (n : nat) (xs : list A) (z : A) : In z (skipn n xs) -> In z xs.
Proof. intros Hz. rewrite <- (firstn_skipn n xs). apply in_or_app. right. exact Hz. Qed.

Lemma insert_sorted_perm (x : A) (xs : list A) :
  Permutation (x :: xs) (insert_sorted before x xs).
Proof.
  induction xs as [|y xs IH]; simpl; [reflexivity|].
  destruct (before x y); [reflexivity|].
  rewrite perm_swap. apply perm_skip. exact IH.
Qed.

Lemma stable_sort_perm (xs : list A) : Permutation xs (stable_sort before xs).
Proof.
  induction xs as [|x xs IH]; simpl; [reflexivity|].
  rewrite <- insert_sorted_perm. apply perm_skip. exact IH.
Qed.

Lemma insert_sorted_ordered (x : A) (xs : list A) :
  ordered_by before xs -> ordered_by before (insert_sorted before x xs).
Proof using before_total before_trans.
  unfold ordered_by. induction xs as [|y xs IH]; simpl; intros Hsorted.
  - constructor; constructor.
  - apply StronglySorted_inv in Hsorted. destruct Hsorted as [Htail Hhead].
    destruct (before x y) eqn:Hxy.
    + constructor; [constructor; assumption|].
      constructor; [exact Hxy|].
      rewrite List.Forall_forall in Hhead |- *.
      intros z Hz. exact (before_trans x y z Hxy (Hhead z Hz)).
    + constructor; [exact (IH Htail)|].
      rewrite List.Forall_forall in Hhead |- *. intros z Hz.
      apply (Permutation_in _ (Permutation_sym (insert_sorted_perm x xs))) in Hz.
      destruct Hz as [<- | Hz]; [|exact (Hhead z Hz)].
      destruct (before_total x y) as [Habs | Hyx]; [congruence | exact Hyx].
Qed.

Lemma stable_sort_ordered (xs : list A) : ordered_by before (stable_sort before xs).
Proof using before_total before_trans.
  induction xs as [|x xs IH]; simpl; [constructor|].
  apply insert_sorted_ordered. exact IH.
Qed.

Lemma ordered_firstn (n : nat) (xs : list A) : ordered_by before xs -> ordered_by before (firstn n xs).
Proof.
  unfold ordered_by. revert xs; induction n as [|n IH]; intros xs Hsorted; [constructor|].
  destruct xs as [|x xs]; [constructor|]. simpl.
  apply StronglySorted_inv in Hsorted. destruct Hsorted as [Htail Hhead].
  constructor; [exact (IH xs Htail)|].
  rewrite List.Forall_forall in Hhead |- *. intros z Hz.
  apply Hhead. exact (in_firstn _ _ _ Hz).
Qed.

Lemma ordered_firstn_skipn (n : nat) (xs : list A) (g r : A) :
  ordered_by before xs -> In g (firstn n xs) -> In r (skipn n xs) -> before g r = true.
Proof.
  unfold ordered_by. revert xs; induction n as [|n IH]; intros xs Hsorted Hg Hr; [destruct Hg|].
  destruct xs as [|x xs]; [destruct Hg|]. simpl in Hg, Hr.
  apply StronglySorted_inv in Hsorted. destruct Hsorted as [Htail Hhead].
  destruct Hg as [<- | Hg].
  - rewrite List.Forall_forall in Hhead. apply Hhead. exact (in_skipn _ _ _ Hr).
  - exact (IH xs Htail Hg Hr).
Qed.

(** The first [k] elements of the sorted list are a top-k selection. *)
Lemma firstn_sort_top_k (k : nat) (pool : list A) :
  is_top_k before k pool (firstn k (stable_sort before pool)).
Proof using before_total before_trans.
  unfold is_top_k. split; [|split].
  - rewrite length_firstn. rewrite <- (Permutation_length (stable_sort_perm pool)). reflexivity.
  - apply ordered_firstn. apply stable_sort_ordered.
  - exists (skipn k (stable_sort before pool)). split.
    + rewrite firstn_skipn. apply stable_sort_perm.
    + intros g r. apply ordered_firstn_skipn. apply stable_sort_ordered.
Qed.

End SortProofs.

(** [ts_max] is an upper bound of the timestamps that are not missing, and
    it is one of them unless all are missing. *)
Lemma ts_max_upper (d : Timestamp) (dates : list Timestamp) :
  In d dates -> d = NaT \/ ts_leb d (ts_max dates) = true.
Proof.
  induction dates as [|d' dates IH]; [intros []|].
  intros [-> | Hin]; simpl.
  - destruct d as [|x]; [left; reflexivity | right].
    destruct (ts_max dates) as [|m]; simpl; lia.
  - destruct (IH Hin) as [-> | Hle]; [left; reflexivity | right].
    destruct d as [|x]; [discriminate|].
    destruct (ts_max dates) as [|m]; [discriminate|].
    destruct d' as [|y]; simpl in *; lia.
Qed.

Lemma ts_max_In (dates : list Timestamp) :
  ts_max dates = NaT \/ In (ts_max dates) dates.
Proof.
  induction dates as [|d dates IH]; [left; reflexivity|]. simpl.
  destruct d as [|x]; simpl.
  - destruct IH as [-> | Hin]; [left; reflexivity | right; right; exact Hin].
  - right. destruct (ts_max dates) as [|m] eqn:Hmax; simpl; [left; reflexivity|].
    destruct (Z.max_spec x m) as [[_ ->] | [_ ->]].
    + destruct IH as [Habs | Hin]; [discriminate | right; exact Hin].
    + left. reflexivity.
Qed.

(** A timestamp that is present and bounds all the others is the maximum. *)
Lemma ts_max_unique (t : Z) (dates : list Timestamp) :
  In (Ts t) dates ->
  (forall d, In d dates -> d = NaT \/ ts_leb d (Ts t) = true) ->
  ts_max dates = Ts t.
Proof.
  intros Hin Hbound.
  destruct (ts_max_upper _ _ Hin) as [Habs | Hle]; [discriminate|].
  destruct (ts_max dates) as [|m] eqn:Hmax; [discriminate|].
  destruct (ts_max_In dates) as [Habs | Hm]; [congruence|].
  rewrite Hmax in Hm. destruct (Hbound _ Hm) as [Habs | Hle']; [discriminate|].
  simpl in Hle, Hle'. f_equal. lia.
Qed.

Lemma ts_max_ext (dates1 dates2 : list Timestamp) :
  (forall d, In d dates1 <-> In d dates2) -> ts_max dates1 = ts_max dates2.
Proof.
  intros Hsame. destruct (ts_max_In dates1) as [Hnat | Hin].
  - destruct (ts_max_In dates2) as [Hnat2 | Hin2]; [congruence|].
    apply Hsame in Hin2. destruct (ts_max_upper _ _ Hin2) as [Hd | Hle]; [congruence|].
    rewrite Hnat in Hle. destruct (ts_max dates2); discriminate.
  - destruct (ts_max dates1) as [|m] eqn:Hmax.
    + apply Hsame in Hin. destruct (ts_max_In dates2) as [Hnat2 | Hin2]; [congruence|].
      apply Hsame in Hin2. destruct (ts_max_upper _ _ Hin2) as [Hd | Hle]; [congruence|].
      rewrite Hmax in Hle. destruct (ts_max dates2); discriminate.
    + symmetry. apply ts_max_unique; [apply Hsame; exact Hin|].
      intros d Hd. apply Hsame in Hd. rewrite <- Hmax. exact (ts_max_upper _ _ Hd).
Qed.

Lemma filter_sublist {A : Type} (f : A -> bool) (xs : list A) : sublist (List.filter f xs) xs.
Proof.
  induction xs as [|x xs IH]; simpl; [constructor|].
  destruct (f x); [apply sublist_skip | apply sublist_cons]; exact IH.
Qed.

(** Removing duplicates on (Date, Symbol) keeps every date of the table. *)
Lemma drop_duplicates_dates {V : Type} (parsed : list (Row V)) :
  ts_max (map Date (drop_duplicates KeepLast parsed)) = ts_max (map Date parsed).
Proof.
  apply ts_max_ext. intros d. rewrite !in_map_iff. split.
  - intros [r [Hd Hin]]. exists r. split; [exact Hd|].
    exact (keep_last_In subset_key r parsed Hin).
  - intros [r [Hd Hin]]. revert r Hd Hin.
    induction parsed as [|x parsed IH]; intros r Hd Hin; [destruct Hin|].
    change (drop_duplicates KeepLast (x :: parsed)) with (keep_last subset_key (x :: parsed)).
    rewrite keep_last_cons.
    change (keep_last subset_key parsed) with (drop_duplicates KeepLast parsed).
    destruct (occurs (subset_key x) (map subset_key parsed)) eqn:Hocc.
    + destruct Hin as [-> | Hin]; [|exact (IH r Hd Hin)].
      apply occurs_In in Hocc. apply in_map_iff in Hocc.
      destruct Hocc as [r' [Hkey Hin']]. apply (IH r'); [|exact Hin'].
      rewrite <- Hd. unfold subset_key in Hkey. congruence.
    + destruct Hin as [-> | Hin].
      * exists r. split; [exact Hd | left; reflexivity].
      * destruct (IH r Hd Hin) as [r' [Hd' Hin']].
        exists r'. split; [exact Hd' | right; exact Hin'].
Qed.

Section AnalysisProofs.

Context {V : Type} `{Numeric V}.

(** C6. The three line charts of the page (stock price, volatility,
    cumulative return) are the only line charts, and the frame each of them
    gets holds the same rows: the rows of the loaded data, in their order,
    whose Symbol equals the selected stock and whose Date is a timestamp from
    the midnight of the start day to the midnight of the end day, both
    included.  (The volatility and cumulative-return frames carry the added
    columns besides.) *)
Theorem filtered_data_exact (data : list (Row V)) (selected_stock : option string)
    (start_date end_date : Z) :
  (forall (frame : StockFrame V) (x y title : string),
      In (W_line_chart frame x y title)
         (analysis_page data selected_stock start_date end_date) ->
      frame_rows frame = filtered_data data selected_stock start_date end_date)
  /\ (data <> [] ->
      exists (price volatility cumulative : StockFrame V),
        In (W_line_chart price "Date" "Close"
              ("Stock Price of " +:+ show_symbol selected_stock))
           (analysis_page data selected_stock start_date end_date)
        /\ In (W_line_chart volatility "Date" "Daily Return"
                 ("Volatility of " +:+ show_symbol selected_stock))
              (analysis_page data selected_stock start_date end_date)
        /\ In (W_line_chart cumulative "Date" "Cumulative Return"
                 ("Cumulative Return of " +:+ show_symbol selected_stock))
              (analysis_page data selected_stock start_date end_date))
  /\ sublist (filtered_data data selected_stock start_date end_date) data
  /\ (forall r : Row V,
        In r (filtered_data data selected_stock start_date end_date) <->
        In r data
        /\ (exists s : string, selected_stock = Some s /\ Symbol r = Some s)
        /\ (exists t : Z,
              Date r = Ts t
              /\ start_date * 86400000000000 <= t <= end_date * 86400000000000)).
Proof.
  split; [|split; [|split]].
  - intros frame x y title. unfold analysis_page.
    destruct data as [|r0 data'].
    + intros [Hin | [Hin | []]]; discriminate Hin.
    + remember (r0 :: data') as rows0. simpl.
      destruct (any (duplicated_first [] (map subset_key rows0))); simpl;
        intros Hin;
        repeat (destruct Hin as [Hin | Hin];
                [first [discriminate Hin | injection Hin as <- _ _ _; reflexivity]|]);
        destruct Hin.
  - intros Hdata. unfold analysis_page. destruct data as [|r0 data']; [congruence|].
    eexists; eexists; eexists. simpl.
    split; [right; left; reflexivity|].
    split; [right; right; left; reflexivity|].
    right; right; right; left; reflexivity.
  - apply filter_sublist.
  - intros r. unfold filtered_data. rewrite filter_In. unfold in_selection.
    rewrite !andb_true_iff. unfold to_datetime_date.
    split.
    + intros [Hin [[Hsym Hstart] Hend]]. split; [exact Hin|]. split.
      * destruct (Symbol r) as [s1|]; [|discriminate].
        destruct selected_stock as [s2|]; [|discriminate].
        simpl in Hsym. apply String.eqb_eq in Hsym. subst s2.
        exists s1. split; reflexivity.
      * destruct (Date r) as [|t]; [discriminate|]. simpl in Hstart, Hend.
        exists t. split; [reflexivity | lia].
    + intros [Hin [[s [-> Hsym]] [t [Hdate Hrange]]]]. split; [exact Hin|].
      rewrite Hsym, Hdate. simpl. rewrite String.eqb_refl.
      repeat split; lia.
Qed.

(** The maximum of the Date column, told without [ts_max]. *)
Lemma latest_data_In (data : list (Row V)) (r : Row V) :
  In r (latest_data data) <->
  In r data /\ Date r <> NaT
  /\ forall r' : Row V, In r' data -> Date r' = NaT \/ ts_leb (Date r') (Date r) = true.
Proof.
  unfold latest_data. rewrite filter_In. split.
  - intros [Hin Heq]. split; [exact Hin|].
    destruct (Date r) as [|t] eqn:Hdate; [discriminate|].
    destruct (ts_max (map Date data)) as [|m] eqn:Hmax; [discriminate|].
    simpl in Heq. apply Z.eqb_eq in Heq. subst m.
    split; [discriminate|]. intros r' Hin'. rewrite <- Hmax.
    apply ts_max_upper. apply in_map. exact Hin'.
  - intros [Hin [Hdate Hbound]]. split; [exact Hin|].
    destruct (Date r) as [|t] eqn:Ht; [congruence|].
    rewrite (ts_max_unique t).
    + simpl. apply Z.eqb_refl.
    + rewrite <- Ht. apply in_map. exact Hin.
    + intros d Hd. apply in_map_iff in Hd. destruct Hd as [r' [<- Hin']].
      exact (Hbound r' Hin').
Qed.

(** The comparison of prices is a total preorder on the numbers. *)
Hypothesis fle_total :
  forall a b : V, is_nan a = false -> is_nan b = false -> fle a b = true \/ fle b a = true.
Hypothesis fle_trans :
  forall a b c : V,
    is_nan a = false -> is_nan b = false -> is_nan c = false ->
    fle a b = true -> fle b c = true -> fle a c = true.

Lemma desc_nan_last_total (a b : V) : desc_nan_last a b = true \/ desc_nan_last b a = true.
Proof using fle_total.
  unfold desc_nan_last.
  destruct (is_nan a) eqn:Ha, (is_nan b) eqn:Hb; try (left; reflexivity); try (right; reflexivity).
  destruct (fle_total a b Ha Hb) as [Hab | Hba]; [right; exact Hab | left; exact Hba].
Qed.

Lemma desc_nan_last_trans (a b c : V) :
  desc_nan_last a b = true -> desc_nan_last b c = true -> desc_nan_last a c = true.
Proof using fle_trans.
  unfold desc_nan_last.
  destruct (is_nan a) eqn:Ha, (is_nan b) eqn:Hb, (is_nan c) eqn:Hc;
    try discriminate; try reflexivity.
  intros Hba Hcb. exact (fle_trans c b a Hc Hb Ha Hcb Hba).
Qed.

Lemma asc_nan_last_total (a b : V) : asc_nan_last a b = true \/ asc_nan_last b a = true.
Proof using fle_total.
  unfold asc_nan_last.
  destruct (is_nan a) eqn:Ha, (is_nan b) eqn:Hb; try (left; reflexivity); try (right; reflexivity).
  exact (fle_total a b Ha Hb).
Qed.

Lemma asc_nan_last_trans (a b c : V) :
  asc_nan_last a b = true -> asc_nan_last b c = true -> asc_nan_last a c = true.
Proof using fle_trans.
  unfold asc_nan_last.
  destruct (is_nan a) eqn:Ha, (is_nan b) eqn:Hb, (is_nan c) eqn:Hc;
    try discriminate; try reflexivity.
  intros Hab Hbc. exact (fle_trans a b c Ha Hb Hc Hab Hbc).
Qed.

(** C7. The rows the two tables choose from are exactly the rows whose Date
    is the maximum of the Date column: rows of the data with a date that
    bounds every date present (and the column of the loaded frame has the
    maximum of the whole parsed upload).  Among them the gainers table is a
    top-k selection with k = 5 by descending Close and the losers table one
    by ascending Close: 5 rows (all of them when there are fewer), in
    order, none of them beaten by a row left out; a missing Close counts as
    last in both orders. *)
Theorem top5_gainers_and_losers (data : list (Row V)) :
  (forall r : Row V,
      In r (latest_data data) <->
      In r data /\ Date r <> NaT
      /\ forall r' : Row V, In r' data -> Date r' = NaT \/ ts_leb (Date r') (Date r) = true)
  /\ (forall parsed : list (Row V),
        data = drop_duplicates KeepLast parsed ->
        ts_max (map Date data) = ts_max (map Date parsed))
  /\ is_top_k (fun r1 r2 => desc_nan_last (Close r1) (Close r2)) 5
       (latest_data data) (top_gainers data)
  /\ is_top_k (fun r1 r2 => asc_nan_last (Close r1) (Close r2)) 5
       (latest_data data) (top_losers data).
Proof using fle_total fle_trans.
  split; [exact (latest_data_In data)|]. split.
  - intros parsed ->. apply drop_duplicates_dates.
  - split.
    + apply firstn_sort_top_k.
      * intros x y. apply desc_nan_last_total.
      * intros x y z. apply desc_nan_last_trans.
    + apply firstn_sort_top_k.
      * intros x y. apply asc_nan_last_total.
      * intros x y z. apply asc_nan_last_trans.
Qed.

End AnalysisProofs.

(** The exact comparison is a total preorder. *)
Lemma exact_le_total (a b : option Q) :
  is_nan a = false -> is_nan b = false -> fle a b = true \/ fle b a = true.
Proof.
  destruct a as [x|], b as [y|]; simpl; try discriminate. intros _ _.
  rewrite !Qle_bool_iff. destruct (Qlt_le_dec x y) as [Hlt | Hle].
  - left. apply Qlt_le_weak. exact Hlt.
  - right. exact Hle.
Qed.

Lemma exact_le_trans (a b c : option Q) :
  is_nan a = false -> is_nan b = false -> is_nan c = false ->
  fle a b = true -> fle b c = true -> fle a c = true.
Proof.
  destruct a as [x|], b as [y|], c as [z|]; simpl; try discriminate. intros _ _ _.
  rewrite !Qle_bool_iff. apply Qle_trans.
Qed.

(** The comparison of the machine's floats is a total preorder on the
    numbers too. *)
Lemma SFleb_rank (f1 f2 : spec_float) :
  f1 <> S754_nan -> f2 <> S754_nan ->
  (SFleb f1 f2 = true <-> lex_le (sf_rank f1) (sf_rank f2)).
Proof.
  intros H1 H2. unfold SFleb.
  destruct f1 as [s1|s1| |s1 m1 e1], f2 as [s2|s2| |s2 m2 e2]; try congruence;
    try (destruct s1; simpl; split; intros; try lia; try reflexivity; try discriminate; fail);
    try (destruct s2; simpl; split; intros; try lia; try reflexivity; try discriminate; fail);
    try (destruct s1, s2; simpl; split; intros; try lia; try reflexivity; try discriminate; fail).
  unfold SFcompare.
  change (Pos.compare_cont Eq m1 m2) with (Pos.compare m1 m2).
  destruct s1, s2; simpl;
    destruct (Z.compare_spec e1 e2); destruct (Pos.compare_spec m1 m2); simpl;
    split; intros; try lia; try reflexivity; try discriminate.
Qed.

Lemma binary64_number (x : float) : PrimFloat.is_nan x = false -> Prim2SF x <> S754_nan.
Proof.
  unfold PrimFloat.is_nan. rewrite FloatAxioms.eqb_spec. intros Hx Hnan.
  rewrite Hnan in Hx. discriminate Hx.
Qed.

Lemma binary64_le_total (a b : float) :
  is_nan a = false -> is_nan b = false -> fle a b = true \/ fle b a = true.
Proof.
  simpl. intros Ha Hb. apply binary64_number in Ha. apply binary64_number in Hb.
  rewrite !leb_spec, !SFleb_rank by assumption.
  destruct (sf_rank (Prim2SF a)) as [[a1 a2] a3], (sf_rank (Prim2SF b)) as [[b1 b2] b3].
  simpl. lia.
Qed.

Lemma binary64_le_trans (a b c : float) :
  is_nan a = false -> is_nan b = false -> is_nan c = false ->
  fle a b = true -> fle b c = true -> fle a c = true.
Proof.
  simpl. intros Ha Hb Hc.
  apply binary64_number in Ha. apply binary64_number in Hb. apply binary64_number in Hc.
  rewrite !leb_spec, !SFleb_rank by assumption.
  destruct (sf_rank (Prim2SF a)) as [[a1 a2] a3], (sf_rank (Prim2SF b)) as [[b1 b2] b3],
    (sf_rank (Prim2SF c)) as [[c1 c2] c3].
  simpl. lia.
Qed.

(** The sample market, with exact prices and with floats: six rows on the
    last day, five of them in each table. *)
Lemma top5_gainers_and_losers_witness :
  (is_top_k (fun r1 r2 => desc_nan_last (Close r1) (Close r2)) 5
     (latest_data sample_market) (top_gainers sample_market)
   /\ is_top_k (fun r1 r2 => asc_nan_last (Close r1) (Close r2)) 5
        (latest_data sample_market) (top_losers sample_market))
  /\ (is_top_k (fun r1 r2 => desc_nan_last (Close r1) (Close r2)) 5
        (latest_data sample_market_float) (top_gainers sample_market_float)
      /\ is_top_k (fun r1 r2 => asc_nan_last (Close r1) (Close r2)) 5
           (latest_data sample_market_float) (top_losers sample_market_float))
  /\ map Symbol (top_gainers sample_market_float)
     = [Some "ITC"; Some "TCS"; Some "WIPRO"; Some "SBIN"; Some "INFY"]
  /\ map Symbol (top_losers sample_market_float)
     = [Some "HDFC"; Some "INFY"; Some "SBIN"; Some "WIPRO"; Some "TCS"].
Proof.
  destruct (top5_gainers_and_losers exact_le_total exact_le_trans sample_market)
    as [_ [_ Hexact]].
  destruct (top5_gainers_and_losers binary64_le_total binary64_le_trans sample_market_float)
    as [_ [_ Hfloat]].
  split; [exact Hexact|]. split; [exact Hfloat|]. split; vm_compute; reflexivity.
Defined.

Section ReturnProofs.

Context {V : Type} `{Numeric V}.

Lemma length_running_product (acc : V) (values : list V) :
  length (running_product acc values) = length values.
Proof.
  revert acc; induction values as [|x values IH]; intros acc; simpl; [reflexivity|].
  rewrite IH. reflexivity.
Qed.

Lemma length_cumprod (series : list V) : length (cumprod series) = length series.
Proof.
  unfold cumprod. rewrite length_map, length_combine, length_map.
  destruct series as [|x series]; simpl; [reflexivity|].
  rewrite length_running_product, length_map. lia.
Qed.

Lemma length_pct_change (series : list V) : length (pct_change series) = length series.
Proof.
  unfold pct_change, shift1. rewrite length_map, length_combine, length_firstn. simpl. lia.
Qed.

Lemma length_cumulative_return (closes : list V) :
  length (cumulative_return closes) = length closes.
Proof.
  unfold cumulative_return, daily_return.
  rewrite length_cumprod, length_map, length_pct_change. reflexivity.
Qed.

Lemma later_returns_cons (previous c : V) (closes : list V) :
  later_returns previous (c :: closes)
  = fsub (fdiv c previous) one :: later_returns c closes.
Proof. reflexivity. Qed.


End ReturnProofs.

Section MaskedProducts.

Context {V : Type} `{Numeric V}.

Lemma masked_products_cons (acc x : V) (factors : list V) :
  masked_products acc (x :: factors)
  = (if is_nan x then nan else fmul acc (if is_nan x then one else x))
      :: masked_products (fmul acc (if is_nan x then one else x)) factors.
Proof. reflexivity. Qed.

Lemma cumprod_cons (x : V) (factors : list V) :
  cumprod (x :: factors)
  = (if is_nan x then nan else if is_nan x then one else x)
      :: masked_products (if is_nan x then one else x) factors.
Proof. reflexivity. Qed.

Lemma cumulative_return_cons (c : V) (closes : list V) :
  cumulative_return (c :: closes)
  = cumprod (fadd one (fsub (fdiv c nan) one) :: map (fadd one) (later_returns c closes)).
Proof. reflexivity. Qed.

End MaskedProducts.

(** One row of exact growth: the factor is the quotient of the two closes. *)
Lemma exact_growth (previous c : Q) :
  ~ (previous == 0)%Q ->
  fadd one (fsub (fdiv (Some c) (Some previous)) one)
  = Some (1 + (c / previous - 1))%Q.
Proof.
  intros Hp. simpl. unfold exact_div.
  destruct (Qeq_bool previous 0) eqn:Hzero; [|reflexivity].
  apply Qeq_bool_iff in Hzero. contradiction.
Qed.

Lemma exact_later_rows (c0 : Q) :
  ~ (c0 == 0)%Q ->
  forall (rest : list Q) (previous acc : Q),
    ~ (previous == 0)%Q ->
    List.Forall (fun c => ~ (c == 0)%Q) rest ->
    (acc == previous / c0)%Q ->
    forall (i : nat) (c : Q),
      nth_error rest i = Some c ->
      exists v : Q,
        nth_error (masked_products (Some acc)
                     (map (fadd one) (later_returns (Some previous) (map Some rest)))) i
        = Some (Some v)
        /\ (v == c / c0)%Q.
Proof.
  intros Hc0 rest. induction rest as [|c' rest IH]; intros previous acc Hp Hrest Hacc i c Hi.
  - destruct i; discriminate Hi.
  - apply Forall_cons_iff in Hrest. destruct Hrest as [Hc' Hrest].
    change (map Some (c' :: rest)) with (Some c' :: map Some rest).
    rewrite later_returns_cons. rewrite map_cons, (exact_growth previous c' Hp).
    rewrite masked_products_cons.
    assert (Hnext : (acc * (1 + (c' / previous - 1)) == c' / c0)%Q).
    { rewrite Hacc. field. split; assumption. }
    destruct i as [|i]; simpl in Hi.
    + injection Hi as <-. eexists. split; [reflexivity | exact Hnext].
    + exact (IH c' _ Hc' Hrest Hnext i c Hi).
Qed.

(** On the machine's floats the return of the first row is [nan], whatever
    the first close is. *)
Lemma binary64_div_nan (c : float) : Prim2SF (c / PrimFloat.nan) = S754_nan.
Proof.
  rewrite div_spec. change (Prim2SF PrimFloat.nan) with S754_nan.
  destruct (Prim2SF c); reflexivity.
Qed.

Lemma binary64_first_growth (c : float) :
  PrimFloat.is_nan (1 + (c / PrimFloat.nan - 1)) = true.
Proof.
  unfold PrimFloat.is_nan. rewrite FloatAxioms.eqb_spec, add_spec, sub_spec, binary64_div_nan.
  reflexivity.
Qed.

(** C10, as the code has it.  For a series of closes that are numbers other
    than zero, computed without rounding: Cumulative Return has one value per
    row, the value of the first row is missing (NaN), and the value of every
    later row equals the close of that row divided by the first close.  On
    the floats of the machine the series has one value per row too and the
    first one is NaN; the later ones are the rounded products of rounded
    quotients (the equality with the quotient of the two closes is not
    claimed there). *)
Theorem cumulative_return_telescopes (c0 : Q) (rest : list Q) :
  ~ (c0 == 0)%Q ->
  List.Forall (fun c => ~ (c == 0)%Q) rest ->
  (length (cumulative_return (map Some (c0 :: rest))) = length (c0 :: rest)
   /\ nth_error (cumulative_return (map Some (c0 :: rest))) 0 = Some None
   /\ forall (i : nat) (c : Q),
        nth_error rest i = Some c ->
        exists v : Q,
          nth_error (cumulative_return (map Some (c0 :: rest))) (S i) = Some (Some v)
          /\ (v == c / c0)%Q)
  /\ (forall (f0 : float) (frest : list float),
        length (cumulative_return (f0 :: frest)) = length (f0 :: frest)
        /\ exists v : float,
             nth_error (cumulative_return (f0 :: frest)) 0 = Some v
             /\ PrimFloat.is_nan v = true).
Proof.
  intros Hc0 Hrest. split.
  - split; [rewrite length_cumulative_return; apply length_map|].
    change (map Some (c0 :: rest)) with (Some c0 :: map Some rest).
    rewrite cumulative_return_cons, cumprod_cons.
    split; [reflexivity|].
    intros i c Hi. simpl nth_error.
    apply (exact_later_rows c0 Hc0 rest c0 1 Hc0 Hrest); [|exact Hi].
    field. exact Hc0.
  - intros f0 frest. split; [apply length_cumulative_return|].
    rewrite cumulative_return_cons, cumprod_cons. simpl nth_error.
    change (@is_nan float binary64) with PrimFloat.is_nan.
    change (@fadd float binary64) with PrimFloat.add.
    change (@fsub float binary64) with PrimFloat.sub.
    change (@fdiv float binary64) with PrimFloat.div.
    change (@one float binary64) with 1%float.
    change (@nan float binary64) with PrimFloat.nan.
    rewrite binary64_first_growth. exists PrimFloat.nan. split; reflexivity.
Qed.

(** Three closes growing by a tenth a day. *)
Lemma cumulative_return_telescopes_witness :
  nth_error (cumulative_return (map Some sample_closes)) 0 = Some None
  /\ (exists v : Q,
        nth_error (cumulative_return (map Some sample_closes)) 1 = Some (Some v)
        /\ (v == 110 / 100)%Q)
  /\ (exists v : Q,
        nth_error (cumulative_return (map Some sample_closes)) 2 = Some (Some v)
        /\ (v == 121 / 100)%Q).
Proof.
  assert (Hfirst : ~ (100 == 0)%Q) by (intros Hzero; discriminate Hzero).
  assert (Hrest : List.Forall (fun c => ~ (c == 0)%Q) [110%Q; 121%Q]).
  { repeat constructor; intros Hzero; discriminate Hzero. }
  destruct (cumulative_return_telescopes 100%Q [110%Q; 121%Q] Hfirst Hrest)
    as [[_ [Hnan Hlater]] _].
  split; [exact Hnan|]. split.
  - exact (Hlater 0%nat 110%Q eq_refl).
  - exact (Hlater 1%nat 121%Q eq_refl).
Defined.

(** C10 as stated fails on the floats pandas computes with: for the closes
    10 and 3 the second row of Cumulative Return is 0.30000000000000004,
    which is not the float 3 / 10. *)
Lemma cumulative_return_rounds :
  PrimFloat.is_nan 10 = false /\ PrimFloat.is_nan 3 = false
  /\ PrimFloat.eqb 10 0 = false /\ PrimFloat.eqb 3 0 = false
  /\ nth_error (cumulative_return [10%float; 3%float]) 1 = Some 0x1.3333333333334p-2%float
  /\ (3 / 10 = 0x1.3333333333333p-2)%float
  /\ PrimFloat.eqb 0x1.3333333333334p-2 (3 / 10) = false.
Proof. repeat split; vm_compute; reflexivity. Qed.

(** * Further properties of BookScape.py *)

(** ** More notions *)

(** How often a character occurs in a text. *)
Fixpoint count_char (c : ascii) (s : string) : nat :=
  match s with
  | EmptyString => 0%nat
  | String c' s' => ((if Ascii.eqb c' c then 1 else 0) + count_char c s')%nat
  end.

(** ** The dispatch *)

Lemma length_append (s1 s2 : string) :
  String.length (s1 +:+ s2) = (String.length s1 + String.length s2)%nat.
Proof. induction s1 as [|c s1 IH]; simpl; [reflexivity | rewrite IH; reflexivity]. Qed.

Lemma append_inv_head (p a b : string) : p +:+ a = p +:+ b -> a = b.
Proof.
  induction p as [|c p IH]; simpl; intros Heq; [exact Heq|].
  injection Heq as Heq. exact (IH Heq).
Qed.

Lemma append_inv_tail (a b s : string) : a +:+ s = b +:+ s -> a = b.
Proof.
  revert b; induction a as [|c a IH]; intros b Heq.
  - destruct b as [|c' b]; [reflexivity|].
    apply (f_equal String.length) in Heq. rewrite !length_append in Heq. simpl in Heq. lia.
  - destruct b as [|c' b].
    + apply (f_equal String.length) in Heq. rewrite !length_append in Heq. simpl in Heq. lia.
    + simpl in Heq. injection Heq as -> Heq. f_equal. exact (IH b Heq).
Qed.

Lemma count_char_append (c : ascii) (s1 s2 : string) :
  count_char c (s1 +:+ s2) = (count_char c s1 + count_char c s2)%nat.
Proof. induction s1 as [|c' s1 IH]; simpl; [reflexivity | rewrite IH; lia]. Qed.

Lemma analysis_options_NoDup : List.NoDup analysis_options.
Proof.
  unfold analysis_options.
  repeat (constructor;
          [simpl; intros Hin;
           repeat (destruct Hin as [Hin | Hin]; [discriminate Hin|]); exact Hin|]).
  constructor.
Qed.

Lemma analysis_branch_option (choice kw sql : string) (r : render) :
  analysis_branch choice kw = Some (sql, r) -> In choice analysis_options.
Proof.
  unfold analysis_branch.
  repeat match goal with
         | |- context [String.eqb choice ?s] =>
             destruct (String.eqb_spec choice s) as [-> | _];
             [intros _; simpl; repeat first [left; reflexivity | right]|]
         end.
  discriminate.
Qed.

(** X1. The select box and the dispatch agree: the 19 options are pairwise
    different, every option has a branch of the [if]/[elif] chain, and a
    string that is no option matches no branch, so no option is shadowed and
    no branch is dead. *)
Theorem dispatch_covers_options (choice kw : string) :
  List.NoDup analysis_options
  /\ length analysis_options = 19%nat
  /\ (In choice analysis_options <->
      exists (sql : string) (r : render), analysis_branch choice kw = Some (sql, r)).
Proof.
  split; [exact analysis_options_NoDup|]. split; [reflexivity|]. split.
  - apply analysis_branch_defined.
  - intros [sql [r Hbranch]]. exact (analysis_branch_option _ _ _ _ Hbranch).
Qed.

(** X2. The keyword branch splices the text box into the statement as it
    is: two keywords give the same statement only if they are the same text,
    and every quote of the keyword is a quote of the statement, next to the
    two of the pattern. *)
Theorem keyword_spliced_verbatim (kw1 kw2 : string) :
  (analysis_sql keyword_choice kw1 = analysis_sql keyword_choice kw2 <-> kw1 = kw2)
  /\ analysis_sql keyword_choice kw1
     = Some (sql_keyword_prefix +:+ kw1 +:+ sql_keyword_suffix)
  /\ count_char "'" (sql_keyword kw1) = (2 + count_char "'" kw1)%nat.
Proof.
  split; [|split].
  - unfold analysis_sql. rewrite !analysis_branch_keyword. simpl. split.
    + intros Heq. injection Heq as Heq. unfold sql_keyword in Heq.
      apply append_inv_head in Heq. exact (append_inv_tail _ _ _ Heq).
    + intros ->. reflexivity.
  - reflexivity.
  - unfold sql_keyword. rewrite !count_char_append.
    change (count_char "'" sql_keyword_prefix) with 1%nat.
    change (count_char "'" sql_keyword_suffix) with 1%nat. lia.
Qed.

(** ** Flattening *)

Lemma rmap_as_str (names : list string) : rmap as_str (map JStr names) = Ok names.
Proof. induction names as [|n names IH]; simpl; [reflexivity | rewrite IH; reflexivity]. Qed.

Lemma join_count_char (c : ascii) (sep : string) (parts : list string) :
  List.Forall (fun p => count_char c p = 0%nat) parts ->
  count_char c (join sep parts) = (count_char c sep * Nat.pred (length parts))%nat.
Proof.
  induction 1 as [|p parts Hp Hparts IH]; [simpl; lia|].
  destruct parts as [|q parts]; [simpl; lia|].
  change (join sep (p :: q :: parts)) with (p +:+ sep +:+ join sep (q :: parts)).
  rewrite !count_char_append, IH, Hp. simpl. lia.
Qed.

(** X3. The authors cell and the "More than 3 Authors" analysis: for names
    without a comma, the joined text has one comma less than there are
    names, none when there is no name at all; so the count of the statement,
    commas plus one, is the number of authors of a book that has authors and
    1 for a book without. *)
Theorem authors_comma_count (names : list string) :
  List.Forall (fun name => count_char "," name = 0%nat) names ->
  exists authors : string,
    py_join ", " (JArr (map JStr names)) = Ok authors
    /\ authors = join ", " names
    /\ (count_char "," authors + 1 = Nat.max 1 (length names))%nat.
Proof.
  intros Hnames. exists (join ", " names). simpl. rewrite rmap_as_str. simpl.
  split; [reflexivity|]. split; [reflexivity|].
  rewrite (join_count_char "," ", " names Hnames).
  change (count_char "," ", ") with 1%nat. destruct names; simpl; lia.
Qed.

(** Two authors, one comma. *)
Lemma authors_comma_count_witness :
  exists authors : string,
    py_join ", " (JArr (map JStr ["A. Author"; "B. Writer"])) = Ok authors
    /\ authors = "A. Author, B. Writer"
    /\ (count_char "," authors + 1 = 2)%nat.
Proof.
  destruct (authors_comma_count ["A. Author"; "B. Writer"]) as [authors [Hjoin [Heq Hcount]]].
  - repeat constructor.
  - exists authors. split; [exact Hjoin|]. split; [exact Heq | exact Hcount].
Defined.

Lemma rmap_length {A B : Type} (f : A -> result B) (xs : list A) (ys : list B) :
  rmap f xs = Ok ys -> length ys = length xs.
Proof.
  intros Hmap. apply rmap_Forall2 in Hmap.
  induction Hmap as [|x y xs' ys' _ _ IH]; simpl; [reflexivity | rewrite IH; reflexivity].
Qed.

Lemma filter_length_le {A : Type} (f : A -> bool) (xs : list A) :
  (length (List.filter f xs) <= length xs)%nat.
Proof. induction xs as [|x xs IH]; simpl; [lia | destruct (f x); simpl; lia]. Qed.

(** X4. The shape of the frame [transform_data] returns: it never has more
    rows than books were fetched; as soon as one book was fetched it has the
    21 columns, even when every row is dropped; for no book at all it has
    neither rows nor columns. *)
Theorem transform_data_shape (books : list json) (df : DataFrame) :
  transform_data (JArr books) = Ok df ->
  (length (rows df) <= length books)%nat
  /\ (books <> [] -> columns df = book_columns)
  /\ (books = [] -> df = Frame [] []).
Proof.
  unfold transform_data; simpl. intros Hdf.
  apply rbind_Ok in Hdf. destruct Hdf as [data [Hdata Hdf]]. injection Hdf as <-.
  split; [|split].
  - simpl. rewrite <- (rmap_length _ _ _ Hdata), <- (length_map (map snd) data).
    apply filter_length_le.
  - intros Hbooks. destruct books as [|book books']; [congruence|].
    simpl in Hdata. apply rbind_Ok in Hdata. destruct Hdata as [record [Hrecord Hdata]].
    apply rbind_Ok in Hdata. destruct Hdata as [data' [_ Hdata]]. injection Hdata as <-.
    simpl. exact (book_record_columns book record Hrecord).
  - intros ->. simpl in Hdata. injection Hdata as <-. reflexivity.
Qed.

(** The two sample books give one row and the 21 columns. *)
Lemma transform_data_shape_witness :
  (length (rows sample_frame) <= length sample_books)%nat
  /\ columns sample_frame = book_columns.
Proof.
  destruct (transform_data_shape sample_books sample_frame eq_refl) as [Hrows [Hcols _]].
  split; [exact Hrows|]. apply Hcols. discriminate.
Defined.

(** The value at the end of a path of keys through nested dicts; [JNull]
    when a key is missing or the value on the way is no dict. *)
Fixpoint lookup_path (j : json) (path : list string) : json :=
  match path with
  | [] => j
  | key :: rest =>
      match j with
      | JObj fields =>
          match assoc key fields with
          | Some v => lookup_path v rest
          | None => JNull
          end
      | _ => JNull
      end
  end.

(** The 18 columns that hold what a [get] without default returns, each with
    the path it is read from. *)
Definition field_paths : list (string * list string) :=
  [ ("book_id", ["id"]);
    ("title", ["volumeInfo"; "title"]);
    ("subtitle", ["volumeInfo"; "subtitle"]);
    ("description", ["volumeInfo"; "description"]);
    ("page_count", ["volumeInfo"; "pageCount"]);
    ("language", ["volumeInfo"; "language"]);
    ("image_link", ["volumeInfo"; "imageLinks"; "thumbnail"]);
    ("average_rating", ["volumeInfo"; "averageRating"]);
    ("ratings_count", ["volumeInfo"; "ratingsCount"]);
    ("publisher", ["volumeInfo"; "publisher"]);
    ("is_ebook", ["saleInfo"; "isEbook"]);
    ("saleability", ["saleInfo"; "saleability"]);
    ("amount_list_price", ["saleInfo"; "listPrice"; "amount"]);
    ("currency_code_list_price", ["saleInfo"; "listPrice"; "currencyCode"]);
    ("amount_retail_price", ["saleInfo"; "retailPrice"; "amount"]);
    ("currency_code_retail_price", ["saleInfo"; "retailPrice"; "currencyCode"]);
    ("buy_link", ["saleInfo"; "buyLink"]);
    ("country", ["saleInfo"; "country"]) ].

Lemma lookup_path_null (path : list string) : lookup_path JNull path = JNull.
Proof. destruct path; reflexivity. Qed.

Lemma get_null_path (d : json) (key : string) (v : json) (rest : list string) :
  py_get d key JNull = Ok v -> lookup_path d (key :: rest) = lookup_path v rest.
Proof.
  destruct d; try discriminate. simpl. intros Hget. injection Hget as <-.
  destruct (assoc key fields); [reflexivity | rewrite lookup_path_null; reflexivity].
Qed.

Lemma get_dict_path (d : json) (key : string) (sub : json) (key2 : string) (rest : list string) :
  py_get d key (JObj []) = Ok sub ->
  lookup_path d (key :: key2 :: rest) = lookup_path sub (key2 :: rest).
Proof.
  destruct d; try discriminate. simpl. intros Hget. injection Hget as <-.
  destruct (assoc key fields); reflexivity.
Qed.

(** The 18 cells are the values at the ends of their paths. *)
Lemma book_record_paths (book : json) (record : list (string * json)) :
  book_record book = Ok record ->
  List.Forall (fun lp => assoc (fst lp) record = Some (lookup_path book (snd lp))) field_paths.
Proof.
  unfold book_record. intros Hrec.
  repeat (apply rbind_Ok in Hrec; destruct Hrec as [? [? Hrec]]).
  injection Hrec as <-. unfold field_paths.
  repeat constructor; simpl assoc; simpl fst; simpl snd; f_equal; symmetry;
    repeat match goal with
           | Hget : py_get ?d ?k (JObj []) = Ok ?sub |- context [lookup_path ?d (?k :: _ :: _)] =>
               rewrite (get_dict_path _ _ _ _ _ Hget)
           | Hget : py_get ?d ?k JNull = Ok ?v |- context [lookup_path ?d (?k :: _)] =>
               rewrite (get_null_path _ _ _ _ Hget)
           end;
    reflexivity.
Qed.

Lemma assoc_In_snd (key : string) (record : list (string * json)) (v : json) :
  assoc key record = Some v -> In v (map snd record).
Proof.
  induction record as [|[k v'] record IH]; simpl; [discriminate|].
  destruct (String.eqb k key); [intros Hv; injection Hv as ->; left; reflexivity|].
  intros Hv. right. exact (IH Hv).
Qed.

(** X5. Which books reach the frame: every row [transform_data] keeps is
    the flattening of a fetched book that carries all of the 18 optional
    fields (id, title, subtitle, description, page count, language,
    thumbnail, both ratings, publisher, and the eight fields of the sale
    with both prices) with a value other than null.  A book that lacks one of
    them is never stored. *)
Theorem kept_rows_have_every_field (books : list json) (df : DataFrame) :
  transform_data (JArr books) = Ok df ->
  forall row : list json,
    In row (rows df) ->
    exists (book : json) (record : list (string * json)),
      In book books
      /\ book_record book = Ok record
      /\ row = map snd record
      /\ List.Forall (fun lp => lookup_path book (snd lp) <> JNull) field_paths.
Proof.
  unfold transform_data; simpl. intros Hdf row Hrow.
  apply rbind_Ok in Hdf. destruct Hdf as [data [Hdata Hdf]]. injection Hdf as <-.
  simpl in Hrow. apply filter_In in Hrow. destruct Hrow as [Hrow Hcomplete].
  apply in_map_iff in Hrow. destruct Hrow as [record [<- Hrecord]].
  apply rmap_Forall2 in Hdata.
  assert (Hbook : exists book, In book books /\ book_record book = Ok record).
  { clear Hcomplete. induction Hdata as [|b r books' data' Hbr _ IH]; [destruct Hrecord|].
    destruct Hrecord as [-> | Hrecord].
    - exists b. split; [left; reflexivity | exact Hbr].
    - destruct (IH Hrecord) as [book [Hin Hrec]]. exists book. split; [right; exact Hin | exact Hrec]. }
  destruct Hbook as [book [Hin Hrec]]. exists book, record.
  split; [exact Hin|]. split; [exact Hrec|]. split; [reflexivity|].
  pose proof (book_record_paths book record Hrec) as Hpaths.
  apply complete_no_null in Hcomplete. rewrite List.Forall_forall in Hcomplete.
  rewrite List.Forall_forall in Hpaths |- *. intros lp Hlp Hnull.
  specialize (Hpaths lp Hlp). rewrite Hnull in Hpaths.
  exact (Hcomplete JNull (assoc_In_snd _ _ _ Hpaths) eq_refl).
Qed.

(** Of the two sample books only the full one reaches the frame. *)
Lemma kept_rows_have_every_field_witness :
  exists (book : json) (record : list (string * json)),
    In book sample_books
    /\ book_record book = Ok record
    /\ hd [] (rows sample_frame) = map snd record
    /\ List.Forall (fun lp => lookup_path book (snd lp) <> JNull) field_paths.
Proof.
  apply (kept_rows_have_every_field sample_books sample_frame eq_refl).
  left. reflexivity.
Defined.

(** ** The "Search" button and the run of the script *)

Definition is_dict (j : json) : bool :=
  match j with
  | JObj _ => true
  | _ => false
  end.

(** An HTTP client that answers with one well-formed book and a null. *)
Definition http_null_item (_ : string) (_ : Z) : result Response :=
  Ok (mkResponse 200 (Ok (JObj [("items", JArr [sample_book_full; JNull])]))).

(** An HTTP client that answers 200 without any item. *)
Definition http_no_items (_ : string) (_ : Z) : result Response :=
  Ok (mkResponse 200 (Ok (JObj [("kind", JStr "books#volumes"); ("totalItems", JNum 0%Q)]))).

(** An HTTP client that answers with the record whose title is a list. *)
Definition http_two_titles (_ : string) (_ : Z) : result Response :=
  Ok (mkResponse 200 (Ok (JObj [("items", JArr [sample_book_two_titles])]))).

(** A cell that holds a list or a dict. *)
Definition is_container (cell : json) : bool :=
  match cell with
  | JArr _ | JObj _ => true
  | _ => false
  end.

(** A database file without tables, and an engine stand-in as before. *)
Definition fresh_world : World := mkWorld ∅ [] [].

Lemma rmap_raises {A B : Type} (f : A -> result B) (xs : list A) (x : A) (e : exn) :
  In x xs -> f x = Raise e -> exists e' : exn, rmap f xs = Raise e'.
Proof.
  intros Hin Hx. induction xs as [|y xs IH]; [destruct Hin|]. simpl.
  destruct (f y) as [b|e'] eqn:Hy; simpl; [|exists e'; reflexivity].
  destruct Hin as [-> | Hin]; [congruence|].
  destruct (IH Hin) as [e' ->]. exists e'. reflexivity.
Qed.

Lemma book_record_not_dict (b : json) :
  is_dict b = false -> book_record b = Raise (AttributeError "'get'").
Proof. destruct b; try reflexivity. discriminate. Qed.

Lemma bind_row_container (position : nat) (row : list json) :
  existsb is_container row = true -> exists e : exn, bind_row position row = Raise e.
Proof.
  revert position; induction row as [|cell row IH]; intros position Hrow; [discriminate Hrow|].
  simpl in Hrow. simpl.
  destruct (bind_parameter position cell) as [[]|e] eqn:Hcell; [|exists e; reflexivity].
  simpl. apply IH.
  destruct cell; simpl in Hcell; try discriminate Hcell; exact Hrow.
Qed.

(** A row with a list or a dict among its cells makes the INSERT raise. *)
Lemma executemany_container (table_rows : list (list json)) :
  existsb (existsb is_container) table_rows = true ->
  exists e : exn, executemany table_rows = Raise e.
Proof.
  intros Hrows. apply existsb_exists in Hrows. destruct Hrows as [row [Hin Hrow]].
  destruct (bind_row_container 1 row Hrow) as [e He].
  destruct (rmap_raises (bind_row 1) table_rows row e Hin He) as [e' He'].
  exists e'. unfold executemany. rewrite He'. reflexivity.
Qed.

Section SearchProofs.

Variable requests_get : string -> Z -> result Response.
Variable read_sql_query : string -> gmap string DataFrame -> result DataFrame * gmap string DataFrame.

Lemma fetch_books_200 (q : string) (n : Z) (response : Response) (fields : list (string * json)) :
  requests_get q n = Ok response ->
  status_code response = 200 ->
  response_json response = Ok (JObj fields) ->
  fetch_books requests_get q n
  = Ok (match assoc "items" fields with Some items => items | None => JArr [] end).
Proof.
  intros Hget Hstatus Hjson. unfold fetch_books. rewrite Hget. simpl.
  rewrite Hstatus, Hjson. reflexivity.
Qed.

(** X6. One item that is no dict (a null, say) among the fetched items makes
    the "Search" button raise, although the other items are well formed:
    nothing is rendered, nothing is written, and the table of an earlier
    search stays as it was. *)
Theorem search_malformed_item (i : Inputs) (w : World) (response : Response)
    (fields : list (string * json)) (items : list json) (b : json) :
  search_clicked i = true ->
  requests_get (query i) 40 = Ok response ->
  status_code response = 200 ->
  response_json response = Ok (JObj fields) ->
  assoc "items" fields = Some (JArr items) ->
  In b items ->
  is_dict b = false ->
  exists e : exn, search_section requests_get i w = (Raise e, w).
Proof.
  intros Hclick Hget Hstatus Hjson Hitems Hin Hb.
  unfold search_section, bind, lift. rewrite Hclick.
  rewrite (fetch_books_200 _ _ response fields Hget Hstatus Hjson), Hitems.
  assert (Htruthy : truthy (JArr items) = true).
  { destruct items; [destruct Hin | reflexivity]. }
  rewrite Htruthy. unfold transform_data. simpl.
  destruct (rmap_raises book_record items b _ Hin (book_record_not_dict b Hb)) as [e ->].
  exists e. reflexivity.
Qed.

(** X7. A 200 response whose body has no "items" key, or an empty or
    otherwise false value under it, is reported as "No books found.": the
    "Search" button returns, makes no database call and leaves every table as
    it was. *)
Theorem search_nothing_found (i : Inputs) (w : World) (response : Response)
    (fields : list (string * json)) :
  search_clicked i = true ->
  requests_get (query i) 40 = Ok response ->
  status_code response = 200 ->
  response_json response = Ok (JObj fields) ->
  truthy (match assoc "items" fields with Some items => items | None => JArr [] end) = false ->
  search_section requests_get i w
  = (Ok tt, mkWorld (db w) (trace w) (screen w ++ [St_error "No books found."])).
Proof.
  intros Hclick Hget Hstatus Hjson Hfalse.
  unfold search_section, bind, lift. rewrite Hclick.
  rewrite (fetch_books_200 _ _ response fields Hget Hstatus Hjson), Hfalse. reflexivity.
Qed.

(** X8. A search that fetches at least one item and flattens it into a
    frame whose cells SQLite can bind ([None], booleans, numbers, texts): the
    [books] table becomes the frame [transform_data] returns, by one
    connection that is opened, written and closed, and the success box
    reports the number of rows of that frame, which is the number of books
    kept after dropping and not the number fetched. *)
Theorem search_stores_frame (i : Inputs) (w : World) (response : Response)
    (fields : list (string * json)) (items : list json) (df : DataFrame) :
  search_clicked i = true ->
  requests_get (query i) 40 = Ok response ->
  status_code response = 200 ->
  response_json response = Ok (JObj fields) ->
  assoc "items" fields = Some (JArr items) ->
  items <> [] ->
  transform_data (JArr items) = Ok df ->
  forallb (forallb bindable) (rows df) = true ->
  search_section requests_get i w
  = (Ok tt,
     mkWorld (<[books_table := df]> (db w))
             (trace w ++ [DbConnect; DbToSql books_table; DbClose])
             (screen w ++ [St_success ("Fetched and saved " +:+ pretty (length (rows df))
                                         +:+ " books to the database.")]))
  /\ (length (rows df) <= length items)%nat.
Proof.
  intros Hclick Hget Hstatus Hjson Hitems Hne Hdf Hcells. split.
  - unfold search_section, bind, lift. rewrite Hclick.
    rewrite (fetch_books_200 _ _ response fields Hget Hstatus Hjson), Hitems.
    assert (Htruthy : truthy (JArr items) = true).
    { destruct items; [congruence | reflexivity]. }
    rewrite Htruthy, Hdf.
    rewrite (save_to_database_spec df w
               (book_frame_storable df (transform_data_columns items df Hne Hdf) Hcells)).
    reflexivity.
  - unfold transform_data in Hdf. simpl in Hdf.
    apply rbind_Ok in Hdf. destruct Hdf as [data [Hdata Hdf]]. injection Hdf as <-.
    simpl. rewrite <- (rmap_length _ _ _ Hdata), <- (length_map (map snd) data).
    apply filter_length_le.
Qed.

(** X25. One kept row that SQLite cannot store costs the stored table.
    When the frame of a search holds a list or a dict in some cell (and
    cells SQLite can bind everywhere else), the "Search" button raises out
    of [to_sql]: the old [books] table has been dropped and the new one is
    left empty, no success box is rendered, and [conn.close()] is not
    reached. *)
Theorem search_unstorable_row (i : Inputs) (w : World) (response : Response)
    (fields : list (string * json)) (items : list json) (df : DataFrame) :
  search_clicked i = true ->
  requests_get (query i) 40 = Ok response ->
  status_code response = 200 ->
  response_json response = Ok (JObj fields) ->
  assoc "items" fields = Some (JArr items) ->
  items <> [] ->
  transform_data (JArr items) = Ok df ->
  existsb (existsb is_container) (rows df) = true ->
  forallb (forallb (fun cell => bindable cell || is_container cell)) (rows df) = true ->
  exists e : exn,
    search_section requests_get i w
    = (Raise e,
       mkWorld (<[books_table := Frame book_columns []]> (db w))
               (trace w ++ [DbConnect; DbToSql books_table])
               (screen w)).
Proof.
  intros Hclick Hget Hstatus Hjson Hitems Hne Hdf Hcontainer _.
  destruct (executemany_container (rows df) Hcontainer) as [e He].
  exists e. unfold search_section, bind, lift. rewrite Hclick.
  rewrite (fetch_books_200 _ _ response fields Hget Hstatus Hjson), Hitems.
  assert (Htruthy : truthy (JArr items) = true).
  { destruct items; [congruence | reflexivity]. }
  rewrite Htruthy, Hdf, save_to_database_steps.
  rewrite (transform_data_columns items df Hne Hdf), He. reflexivity.
Qed.

End SearchProofs.

(** A null after a well-formed book: the search raises and the sample table
    stays. *)
Lemma search_malformed_item_witness :
  exists e : exn, search_section http_null_item inputs_search sample_world = (Raise e, sample_world).
Proof.
  apply (search_malformed_item http_null_item inputs_search sample_world
           (mkResponse 200 (Ok (JObj [("items", JArr [sample_book_full; JNull])])))
           [("items", JArr [sample_book_full; JNull])] [sample_book_full; JNull] JNull);
    try reflexivity.
  right. left. reflexivity.
Defined.

(** A 200 response without items, on the sample table. *)
Lemma search_nothing_found_witness :
  search_section http_no_items inputs_search sample_world
  = (Ok tt, mkWorld (db sample_world) (trace sample_world) [St_error "No books found."]).
Proof.
  exact (search_nothing_found http_no_items inputs_search sample_world
           (mkResponse 200 (Ok (JObj [("kind", JStr "books#volumes"); ("totalItems", JNum 0%Q)])))
           [("kind", JStr "books#volumes"); ("totalItems", JNum 0%Q)]
           eq_refl eq_refl eq_refl eq_refl eq_refl).
Defined.

(** Two books fetched, one saved. *)
Lemma search_stores_frame_witness :
  search_section http_ok inputs_search fresh_world
  = (Ok tt,
     mkWorld {[ books_table := sample_frame ]} [DbConnect; DbToSql books_table; DbClose]
             [St_success "Fetched and saved 1 books to the database."])
  /\ (length (rows sample_frame) <= length sample_books)%nat.
Proof.
  exact (search_stores_frame http_ok inputs_search fresh_world
           (mkResponse 200 (Ok (JObj [("kind", JStr "books#volumes"); ("items", JArr sample_books)])))
           [("kind", JStr "books#volumes"); ("items", JArr sample_books)] sample_books sample_frame
           eq_refl eq_refl eq_refl eq_refl eq_refl ltac:(discriminate) eq_refl eq_refl).
Defined.

(** One book fetched whose title is a list: the search raises and the sample
    table is left empty. *)
Lemma search_unstorable_row_witness :
  exists e : exn,
    search_section http_two_titles inputs_search sample_world
    = (Raise e,
       mkWorld {[ books_table := Frame book_columns [] ]} [DbConnect; DbToSql books_table] []).
Proof.
  exact (search_unstorable_row http_two_titles inputs_search sample_world
           (mkResponse 200 (Ok (JObj [("items", JArr [sample_book_two_titles])])))
           [("items", JArr [sample_book_two_titles])] [sample_book_two_titles]
           sample_frame_two_titles
           eq_refl eq_refl eq_refl eq_refl eq_refl ltac:(discriminate) eq_refl eq_refl eq_refl).
Defined.

Section ScriptProofs.

Variable requests_get : string -> Z -> result Response.
Variable read_sql_query : string -> gmap string DataFrame -> result DataFrame * gmap string DataFrame.

Lemma search_section_not_clicked (i : Inputs) (w : World) :
  search_clicked i = false -> search_section requests_get i w = (Ok tt, w).
Proof. intros Hclick. unfold search_section. rewrite Hclick. reflexivity. Qed.

(** What "Stored Book Data" does, by the outcome of its read. *)
Lemma stored_data_section_spec (w : World) :
  stored_data_section read_sql_query w =
    match read_sql_query "SELECT * FROM books" (db w) with
    | (Ok df, tables) =>
        (Ok df,
         mkWorld tables
                 (trace w ++ [DbConnect; DbExecute "SELECT * FROM books"; DbClose])
                 (screen w ++ [St_header "Stored Book Data"; St_dataframe df]))
    | (Raise e, tables) =>
        (Raise e,
         mkWorld tables
                 (trace w ++ [DbConnect; DbExecute "SELECT * FROM books"])
                 (screen w ++ [St_header "Stored Book Data"]))
    end.
Proof.
  unfold stored_data_section, bind, st. rewrite query_database_spec. simpl.
  destruct (read_sql_query "SELECT * FROM books" (db w)) as [[df|e] tables]; simpl.
  - rewrite <- app_assoc. reflexivity.
  - reflexivity.
Qed.

(** X10. The read of "Stored Book Data" stands outside every [try]: when it
    raises (on a database file without the [books] table, say) and no search
    ran before it, the run of the script ends there with that exception.
    Only the header is rendered, the connection stays open, and neither a
    clicked "Run Query" nor a clicked "Run Analysis" is reached. *)
Theorem unguarded_read_aborts (i : Inputs) (w : World) (e : exn) :
  search_clicked i = false ->
  fst (read_sql_query "SELECT * FROM books" (db w)) = Raise e ->
  run_script requests_get read_sql_query i w
  = (Raise e,
     mkWorld (snd (read_sql_query "SELECT * FROM books" (db w)))
             (trace w ++ [DbConnect; DbExecute "SELECT * FROM books"])
             (screen w ++ [St_header "Stored Book Data"])).
Proof.
  intros Hclick Hread. unfold run_script, bind.
  rewrite (search_section_not_clicked i w Hclick), stored_data_section_spec.
  destruct (read_sql_query "SELECT * FROM books" (db w)) as [[df|e'] tables];
    simpl in Hread; [discriminate|].
  injection Hread as ->. reflexivity.
Qed.

Section ReadOnly.

Hypothesis select_reads_only :
  forall (sql : string) (tables : gmap string DataFrame),
    is_select sql = true -> snd (read_sql_query sql tables) = tables.

Lemma run_query_section_db (i : Inputs) (w : World) :
  (run_query_clicked i = true -> is_select (sql_query i) = true) ->
  fst (run_query_section read_sql_query i w) = Ok tt
  /\ db (snd (run_query_section read_sql_query i w)) = db w.
Proof using select_reads_only.
  intros Hselect. destruct (run_query_clicked i) eqn:Hclick.
  - rewrite (run_query_section_spec read_sql_query i w Hclick). simpl.
    split; [reflexivity|]. apply select_reads_only. apply Hselect. reflexivity.
  - unfold run_query_section. rewrite Hclick. split; reflexivity.
Qed.

Lemma analysis_section_db_any (i : Inputs) (w : World) :
  fst (analysis_section read_sql_query i w) = Ok tt
  /\ db (snd (analysis_section read_sql_query i w)) = db w.
Proof using select_reads_only.
  destruct (run_analysis_clicked i) eqn:Hclick.
  - destruct (analysis_branch (analysis_choice i) (keyword i)) as [[sql r]|] eqn:Hbranch.
    + rewrite (analysis_section_spec read_sql_query i w sql r Hclick Hbranch). simpl.
      split; [reflexivity|]. apply select_reads_only.
      exact (analysis_branch_select _ _ _ _ Hbranch).
    + rewrite (analysis_section_no_branch read_sql_query i w Hclick Hbranch).
      split; reflexivity.
  - unfold analysis_section. rewrite Hclick. split; reflexivity.
Qed.

(** X11. A run of the script that does not search and whose query box, if
    "Run Query" is clicked, holds a statement starting with SELECT leaves
    every table as it was, whichever analysis is chosen, whatever the keyword
    box holds and whether the run returns or raises (for an SQL engine that
    changes no table on a statement starting with SELECT). *)
Theorem script_reads_only (i : Inputs) (w : World) :
  search_clicked i = false ->
  (run_query_clicked i = true -> is_select (sql_query i) = true) ->
  db (snd (run_script requests_get read_sql_query i w)) = db w.
Proof using select_reads_only.
  intros Hclick Hselect. unfold run_script, bind.
  rewrite (search_section_not_clicked i w Hclick), stored_data_section_spec.
  pose proof (select_reads_only "SELECT * FROM books" (db w) eq_refl) as Hstored.
  destruct (read_sql_query "SELECT * FROM books" (db w)) as [[df|e] tables];
    simpl in Hstored; subst tables; [|reflexivity].
  match goal with
  | |- context [run_query_section read_sql_query i ?w1] =>
      destruct (run_query_section_db i w1 Hselect) as [Hok Hdb];
      destruct (run_query_section read_sql_query i w1) as [outcome w2]
  end.
  simpl in Hok, Hdb. subst outcome.
  destruct (analysis_section_db_any i w2) as [_ Hdb2]. rewrite Hdb2. exact Hdb.
Qed.

End ReadOnly.

Section RoundTrip.

(** Two facts about the SQL engine: a statement starting with SELECT changes
    no table, and what it returns for the statement of "Stored Book Data"
    depends on the [books] table only. *)
Hypothesis select_reads_only :
  forall (sql : string) (tables : gmap string DataFrame),
    is_select sql = true -> snd (read_sql_query sql tables) = tables.

Hypothesis select_star_of_books :
  forall tables1 tables2 : gmap string DataFrame,
    tables1 !! books_table = tables2 !! books_table ->
    fst (read_sql_query "SELECT * FROM books" tables1)
    = fst (read_sql_query "SELECT * FROM books" tables2).

(** X9. Saving and reading back: in a run of the script that searches,
    fetches at least one item and flattens it into a frame SQLite can store
    (and clicks nothing else), "Stored Book Data" shows what the engine
    reads from a file that holds the frame just saved and nothing else.
    What the file held before the search has no part in it, and the run
    returns with both connections closed. *)
Theorem search_then_stored_data (i : Inputs) (w : World) (response : Response)
    (fields : list (string * json)) (items : list json) (df shown : DataFrame) :
  search_clicked i = true ->
  run_query_clicked i = false ->
  run_analysis_clicked i = false ->
  requests_get (query i) 40 = Ok response ->
  status_code response = 200 ->
  response_json response = Ok (JObj fields) ->
  assoc "items" fields = Some (JArr items) ->
  items <> [] ->
  transform_data (JArr items) = Ok df ->
  forallb (forallb bindable) (rows df) = true ->
  fst (read_sql_query "SELECT * FROM books" {[ books_table := df ]}) = Ok shown ->
  run_script requests_get read_sql_query i w
  = (Ok tt,
     mkWorld (<[books_table := df]> (db w))
             (trace w ++ [DbConnect; DbToSql books_table; DbClose;
                          DbConnect; DbExecute "SELECT * FROM books"; DbClose])
             (screen w ++ [St_success ("Fetched and saved " +:+ pretty (length (rows df))
                                         +:+ " books to the database.");
                           St_header "Stored Book Data"; St_dataframe shown])).
Proof using select_reads_only select_star_of_books.
  intros Hsearch Hquery Hanalysis Hget Hstatus Hjson Hitems Hne Hdf Hcells Hshown.
  assert (Hfetch : fetch_books requests_get (query i) 40 = Ok (JArr items)).
  { unfold fetch_books. rewrite Hget. simpl. rewrite Hstatus, Hjson. simpl.
    rewrite Hitems. reflexivity. }
  assert (Htruthy : truthy (JArr items) = true).
  { destruct items; [congruence | reflexivity]. }
  pose proof (book_frame_storable df (transform_data_columns items df Hne Hdf) Hcells)
    as Hstorable.
  assert (Hread : read_sql_query "SELECT * FROM books" (<[books_table := df]> (db w))
                  = (Ok shown, <[books_table := df]> (db w))).
  { pose proof (select_reads_only "SELECT * FROM books" (<[books_table := df]> (db w))
                  eq_refl) as Hsame.
    pose proof (select_star_of_books (<[books_table := df]> (db w)) {[ books_table := df ]})
      as Hfst.
    rewrite lookup_insert_eq, lookup_singleton_eq in Hfst. specialize (Hfst eq_refl).
    rewrite Hshown in Hfst.
    destruct (read_sql_query "SELECT * FROM books" (<[books_table := df]> (db w)))
      as [r tables].
    simpl in Hsame, Hfst. subst. reflexivity. }
  unfold run_script.
  unfold bind at 1. unfold search_section. rewrite Hsearch.
  unfold bind at 1. unfold lift at 1. rewrite Hfetch, Htruthy.
  unfold bind at 1. unfold lift at 1. rewrite Hdf.
  unfold bind at 1. rewrite (save_to_database_spec df w Hstorable). unfold st at 1.
  unfold bind at 1. rewrite stored_data_section_spec. simpl db.
  rewrite Hread.
  unfold bind, run_query_section, analysis_section. rewrite Hquery, Hanalysis. simpl.
  repeat rewrite <- app_assoc. reflexivity.
Qed.

End RoundTrip.

End ScriptProofs.

(** What SQLite gives back for a stored cell: a boolean comes back as the
    integer 1 or 0. *)
Definition sqlite_value (cell : json) : json :=
  match cell with
  | JBool true => JNum 1%Q
  | JBool false => JNum 0%Q
  | _ => cell
  end.

(** A stand-in for the SQL engine that reads the whole [books] table the way
    SQLite returns it, and changes nothing. *)
Definition sample_sqlite (sql : string) (tables : gmap string DataFrame)
  : result DataFrame * gmap string DataFrame :=
  match tables !! books_table with
  | Some df => (Ok (Frame (columns df) (map (map sqlite_value) (rows df))), tables)
  | None => (Raise (Exn "DatabaseError" "no such table: books"), tables)
  end.

Lemma sample_sqlite_reads_only (sql : string) (tables : gmap string DataFrame) :
  is_select sql = true -> snd (sample_sqlite sql tables) = tables.
Proof. intros _. unfold sample_sqlite. destruct (tables !! books_table); reflexivity. Qed.

Lemma sample_sqlite_of_books (tables1 tables2 : gmap string DataFrame) :
  tables1 !! books_table = tables2 !! books_table ->
  fst (sample_sqlite "SELECT * FROM books" tables1)
  = fst (sample_sqlite "SELECT * FROM books" tables2).
Proof.
  intros Hsame. unfold sample_sqlite. rewrite Hsame.
  destruct (tables2 !! books_table); reflexivity.
Qed.

(** A first run on a file without tables, with "Run Analysis" clicked: the
    run ends at "Stored Book Data". *)
Lemma unguarded_read_aborts_witness :
  run_script http_ok sample_engine inputs_python fresh_world
  = (Raise (Exn "DatabaseError" "no such table: books"),
     mkWorld ∅ [DbConnect; DbExecute "SELECT * FROM books"] [St_header "Stored Book Data"]).
Proof.
  exact (unguarded_read_aborts http_ok sample_engine inputs_python fresh_world
           (Exn "DatabaseError" "no such table: books") eq_refl eq_refl).
Defined.

(** A run with "Run Analysis" clicked on the sample table. *)
Lemma script_reads_only_witness :
  db (snd (run_script http_ok sample_engine inputs_python sample_world)) = db sample_world.
Proof.
  apply (script_reads_only http_ok sample_engine sample_engine_reads_only inputs_python
           sample_world eq_refl).
  intros Hclick. discriminate Hclick.
Defined.

(** A search on a file that holds a table of another shape: the frame just
    saved is shown, with its boolean as SQLite returns it. *)
Lemma search_then_stored_data_witness :
  run_script http_ok sample_sqlite inputs_search
    (mkWorld {[ books_table := Frame ["note"] [[JStr "an earlier table"]] ]} [] [])
  = (Ok tt,
     mkWorld {[ books_table := sample_frame ]}
             [DbConnect; DbToSql books_table; DbClose;
              DbConnect; DbExecute "SELECT * FROM books"; DbClose]
             [St_success "Fetched and saved 1 books to the database.";
              St_header "Stored Book Data";
              St_dataframe (Frame book_columns (map (map sqlite_value) (rows sample_frame)))]).
Proof.
  exact (search_then_stored_data http_ok sample_sqlite sample_sqlite_reads_only
           sample_sqlite_of_books inputs_search
           (mkWorld {[ books_table := Frame ["note"] [[JStr "an earlier table"]] ]} [] [])
           (mkResponse 200 (Ok (JObj [("kind", JStr "books#volumes"); ("items", JArr sample_books)])))
           [("kind", JStr "books#volumes"); ("items", JArr sample_books)] sample_books sample_frame
           (Frame book_columns (map (map sqlite_value) (rows sample_frame)))
           eq_refl eq_refl eq_refl eq_refl eq_refl eq_refl eq_refl ltac:(discriminate) eq_refl
           eq_refl eq_refl).
Defined.

(** ** The "Book Details" loop *)

(** A widget rendered by the loop. *)
Inductive detail_call : Type :=
| D_subheader (text : string)
| D_image (link : json) (width : Z)
| D_write (text : string)
| D_markdown (text : string).

(** A run of statements that render widgets and may raise: the widgets
    rendered so far and the outcome. *)
Definition R (A : Type) : Type := (list detail_call * result A)%type.

Definition rret {A : Type} (a : A) : R A := ([], Ok a).

Definition rthen {A B : Type} (m : R A) (k : A -> R B) : R B :=
  match m with
  | (calls, Ok a) => let (calls', r) := k a in (calls ++ calls', r)
  | (calls, Raise e) => (calls, Raise e)
  end.

Notation "x <-? m ; k" := (rthen m (fun x => k))
  (at level 100, m at next level, right associativity).

Definition emit (call : detail_call) : R unit := ([call], Ok tt).

(** [row[label]] for a row of a frame with the given columns. *)
Fixpoint row_get (columns : list string) (row : list json) (label : string) : result json :=
  match columns, row with
  | c :: columns', v :: row' =>
      if String.eqb c label then Ok v else row_get columns' row' label
  | _, _ => Raise (KeyError label)
  end.

Section Details.

(** [str(value)] as an f-string prints a cell. *)
Variable py_str : json -> string.

(** [st.image(link, width=width)]: Streamlit hands a web address on to the
    browser and raises on a value it cannot read as an image. *)
Variable st_image : json -> Z -> result unit.

Definition cell (columns : list string) (row : list json) (label : string) : R json :=
  ([], row_get columns row label).

Definition image (link : json) (width : Z) : R unit :=
  match st_image link width with
  | Ok _ => emit (D_image link width)
  | Raise e => ([], Raise e)
  end.

(** The body of the loop for one row. *)
Definition details_row (columns : list string) (row : list json) : R unit :=
  title <-? cell columns row "title";
  published_year <-? cell columns row "published_year";
  _ <-? emit (D_subheader (py_str title +:+ " (" +:+ py_str published_year +:+ ")"));
  image_link <-? cell columns row "image_link";
  _ <-? (if truthy image_link then
           link <-? cell columns row "image_link";
           image link 150
         else rret tt);
  authors <-? cell columns row "authors";
  _ <-? emit (D_write ("**Authors:** " +:+ py_str authors));
  description <-? cell columns row "description";
  _ <-? emit (D_write ("**Description:** " +:+ py_str description));
  categories <-? cell columns row "categories";
  _ <-? emit (D_write ("**Categories:** " +:+ py_str categories));
  page_count <-? cell columns row "page_count";
  _ <-? emit (D_write ("**Page Count:** " +:+ py_str page_count));
  language <-? cell columns row "language";
  _ <-? emit (D_write ("**Language:** " +:+ py_str language));
  average_rating <-? cell columns row "average_rating";
  ratings_count <-? cell columns row "ratings_count";
  _ <-? emit (D_write ("**Average Rating:** " +:+ py_str average_rating +:+ " ("
                         +:+ py_str ratings_count +:+ " ratings)"));
  amount_retail_price <-? cell columns row "amount_retail_price";
  currency_code_retail_price <-? cell columns row "currency_code_retail_price";
  _ <-? emit (D_write ("**Price:** " +:+ py_str amount_retail_price +:+ " "
                         +:+ py_str currency_code_retail_price));
  saleability <-? cell columns row "saleability";
  _ <-? emit (D_write ("**Saleability:** " +:+ py_str saleability));
  publisher <-? cell columns row "publisher";
  _ <-? emit (D_write ("**Publisher:** " +:+ py_str publisher));
  country <-? cell columns row "country";
  _ <-? emit (D_write ("**Country:** " +:+ py_str country));
  buy_link <-? cell columns row "buy_link";
  _ <-? (if truthy buy_link then
           link <-? cell columns row "buy_link";
           emit (D_markdown ("[Buy this book](" +:+ py_str link +:+ ")"))
         else rret tt);
  emit (D_markdown "---").

(** [for _, row in data.iterrows(): ...]. *)
Fixpoint details_rows (columns : list string) (rows : list (list json)) : R unit :=
  match rows with
  | [] => rret tt
  | row :: rest =>
      _ <-? details_row columns row;
      details_rows columns rest
  end.

Definition book_details (data : DataFrame) : R unit :=
  details_rows (columns data) (rows data).

End Details.

Definition is_image (call : detail_call) : bool :=
  match call with
  | D_image _ _ => true
  | _ => false
  end.

Definition is_subheader (call : detail_call) : bool :=
  match call with
  | D_subheader _ => true
  | _ => false
  end.

Definition is_buy_link (call : detail_call) : bool :=
  match call with
  | D_markdown text => String.prefix "[Buy this book](" text
  | _ => false
  end.

(** The cells of a row of the [books] table that the two [if]s test. *)
Definition image_link_of (row : list json) : json := nth 8 row JNull.
Definition buy_link_of (row : list json) : json := nth 19 row JNull.

Definition count_if {A : Type} (f : A -> bool) (xs : list A) : nat := length (List.filter f xs).

Lemma count_if_app {A : Type} (f : A -> bool) (xs ys : list A) :
  count_if f (xs ++ ys) = (count_if f xs + count_if f ys)%nat.
Proof. unfold count_if. rewrite List.filter_app, length_app. reflexivity. Qed.

Lemma row_get_missing (columns : list string) (row : list json) (label : string) :
  ~ In label columns -> row_get columns row label = Raise (KeyError label).
Proof.
  revert row; induction columns as [|c columns IH]; intros row Hmissing; [reflexivity|].
  destruct row as [|v row]; [reflexivity|]. simpl.
  destruct (String.eqb_spec c label) as [-> | _].
  - exfalso. apply Hmissing. left. reflexivity.
  - apply IH. intros Hin. apply Hmissing. right. exact Hin.
Qed.

(** Every row [transform_data] returns has 21 cells. *)
Lemma transform_data_rows_21 (books : list json) (df : DataFrame) :
  transform_data (JArr books) = Ok df ->
  List.Forall (fun row => length row = 21%nat) (rows df).
Proof.
  unfold transform_data; simpl. intros Hdf.
  apply rbind_Ok in Hdf. destruct Hdf as [data [Hdata Hdf]]. injection Hdf as <-.
  simpl. rewrite List.Forall_forall. intros row Hrow.
  apply filter_In in Hrow. destruct Hrow as [Hrow _].
  apply in_map_iff in Hrow. destruct Hrow as [record [<- Hrecord]].
  apply rmap_Forall2 in Hdata.
  assert (Hcols : map fst record = book_columns).
  { induction Hdata as [|b r books' data' Hbr _ IH]; [destruct Hrecord|].
    destruct Hrecord as [-> | Hrecord]; [exact (book_record_columns _ _ Hbr) | exact (IH Hrecord)]. }
  rewrite length_map, <- (length_map fst), Hcols. reflexivity.
Qed.

Lemma prefix_append (p x : string) : String.prefix p (p +:+ x) = true.
Proof.
  induction p as [|c p IH]; [destruct x; reflexivity|].
  simpl. destruct (ascii_dec c c) as [_ | Hne]; [exact IH | contradiction].
Qed.

Section DetailsProofs.

Variable py_str : json -> string.
Variable st_image : json -> Z -> result unit.

(** One row of the [books] table whose thumbnail, if it has one, Streamlit
    can show: the loop body returns, with 12 widgets and one more for each of
    the two links that is true. *)
Lemma details_row_counts (row : list json) :
  length row = 21%nat ->
  (truthy (image_link_of row) = true -> st_image (image_link_of row) 150 = Ok tt) ->
  exists widgets : list detail_call,
    details_row py_str st_image book_columns row = (widgets, Ok tt)
    /\ count_if is_subheader widgets = 1%nat
    /\ count_if is_image widgets = (if truthy (image_link_of row) then 1 else 0)%nat
    /\ count_if is_buy_link widgets = (if truthy (buy_link_of row) then 1 else 0)%nat
    /\ length widgets
       = (12 + (if truthy (image_link_of row) then 1 else 0)
             + (if truthy (buy_link_of row) then 1 else 0))%nat.
Proof.
  intros Hlen Himage.
  do 21 (destruct row as [|? row]; [discriminate Hlen|]).
  destruct row; [|discriminate Hlen]. clear Hlen. revert Himage.
  unfold details_row, cell, image, image_link_of, buy_link_of.
  cbv - [truthy String.append String.prefix is_buy_link count_if].
  match goal with
  | |- (truthy ?a = true -> _) -> _ =>
      destruct (truthy a); intros Himage;
      [rewrite (Himage eq_refl) | idtac]; clear Himage;
      match goal with
      | |- context [truthy ?b] => destruct (truthy b)
      end
  end;
    cbv - [String.append String.prefix is_buy_link count_if];
    eexists; (split; [reflexivity|]);
    unfold count_if; cbn - [String.append String.prefix];
    rewrite ?prefix_append; repeat split; reflexivity.
Qed.

(** X12. The "Book Details" loop on a table with the 21 columns the search
    saves, on rows that have both links (a missing link is left out: pandas
    hands a NULL back as [None] or as NaN, by its version) and whose
    thumbnail, where there is one, Streamlit can show.  The loop does not
    raise; it renders one subheader for every row, an image for exactly the
    rows whose thumbnail link is true (not empty), a "Buy this book" link for
    exactly the rows whose buy link is true, and 12 other widgets a row.
    The rows [transform_data] returns for at least one book have these 21
    columns, 21 cells and no missing link. *)
Theorem book_details_of_saved_table (table : list (list json)) :
  List.Forall (fun row => length row = 21%nat
                          /\ isna (image_link_of row) = false
                          /\ isna (buy_link_of row) = false
                          /\ (truthy (image_link_of row) = true ->
                              st_image (image_link_of row) 150 = Ok tt)) table ->
  (exists widgets : list detail_call,
      book_details py_str st_image (Frame book_columns table) = (widgets, Ok tt)
      /\ count_if is_subheader widgets = length table
      /\ count_if is_image widgets = count_if (fun row => truthy (image_link_of row)) table
      /\ count_if is_buy_link widgets = count_if (fun row => truthy (buy_link_of row)) table
      /\ length widgets
         = (12 * length table
            + count_if (fun row => truthy (image_link_of row)) table
            + count_if (fun row => truthy (buy_link_of row)) table)%nat)
  /\ (forall (books : list json) (df : DataFrame),
        books <> [] ->
        transform_data (JArr books) = Ok df ->
        columns df = book_columns
        /\ List.Forall (fun row => length row = 21%nat
                                   /\ isna (image_link_of row) = false
                                   /\ isna (buy_link_of row) = false) (rows df)).
Proof.
  intros Htable. split.
  - unfold book_details; simpl.
    induction Htable as [|row rest [Hlen [_ [_ Himage]]] _ IH].
    + exists []. repeat split; reflexivity.
    + destruct (details_row_counts row Hlen Himage) as [w1 [Hw1 [Hs1 [Hi1 [Hb1 Hl1]]]]].
      destruct IH as [w2 [Hw2 [Hs2 [Hi2 [Hb2 Hl2]]]]].
      exists (w1 ++ w2). simpl details_rows. unfold rthen at 1. rewrite Hw1, Hw2.
      split; [reflexivity|].
      rewrite !count_if_app, length_app, Hs1, Hs2, Hi1, Hi2, Hb1, Hb2, Hl1, Hl2.
      unfold count_if. simpl.
      destruct (truthy (image_link_of row)), (truthy (buy_link_of row)); simpl;
        repeat split; lia.
  - intros books df Hbooks Hdf.
    split; [exact (transform_data_columns books df Hbooks Hdf)|].
    pose proof (transform_data_rows_21 books df Hdf) as Hrows.
    assert (Hcomplete : List.Forall (fun row => complete row = true) (rows df)).
    { unfold transform_data in Hdf; simpl in Hdf.
      apply rbind_Ok in Hdf. destruct Hdf as [data [_ Hdf]]. injection Hdf as <-.
      simpl. rewrite List.Forall_forall. intros row Hrow.
      apply filter_In in Hrow. exact (proj2 Hrow). }
    rewrite List.Forall_forall in Hrows, Hcomplete. rewrite List.Forall_forall.
    intros row Hrow. specialize (Hrows row Hrow). specialize (Hcomplete row Hrow).
    split; [exact Hrows|].
    do 21 (destruct row as [|? row]; [discriminate Hrows|]).
    unfold complete in Hcomplete. simpl in Hcomplete.
    unfold image_link_of, buy_link_of. simpl.
    repeat match goal with
           | H : (negb (isna ?c) && _)%bool = true |- _ =>
               apply andb_prop in H; destruct H as [? H]
           end.
    split.
    + match goal with |- isna ?c = false => destruct (isna c); [discriminate | reflexivity] end.
    + match goal with |- isna ?c = false => destruct (isna c); [discriminate | reflexivity] end.
Qed.

(** X13. The edges of the loop: for a table without rows it renders
    nothing and returns, whatever the columns are; for a table with at least
    one row and without a "title" column it raises a KeyError at the first
    row before anything is rendered. *)
Theorem book_details_edges (labels : list string) (row : list json) (rest : list (list json)) :
  book_details py_str st_image (Frame labels []) = ([], Ok tt)
  /\ (~ In "title" labels ->
      book_details py_str st_image (Frame labels (row :: rest))
      = ([], Raise (KeyError "title"))).
Proof.
  split; [reflexivity|]. intros Hmissing.
  unfold book_details. simpl. unfold details_row, cell.
  rewrite (row_get_missing labels row "title" Hmissing). reflexivity.
Qed.

End DetailsProofs.

(** A stand-in for [st.image]: a web address is shown, anything else is
    refused. *)
Definition show_urls (link : json) (_ : Z) : result unit :=
  match link with
  | JStr s =>
      if String.prefix "http" s then Ok tt
      else Raise (Exn "MediaFileStorageError" "Error opening the image")
  | _ => Raise (Exn "TypeError" "not an image")
  end.

(** The saved sample frame: one subheader, one image, one buy link, 14
    widgets. *)
Lemma book_details_of_saved_table_witness :
  exists widgets : list detail_call,
    book_details (fun _ => "") show_urls sample_frame = (widgets, Ok tt)
    /\ count_if is_subheader widgets = 1%nat
    /\ count_if is_image widgets = 1%nat
    /\ count_if is_buy_link widgets = 1%nat
    /\ length widgets = 14%nat.
Proof.
  destruct (book_details_of_saved_table (fun _ => "") show_urls (rows sample_frame))
    as [Hloop _].
  - constructor; [|constructor].
    split; [reflexivity|]. split; [reflexivity|]. split; [reflexivity|].
    intros _. reflexivity.
  - exact Hloop.
Defined.

(** * Further properties of DataDrivenStockAnalysis.py *)

(** ** Duplicates and loading *)

Section MoreDuplicateProofs.

Context {A K : Type} `{EqDecision K}.
Variable key : A -> K.

Lemma duplicated_first_clean (seen keys : list K) :
  any (duplicated_first seen keys) = false ->
  List.NoDup keys /\ forall k, In k keys -> ~ In k seen.
Proof.
  revert seen; induction keys as [|k keys IH]; intros seen Hany.
  - split; [constructor | intros k []].
  - simpl in Hany. apply orb_false_iff in Hany. destruct Hany as [Hocc Hrest].
    apply occurs_not_In in Hocc. destruct (IH (k :: seen) Hrest) as [Hnodup Hfresh].
    split.
    + constructor; [|exact Hnodup]. intros Hin. apply (Hfresh k Hin). left. reflexivity.
    + intros k' [<- | Hin]; [exact Hocc|]. intros Hseen. apply (Hfresh k' Hin). right. exact Hseen.
Qed.

Lemma keep_last_NoDup_id (xs : list A) : List.NoDup (map key xs) -> keep_last key xs = xs.
Proof.
  induction xs as [|x xs IH]; [reflexivity|]. simpl. intros Hnodup.
  apply NoDup_cons_iff in Hnodup. destruct Hnodup as [Hx Hnodup].
  rewrite keep_last_cons. apply occurs_not_In in Hx. rewrite Hx, (IH Hnodup). reflexivity.
Qed.

Lemma keep_last_length (xs : list A) : (length (keep_last key xs) <= length xs)%nat.
Proof.
  induction xs as [|x xs IH]; [simpl; lia|].
  rewrite keep_last_cons. destruct (occurs (key x) (map key xs)); simpl; lia.
Qed.

End MoreDuplicateProofs.

(** X14. The test of the duplicate warning is exact: on any frame,
    [duplicated(subset=["Date", "Symbol"]).any()] is false if and only if no
    two rows share their (Date, Symbol) pair. *)
Theorem duplicate_test_exact {V : Type} (frame : list (Row V)) :
  any (duplicated KeepFirst (map subset_key frame)) = false
  <-> List.NoDup (map subset_key frame).
Proof.
  split.
  - intros Hany. exact (proj1 (duplicated_first_clean [] _ Hany)).
  - intros Hnodup. apply duplicated_first_NoDup; [exact Hnodup | intros k _ []].
Qed.

(** X15. [drop_duplicates] with [keep="last"] never adds a row, returns the
    frame as it is exactly when no (Date, Symbol) pair repeats, and changes
    nothing when applied a second time. *)
Theorem drop_duplicates_fixpoint {V : Type} (frame : list (Row V)) :
  (length (drop_duplicates KeepLast frame) <= length frame)%nat
  /\ (drop_duplicates KeepLast frame = frame <-> List.NoDup (map subset_key frame))
  /\ drop_duplicates KeepLast (drop_duplicates KeepLast frame)
     = drop_duplicates KeepLast frame.
Proof.
  change (@drop_duplicates V KeepLast) with (@keep_last (Row V) _ _ subset_key).
  split; [apply keep_last_length|]. split; [split|].
  - intros Heq. rewrite <- Heq. apply keep_last_NoDup.
  - apply keep_last_NoDup_id.
  - apply keep_last_NoDup_id. apply keep_last_NoDup.
Qed.

Section MoreLoadProofs.

Context {V : Type}.
Variable to_datetime : string -> result Timestamp.

Lemma rmap_first_raise {A B : Type} (f : A -> result B) (above below : list A) (x : A) (e : exn) :
  List.Forall (fun a => exists b, f a = Ok b) above ->
  f x = Raise e ->
  rmap f (above ++ x :: below) = Raise e.
Proof.
  intros Habove Hx. induction Habove as [|a above [b Ha] _ IH]; simpl.
  - rewrite Hx. reflexivity.
  - rewrite Ha, IH. reflexivity.
Qed.

(** X16. One Date that cannot be parsed makes [load_data] raise: when the
    rows above a row parse and the text of its Date is refused by
    [pd.to_datetime], [load_data] raises that exception, whatever the rows
    below hold, and renders nothing.  An empty Date cell is no such case: it
    becomes NaT. *)
Theorem load_data_bad_date (above below : list (RawRow V)) (raw : RawRow V)
    (text : string) (e : exn) :
  List.Forall (fun r => exists row, parse_row to_datetime r = Ok row) above ->
  raw_Date raw = Some text ->
  to_datetime text = Raise e ->
  load_data to_datetime (Some (above ++ raw :: below)) = ([], Raise e)
  /\ (forall r : RawRow V,
        raw_Date r = None ->
        parse_row to_datetime r
        = Ok (mkRow NaT (raw_Symbol r) (raw_Close r) (raw_others r))).
Proof.
  intros Habove Hdate Hraise. split.
  - unfold load_data, parse_dates.
    rewrite (rmap_first_raise (parse_row to_datetime) above below raw e Habove); [reflexivity|].
    unfold parse_row. rewrite Hdate, Hraise. reflexivity.
  - intros r Hr. unfold parse_row. rewrite Hr. reflexivity.
Qed.

End MoreLoadProofs.

(** A good row, then a row dated "yesterday". *)
Lemma load_data_bad_date_witness :
  load_data sample_to_datetime
    (Some ([mkRawRow (Some "2024-01-01") (Some "TCS") (Some 100%Q) []]
           ++ mkRawRow (Some "yesterday") (Some "TCS") (Some 101%Q) []
           :: [mkRawRow (Some "2024-01-02") (Some "TCS") (Some 102%Q) []]))
  = ([], Raise (ValueError "Unknown datetime string format, unable to parse: yesterday")).
Proof.
  apply (load_data_bad_date sample_to_datetime
           [mkRawRow (Some "2024-01-01") (Some "TCS") (Some 100%Q) []]
           [mkRawRow (Some "2024-01-02") (Some "TCS") (Some 102%Q) []]
           (mkRawRow (Some "yesterday") (Some "TCS") (Some 101%Q) []) "yesterday").
  - repeat constructor. eexists. reflexivity.
  - reflexivity.
  - reflexivity.
Defined.

(** ** Returns, selection and the two tables *)

(** [data["Date"].min()] and [data["Date"].max()], the bounds handed to the
    date input. *)
Definition min_date {V : Type} (data : list (Row V)) : Timestamp := ts_min (map Date data).
Definition max_date {V : Type} (data : list (Row V)) : Timestamp := ts_max (map Date data).

Lemma ts_min_lower (d : Timestamp) (dates : list Timestamp) :
  In d dates -> d = NaT \/ ts_leb (ts_min dates) d = true.
Proof.
  induction dates as [|d' dates IH]; [intros []|].
  intros [-> | Hin]; simpl.
  - destruct d as [|x]; [left; reflexivity | right].
    destruct (ts_min dates) as [|m]; simpl; lia.
  - destruct (IH Hin) as [-> | Hle]; [left; reflexivity | right].
    destruct d as [|x]; [destruct (ts_min dates); discriminate|].
    destruct (ts_min dates) as [|m]; [discriminate|].
    destruct d' as [|y]; simpl in *; lia.
Qed.

Lemma ts_min_In (dates : list Timestamp) :
  ts_min dates = NaT \/ In (ts_min dates) dates.
Proof.
  induction dates as [|d dates IH]; [left; reflexivity|]. simpl.
  destruct d as [|x]; simpl.
  - destruct IH as [-> | Hin]; [left; reflexivity | right; right; exact Hin].
  - right. destruct (ts_min dates) as [|m] eqn:Hmin; simpl; [left; reflexivity|].
    destruct (Z.min_spec x m) as [[_ ->] | [_ ->]].
    + left. reflexivity.
    + destruct IH as [Habs | Hin]; [discriminate | right; exact Hin].
Qed.

Section MoreAnalysisProofs.

Context {V : Type} `{Numeric V}.



Lemma filter_none {A : Type} (f : A -> bool) (xs : list A) :
  (forall x, In x xs -> f x = false) -> List.filter f xs = [].
Proof.
  induction xs as [|x xs IH]; intros Hf; [reflexivity|]. simpl.
  rewrite (Hf x (or_introl eq_refl)). apply IH. intros y Hy. apply Hf. right. exact Hy.
Qed.

(** X18. The edges of the selection: the slice is empty when the end day
    lies before the start day and when the selected stock is the missing
    symbol; a row without a date is in no slice; and for a range that covers
    every date of the data the slice holds exactly the rows of the selected
    stock that have a date. *)
Theorem filtered_data_edges (data : list (Row V)) (selected_stock : option string)
    (start_date end_date : Z) :
  (end_date < start_date -> filtered_data data selected_stock start_date end_date = [])
  /\ filtered_data data None start_date end_date = []
  /\ (forall r : Row V,
        In r (filtered_data data selected_stock start_date end_date) -> Date r <> NaT)
  /\ ((forall (r : Row V) (t : Z),
         In r data -> Date r = Ts t ->
         start_date * 86400000000000 <= t <= end_date * 86400000000000) ->
      forall r : Row V,
        In r (filtered_data data selected_stock start_date end_date) <->
        In r data /\ sym_eqb (Symbol r) selected_stock = true /\ Date r <> NaT).
Proof.
  split; [|split; [|split]].
  - intros Hrange. apply filter_none. intros r _. unfold in_selection, to_datetime_date.
    destruct (Date r) as [|t]; simpl; [apply andb_false_r|].
    destruct (sym_eqb (Symbol r) selected_stock); simpl; [|reflexivity].
    destruct (Z.leb_spec (start_date * 86400000000000) t); simpl; [|reflexivity].
    apply Z.leb_gt. lia.
  - apply filter_none. intros r _. unfold in_selection.
    destruct (Symbol r); reflexivity.
  - intros r Hin. apply filter_In in Hin. destruct Hin as [_ Hsel].
    unfold in_selection in Hsel. intros Hnat. rewrite Hnat in Hsel.
    simpl in Hsel. rewrite andb_false_r in Hsel. discriminate Hsel.
  - intros Hcover r. unfold filtered_data. rewrite filter_In. unfold in_selection.
    split.
    + intros [Hin Hsel]. apply andb_true_iff in Hsel. destruct Hsel as [Hsel _].
      apply andb_true_iff in Hsel. destruct Hsel as [Hsym Hstart].
      split; [exact Hin|]. split; [exact Hsym|].
      intros Hnat. rewrite Hnat in Hstart. discriminate Hstart.
    + intros [Hin [Hsym Hdate]]. split; [exact Hin|].
      destruct (Date r) as [|t] eqn:Ht; [congruence|].
      pose proof (Hcover r t Hin Ht) as Hrange. rewrite Hsym. unfold to_datetime_date. simpl.
      apply andb_true_iff. split; apply Z.leb_le; lia.
Qed.

(** X19. The bounds of the date input: when some row has a date,
    [min_date] and [max_date] are dates of rows of the data, the first not
    after the second, and the date of every row that has one lies between
    them; when no row has a date, both are NaT. *)
Theorem date_bounds (data : list (Row V)) :
  ((exists r : Row V, In r data /\ Date r <> NaT) ->
   exists lo hi : Z,
     min_date data = Ts lo /\ max_date data = Ts hi /\ lo <= hi
     /\ (exists r : Row V, In r data /\ Date r = Ts lo)
     /\ (exists r : Row V, In r data /\ Date r = Ts hi)
     /\ forall (r : Row V) (t : Z), In r data -> Date r = Ts t -> lo <= t <= hi)
  /\ ((forall r : Row V, In r data -> Date r = NaT) ->
      min_date data = NaT /\ max_date data = NaT).
Proof.
  unfold min_date, max_date. split.
  - intros [r0 [Hin0 Hdate0]]. destruct (Date r0) as [|t0] eqn:Ht0; [congruence|].
    assert (Hd0 : In (Ts t0) (map Date data)).
    { rewrite <- Ht0. apply in_map. exact Hin0. }
    destruct (ts_min_lower _ _ Hd0) as [Habs | Hlo]; [discriminate|].
    destruct (ts_max_upper _ _ Hd0) as [Habs | Hhi]; [discriminate|].
    destruct (ts_min (map Date data)) as [|lo] eqn:Hmin; [discriminate|].
    destruct (ts_max (map Date data)) as [|hi] eqn:Hmax; [discriminate|].
    simpl in Hlo, Hhi. exists lo, hi.
    split; [reflexivity|]. split; [reflexivity|]. split; [lia|]. split; [|split].
    + destruct (ts_min_In (map Date data)) as [Habs | Hin]; [congruence|].
      rewrite Hmin in Hin. apply in_map_iff in Hin. destruct Hin as [r [Hr Hin]].
      exists r. split; assumption.
    + destruct (ts_max_In (map Date data)) as [Habs | Hin]; [congruence|].
      rewrite Hmax in Hin. apply in_map_iff in Hin. destruct Hin as [r [Hr Hin]].
      exists r. split; assumption.
    + intros r t Hin Ht.
      assert (Hd : In (Ts t) (map Date data)).
      { rewrite <- Ht. apply in_map. exact Hin. }
      destruct (ts_min_lower _ _ Hd) as [Habs | Hl]; [discriminate|].
      destruct (ts_max_upper _ _ Hd) as [Habs | Hu]; [discriminate|].
      rewrite Hmin in Hl. rewrite Hmax in Hu. simpl in Hl, Hu. lia.
  - intros Hnone. split.
    + destruct (ts_min_In (map Date data)) as [Hnat | Hin]; [exact Hnat|].
      apply in_map_iff in Hin. destruct Hin as [r [Hr Hin]].
      rewrite <- Hr. exact (Hnone r Hin).
    + destruct (ts_max_In (map Date data)) as [Hnat | Hin]; [exact Hnat|].
      apply in_map_iff in Hin. destruct Hin as [r [Hr Hin]].
      rewrite <- Hr. exact (Hnone r Hin).
Qed.

(** X20. The added columns fit the rows: in every line chart of the page
    the Daily Return column and the Cumulative Return column, when the frame
    has them, hold one value for every row of the frame. *)
Theorem chart_columns_aligned (data : list (Row V)) (selected_stock : option string)
    (start_date end_date : Z) (frame : StockFrame V) (x y title : string) :
  In (W_line_chart frame x y title) (analysis_page data selected_stock start_date end_date) ->
  (forall column : list V,
      Daily_Return frame = Some column -> length column = length (frame_rows frame))
  /\ (forall column : list V,
        Cumulative_Return frame = Some column -> length column = length (frame_rows frame)).
Proof.
  unfold analysis_page. destruct data as [|r0 data'].
  - intros [Hin | [Hin | []]]; discriminate Hin.
  - remember (r0 :: data') as rows0. simpl.
    destruct (any (duplicated_first [] (map subset_key rows0))); simpl;
      intros Hin;
      repeat (destruct Hin as [Hin | Hin];
              [first [discriminate Hin
                     | injection Hin as <- _ _ _; simpl; split; intros column Hcol;
                       first [discriminate Hcol
                             | injection Hcol as <-;
                               first [rewrite length_pct_change; apply length_map
                                     | rewrite length_cumulative_return; apply length_map]]]|]);
      destruct Hin.
Qed.

End MoreAnalysisProofs.

Section MoreTableProofs.

Context {V : Type} `{Numeric V}.

Lemma latest_data_empty (data : list (Row V)) :
  latest_data data = [] <-> forall r : Row V, In r data -> Date r = NaT.
Proof.
  split.
  - intros Hempty r Hin. destruct (Date r) as [|t] eqn:Ht; [reflexivity|]. exfalso.
    assert (Hd : In (Ts t) (map Date data)).
    { rewrite <- Ht. apply in_map. exact Hin. }
    destruct (ts_max_upper _ _ Hd) as [Habs | Hle]; [discriminate|].
    destruct (ts_max (map Date data)) as [|m] eqn:Hmax; [discriminate|].
    destruct (ts_max_In (map Date data)) as [Habs | Hm]; [congruence|].
    rewrite Hmax in Hm. apply in_map_iff in Hm. destruct Hm as [r' [Hr' Hin']].
    assert (Hlatest : In r' (latest_data data)).
    { unfold latest_data. apply filter_In. split; [exact Hin'|].
      rewrite Hr', Hmax. simpl. apply Z.eqb_refl. }
    rewrite Hempty in Hlatest. destruct Hlatest.
  - intros Hnone. unfold latest_data. apply filter_none. intros r Hin.
    rewrite (Hnone r Hin). reflexivity.
Qed.

Lemma firstn_nil_iff {A : Type} (n : nat) (xs : list A) :
  firstn (S n) xs = [] <-> xs = [].
Proof. destruct xs; simpl; split; intros Hx; try reflexivity; discriminate Hx. Qed.

Lemma stable_sort_nil_iff {A : Type} (before : A -> A -> bool) (xs : list A) :
  stable_sort before xs = [] <-> xs = [].
Proof.
  split; [|intros ->; reflexivity]. intros Hsort.
  pose proof (stable_sort_perm before xs) as Hperm. rewrite Hsort in Hperm.
  exact (Permutation_nil (Permutation_sym Hperm)).
Qed.

(** X21. The two tables on little data: both are empty exactly when no row
    of the data has a date; when the latest date has at most 5 rows, each of
    the two tables holds all of these rows, so they hold the same rows; and
    a row of either table is always a row of the data. *)
Theorem top_tables_small (data : list (Row V)) :
  (top_gainers data = [] <-> forall r : Row V, In r data -> Date r = NaT)
  /\ (top_losers data = [] <-> forall r : Row V, In r data -> Date r = NaT)
  /\ ((length (latest_data data) <= 5)%nat ->
      Permutation (top_gainers data) (latest_data data)
      /\ Permutation (top_losers data) (latest_data data)
      /\ Permutation (top_gainers data) (top_losers data))
  /\ (forall r : Row V, In r (top_gainers data) \/ In r (top_losers data) -> In r data).
Proof.
  unfold top_gainers, top_losers, nlargest, nsmallest.
  split; [|split; [|split]].
  - rewrite firstn_nil_iff, stable_sort_nil_iff. apply latest_data_empty.
  - rewrite firstn_nil_iff, stable_sort_nil_iff. apply latest_data_empty.
  - intros Hsmall.
    assert (Hg : Permutation
                   (firstn 5 (stable_sort (fun r1 r2 => desc_nan_last (Close r1) (Close r2))
                                (latest_data data)))
                   (latest_data data)).
    { rewrite firstn_all2; [symmetry; apply stable_sort_perm|].
      rewrite <- (Permutation_length (stable_sort_perm _ _)). exact Hsmall. }
    assert (Hl : Permutation
                   (firstn 5 (stable_sort (fun r1 r2 => asc_nan_last (Close r1) (Close r2))
                                (latest_data data)))
                   (latest_data data)).
    { rewrite firstn_all2; [symmetry; apply stable_sort_perm|].
      rewrite <- (Permutation_length (stable_sort_perm _ _)). exact Hsmall. }
    split; [exact Hg|]. split; [exact Hl|].
    exact (Permutation_trans Hg (Permutation_sym Hl)).
  - intros r [Hin | Hin]; apply in_firstn in Hin;
      apply (Permutation_in _ (Permutation_sym (stable_sort_perm _ _))) in Hin;
      unfold latest_data in Hin; apply filter_In in Hin; exact (proj1 Hin).
Qed.

Lemma NoDup_map_filter {A B : Type} (f : A -> B) (g : A -> bool) (xs : list A) :
  List.NoDup (map f xs) -> List.NoDup (map f (List.filter g xs)).
Proof.
  induction xs as [|x xs IH]; simpl; intros Hnodup; [constructor|].
  apply NoDup_cons_iff in Hnodup. destruct Hnodup as [Hx Hnodup].
  destruct (g x); [|exact (IH Hnodup)]. simpl. constructor; [|exact (IH Hnodup)].
  intros Hin. apply Hx. apply in_map_iff in Hin. destruct Hin as [y [Hy Hin]].
  apply filter_In in Hin. apply in_map_iff. exists y. split; [exact Hy | exact (proj1 Hin)].
Qed.

Lemma NoDup_symbols_same_date (d : Timestamp) (xs : list (Row V)) :
  (forall r, In r xs -> Date r = d) ->
  List.NoDup (map subset_key xs) -> List.NoDup (map Symbol xs).
Proof.
  induction xs as [|x xs IH]; simpl; intros Hdate Hnodup; [constructor|].
  apply NoDup_cons_iff in Hnodup. destruct Hnodup as [Hx Hnodup].
  constructor.
  - intros Hin. apply Hx. apply in_map_iff in Hin. destruct Hin as [y [Hy Hin]].
    apply in_map_iff. exists y. split; [|exact Hin].
    unfold subset_key. rewrite Hy, (Hdate x (or_introl eq_refl)), (Hdate y (or_intror Hin)).
    reflexivity.
  - apply IH; [|exact Hnodup]. intros r Hr. apply Hdate. right. exact Hr.
Qed.

Lemma NoDup_firstn {A : Type} (n : nat) (xs : list A) :
  List.NoDup xs -> List.NoDup (firstn n xs).
Proof.
  revert xs; induction n as [|n IH]; intros xs Hnodup; [constructor|].
  destruct xs as [|x xs]; [constructor|]. simpl.
  apply NoDup_cons_iff in Hnodup. destruct Hnodup as [Hx Hnodup].
  constructor; [|exact (IH xs Hnodup)].
  intros Hin. apply Hx. exact (in_firstn _ _ _ Hin).
Qed.

Lemma NoDup_symbols_top (before : Row V -> Row V -> bool) (n : nat) (pool : list (Row V)) :
  List.NoDup (map Symbol pool) ->
  List.NoDup (map Symbol (firstn n (stable_sort before pool))).
Proof.
  intros Hnodup. rewrite <- firstn_map. apply NoDup_firstn.
  apply (Permutation_NoDup (Permutation_map Symbol (stable_sort_perm before pool))).
  exact Hnodup.
Qed.

End MoreTableProofs.

Section TableAfterLoad.

Context {V : Type} `{Numeric V}.
Variable to_datetime : string -> result Timestamp.

(** X22. After [load_data] no stock is listed twice in a table: the rows of
    Top 5 Gainers carry pairwise different symbols and one common date, and
    so do the rows of Top 5 Losers. *)
Theorem top_tables_distinct_symbols (uploaded_file : option (list (RawRow V)))
    (data : list (Row V)) :
  snd (load_data to_datetime uploaded_file) = Ok data ->
  List.NoDup (map Symbol (top_gainers data))
  /\ List.NoDup (map Symbol (top_losers data))
  /\ (forall r : Row V,
        In r (top_gainers data) \/ In r (top_losers data) ->
        Date r = max_date data /\ Date r <> NaT).
Proof.
  intros Hload.
  pose proof (load_data_NoDup to_datetime uploaded_file data Hload) as Hkeys.
  assert (Hdate : forall r : Row V,
             In r (latest_data data) -> Date r = max_date data /\ Date r <> NaT).
  { intros r Hin. unfold latest_data in Hin. apply filter_In in Hin.
    destruct Hin as [_ Heq]. unfold max_date.
    destruct (Date r) as [|t]; [discriminate|].
    destruct (ts_max (map Date data)) as [|m]; [discriminate|].
    simpl in Heq. apply Z.eqb_eq in Heq. subst m. split; [reflexivity | discriminate]. }
  assert (Hsymbols : List.NoDup (map Symbol (latest_data data))).
  { apply (NoDup_symbols_same_date (max_date data)).
    - intros r Hr. exact (proj1 (Hdate r Hr)).
    - unfold latest_data. apply NoDup_map_filter. exact Hkeys. }
  split; [|split].
  - unfold top_gainers, nlargest. apply NoDup_symbols_top. exact Hsymbols.
  - unfold top_losers, nsmallest. apply NoDup_symbols_top. exact Hsymbols.
  - intros r [Hin | Hin]; apply Hdate;
      [unfold top_gainers, nlargest in Hin | unfold top_losers, nsmallest in Hin];
      apply in_firstn in Hin;
      exact (Permutation_in _ (Permutation_sym (stable_sort_perm _ _)) Hin).
Qed.

End TableAfterLoad.

(** The sample upload: two rows on the last day, two symbols in each
    table. *)
Lemma top_tables_distinct_symbols_witness :
  List.NoDup (map Symbol (top_gainers sample_data))
  /\ List.NoDup (map Symbol (top_losers sample_data))
  /\ map Symbol (top_gainers sample_data) = [Some "TCS"; Some "INFY"].
Proof.
  destruct (top_tables_distinct_symbols sample_to_datetime (Some sample_csv) sample_data eq_refl)
    as [Hg [Hl _]].
  split; [exact Hg|]. split; [exact Hl|]. reflexivity.
Defined.

(** The volatility chart of the sample upload for TCS. *)
Lemma chart_columns_aligned_witness :
  (forall column : list (option Q),
      Some (daily_return (map Close (filtered_data sample_data (Some "TCS") 19723 19724)))
      = Some column ->
      length column = length (filtered_data sample_data (Some "TCS") 19723 19724))
  /\ length (daily_return (map Close (filtered_data sample_data (Some "TCS") 19723 19724)))
     = 2%nat.
Proof.
  split; [|reflexivity].
  refine (proj1 (chart_columns_aligned sample_data (Some "TCS") 19723 19724
                   (mkStockFrame (filtered_data sample_data (Some "TCS") 19723 19724)
                      (Some (daily_return
                               (map Close (filtered_data sample_data (Some "TCS") 19723 19724))))
                      None)
                   "Date" "Daily Return" "Volatility of TCS" _)).
  right. right. left. reflexivity.
Defined.

(** * Further properties of BookScape.py, continued *)

Lemma py_slice4_not_null (d y : json) : py_slice4 d = Ok y -> y <> JNull.
Proof. destruct d; simpl; intros Hy; try discriminate Hy; injection Hy as <-; discriminate. Qed.

Lemma not_null_notna (v : json) : v <> JNull -> negb (isna v) = true.
Proof. destruct v; [contradiction | reflexivity..]. Qed.

(** X23. Which books are dropped: for a book that flattens, the row is kept
    if and only if the 18 optional fields are all there with a value other
    than null.  The three remaining cells never cause a drop: authors and
    categories are always texts (empty for a book without them) and
    published_year is never null; for a date of publication that is a text
    it holds its first four characters, and all of them when the text is
    shorter. *)
Theorem row_kept_iff_every_field (book : json) (record : list (string * json)) :
  book_record book = Ok record ->
  (complete (map snd record) = true
   <-> List.Forall (fun lp => lookup_path book (snd lp) <> JNull) field_paths)
  /\ (exists (authors categories : string) (published_year : json),
        assoc "authors" record = Some (JStr authors)
        /\ assoc "categories" record = Some (JStr categories)
        /\ assoc "published_year" record = Some published_year
        /\ published_year <> JNull
        /\ forall date : string,
             lookup_path book ["volumeInfo"; "publishedDate"] = JStr date ->
             published_year = JStr (substring 0 4 date)
             /\ String.length (substring 0 4 date) = Nat.min 4 (String.length date)).
Proof.
  intros Hrec. pose proof (book_record_paths book record Hrec) as Hpaths.
  split.
  - split.
    + intros Hcomplete. apply complete_no_null in Hcomplete.
      rewrite List.Forall_forall in Hcomplete, Hpaths |- *.
      intros lp Hlp Hnull. specialize (Hpaths lp Hlp). rewrite Hnull in Hpaths.
      exact (Hcomplete JNull (assoc_In_snd _ _ _ Hpaths) eq_refl).
    + intros Hfields. unfold book_record in Hrec.
      repeat (apply rbind_Ok in Hrec; destruct Hrec as [? [? Hrec]]).
      injection Hrec as <-. unfold field_paths in Hpaths, Hfields.
      repeat match goal with
             | Hp : List.Forall _ (_ :: _) |- _ =>
                 apply Forall_cons_iff in Hp; destruct Hp as [? Hp]
             | Hp : List.Forall _ [] |- _ => clear Hp
             end.
      simpl assoc in *. simpl fst in *. simpl snd in *.
      unfold complete. simpl.
      repeat match goal with
             | Heq : Some ?v = Some ?l, Hne : ?l <> JNull |- context [isna ?v] =>
                 rewrite (not_null_notna v) by congruence
             end.
      match goal with
      | Hslice : py_slice4 _ = Ok ?y |- _ =>
          rewrite (not_null_notna y (py_slice4_not_null _ _ Hslice))
      end.
      reflexivity.
  - unfold book_record in Hrec.
    repeat (apply rbind_Ok in Hrec; destruct Hrec as [? [? Hrec]]).
    injection Hrec as <-.
    match goal with
    | Hslice : py_slice4 ?d = Ok ?y, Ha : py_join _ _ = Ok ?a, Hc : py_join _ ?cl = Ok ?c,
      Hd : py_get ?vi "publishedDate" (JStr "") = Ok ?d,
      Hvi : py_get book "volumeInfo" (JObj []) = Ok ?vi |- _ =>
        exists a, c, y; simpl assoc;
        split; [reflexivity|]; split; [reflexivity|]; split; [reflexivity|];
        split; [exact (py_slice4_not_null _ _ Hslice)|];
        intros date Hdate;
        assert (Hd' : d = JStr date);
        [ destruct book as [| | | | |fs]; try discriminate Hvi;
          simpl in Hvi, Hdate; injection Hvi as <-;
          destruct (assoc "volumeInfo" fs) as [vi0|]; [|discriminate Hdate];
          destruct vi0 as [| | | | |vfs]; try discriminate Hdate;
          simpl in Hd; injection Hd as <-;
          destruct (assoc "publishedDate" vfs); [exact Hdate | discriminate Hdate]
        | subst d; simpl in Hslice; injection Hslice as <-; split; [reflexivity|] ]
    end.
    clear. generalize 4%nat. intros n. revert n.
    induction date as [|ch date IH]; intros n; destruct n; simpl; try reflexivity.
    rewrite IH. reflexivity.
Qed.

(** The full sample book: every field is there and the row is complete. *)
Lemma row_kept_iff_every_field_witness :
  exists record : list (string * json),
    book_record sample_book_full = Ok record
    /\ (complete (map snd record) = true
        <-> List.Forall (fun lp => lookup_path sample_book_full (snd lp) <> JNull) field_paths)
    /\ assoc "published_year" record = Some (JStr "2019").
Proof.
  eexists. split; [reflexivity|]. split; [|reflexivity].
  exact (proj1 (row_kept_iff_every_field sample_book_full _ eq_refl)).
Defined.

(** An HTTP client whose body is a JSON list, under status 200 and under
    status 503. *)
Definition http_list_body (status : Z) (_ : string) (_ : Z) : result Response :=
  Ok (mkResponse status (Ok (JArr [sample_book_full]))).

Section FetchProofs.

Variable requests_get : string -> Z -> result Response.

(** X24. The status is tested before the body is read.  Under status 200 a
    body that cannot be decoded, or that is no JSON object, makes the
    "Search" button raise (the decoder's exception, or an AttributeError for
    the missing [get]) with nothing rendered and nothing stored; under any
    other status the same response is reported as "No books found.", the body
    never being looked at. *)
Theorem search_unusable_body (i : Inputs) (w : World) (response : Response) :
  search_clicked i = true ->
  requests_get (query i) 40 = Ok response ->
  (status_code response = 200 ->
     (forall e : exn,
        response_json response = Raise e ->
        search_section requests_get i w = (Raise e, w))
     /\ (forall body : json,
           response_json response = Ok body ->
           is_dict body = false ->
           search_section requests_get i w = (Raise (AttributeError "'get'"), w)))
  /\ (status_code response <> 200 ->
      search_section requests_get i w
      = (Ok tt, mkWorld (db w) (trace w) (screen w ++ [St_error "No books found."]))).
Proof.
  intros Hclick Hget. unfold search_section, bind, lift, fetch_books.
  rewrite Hclick, Hget. simpl. split.
  - intros ->. simpl. split.
    + intros e ->. reflexivity.
    + intros body -> Hbody. destruct body; try reflexivity. discriminate Hbody.
  - intros Hstatus. destruct (Z.eqb_spec (status_code response) 200) as [Heq | _];
      [contradiction | reflexivity].
Qed.

End FetchProofs.

(** A body that is a list: an exception under 200, no books under 503. *)
Lemma search_unusable_body_witness :
  search_section (http_list_body 200) inputs_search sample_world
  = (Raise (AttributeError "'get'"), sample_world)
  /\ search_section (http_list_body 503) inputs_search sample_world
     = (Ok tt, mkWorld (db sample_world) (trace sample_world) [St_error "No books found."]).
Proof.
  split.
  - refine (proj2 (proj1 (search_unusable_body (http_list_body 200) inputs_search sample_world
                            (mkResponse 200 (Ok (JArr [sample_book_full]))) eq_refl eq_refl)
                     eq_refl)
              (JArr [sample_book_full]) eq_refl eq_refl).
  - refine (proj2 (search_unusable_body (http_list_body 503) inputs_search sample_world
                     (mkResponse 503 (Ok (JArr [sample_book_full]))) eq_refl eq_refl) _).
    intros Heq. discriminate Heq.
Defined.
